(** * Day One to Obsidian converter: a shallow embedding of [converter.js]

    The development follows the class [DayOneToObsidian]: the text
    normaliser, the media index, the frontmatter builder, the filename
    resolver, the deduplicator and the conversion loop, in that order,
    followed by the properties proved about them. *)

From Stdlib Require Import ZArith NArith List String Ascii QArith Qround Lia.
From stdpp Require Import base option list gmap.

From Stdlib Require Import DecimalString HexadecimalString.

Close Scope Q_scope.
Open Scope Z_scope.

#[local] Set Warnings "-register-all".

(** ** JavaScript strings

    A JavaScript string is a sequence of UTF-16 code units; [charCodeAt]
    returns the unit at an index.  A string is modelled as the list of its
    code units, so that the regular-expression classes of the source
    ([\s], [\w], [.]) keep their full meaning. *)

Abbreviation jschar := N (only parsing).
Abbreviation jsstring := (list N) (only parsing).

(** Literals of the source are written as Rocq strings and read unit by
    unit (all literals of the source but one are ASCII). *)
Definition js (s : string) : jsstring :=
  List.map N_of_ascii (list_ascii_of_string s).

Definition ch (c : ascii) : jschar := N_of_ascii c.

Definition BACKSLASH : jschar := 92%N.
Definition LF : jschar := 10%N.
Definition ZWSP : jschar := 8203%N.      (* U+200B *)

(** [LineTerminator] of ECMAScript: LF, CR, LS, PS.  The dot of a regular
    expression (without the [s] flag) matches every unit but these. *)
Definition is_line_terminator (c : jschar) : bool :=
  (c =? 10)%N || (c =? 13)%N || (c =? 8232)%N || (c =? 8233)%N.

(** The class [\s], which is also what [String.prototype.trim] removes:
    [WhiteSpace] and [LineTerminator]. *)
Definition is_space (c : jschar) : bool :=
  ((9 <=? c) && (c <=? 13))%N            (* TAB LF VT FF CR *)
  || (c =? 32)%N || (c =? 160)%N || (c =? 5760)%N
  || ((8192 <=? c) && (c <=? 8202))%N    (* U+2000 .. U+200A *)
  || (c =? 8232)%N || (c =? 8233)%N || (c =? 8239)%N
  || (c =? 8287)%N || (c =? 12288)%N || (c =? 65279)%N.

(** The class [\w]: [A-Za-z0-9_]. *)
Definition is_word (c : jschar) : bool :=
  ((65 <=? c) && (c <=? 90))%N || ((97 <=? c) && (c <=? 122))%N
  || ((48 <=? c) && (c <=? 57))%N || (c =? 95)%N.

Fixpoint dropWhile (p : jschar -> bool) (s : jsstring) : jsstring :=
  match s with
  | [] => []
  | c :: s' => if p c then dropWhile p s' else s
  end.

Fixpoint takeWhile (p : jschar -> bool) (s : jsstring) : jsstring :=
  match s with
  | [] => []
  | c :: s' => if p c then c :: takeWhile p s' else []
  end.

(** [s.trim()] *)
Definition trim (s : jsstring) : jsstring :=
  rev (dropWhile is_space (rev (dropWhile is_space s))).

(** [s.slice(0, n)] for a non-negative [n] *)
Definition slice0 (n : nat) (s : jsstring) : jsstring := firstn n s.

(** [s.startsWith(p)] *)
Fixpoint startsWith (p s : jsstring) : bool :=
  match p, s with
  | [], _ => true
  | a :: p', b :: s' => (a =? b)%N && startsWith p' s'
  | _ :: _, [] => false
  end.

(** [s.endsWith(p)] *)
Definition endsWith (p s : jsstring) : bool := startsWith (rev p) (rev s).

(** [s.includes(p)] *)
Fixpoint includes (p s : jsstring) : bool :=
  startsWith p s || match s with [] => false | _ :: s' => includes p s' end.

(** [s.split('\n')]: never empty; the pieces hold no LF. *)
Fixpoint split_lines (s : jsstring) : list jsstring :=
  match s with
  | [] => [[]]
  | c :: s' =>
      if (c =? LF)%N then [] :: split_lines s'
      else match split_lines s' with
           | l :: ls => (c :: l) :: ls
           | [] => [[c]]
           end
  end.

(** [s.split('/').pop()]: what follows the last slash. *)
Definition after_last_slash (s : jsstring) : jsstring :=
  rev (takeWhile (fun c => negb (c =? ch "/")%N) (rev s)).

(** ** Text normaliser *)

(** [text.replace(/\\c/g, 'c')] for one punctuation mark [c]: the pattern
    is the two units backslash, [c]; matches cannot overlap, and the scan
    resumes after a match. *)
Fixpoint replace_escaped (c : jschar) (text : jsstring) : jsstring :=
  match text with
  | [] => []
  | a :: tl =>
      match tl with
      | b :: rest =>
          if (a =? BACKSLASH)%N && (b =? c)%N
          then c :: replace_escaped c rest
          else a :: replace_escaped c tl
      | [] => [a]
      end
  end.

(** [unescapeDayoneMarkdown]: thirteen replacements, one after the other,
    in the order of the source. *)
Definition unescapeDayoneMarkdown (text : jsstring) : jsstring :=
  let t := replace_escaped (ch ".") text in
  let t := replace_escaped (ch "-") t in
  let t := replace_escaped (ch "(") t in
  let t := replace_escaped (ch ")") t in
  let t := replace_escaped (ch "[") t in
  let t := replace_escaped (ch "]") t in
  let t := replace_escaped (ch "#") t in
  let t := replace_escaped (ch ">") t in
  let t := replace_escaped (ch "_") t in
  let t := replace_escaped (ch "*") t in
  let t := replace_escaped (ch "`") t in
  let t := replace_escaped (ch "~") t in
  replace_escaped (ch "!") t.

(** *** Media placeholders

    Both placeholder expressions of the source have the shape
    [!\[\]\(dayone-moment:\/\/CLASS+\)] where [CLASS] is a character class
    that excludes the closing parenthesis.  [CLASS+] is greedy; since the
    unit that must follow is not in the class, giving units back can never
    make the expression match, so it matches exactly when the longest run
    of class units is non-empty and is followed by the parenthesis. *)

Definition PLACEHOLDER_OPEN : jsstring := js "![](dayone-moment://".
Definition RPAREN : jschar := ch ")".

Fixpoint strip_prefix (p s : jsstring) : option jsstring :=
  match p, s with
  | [], _ => Some s
  | a :: p', b :: s' => if (a =? b)%N then strip_prefix p' s' else None
  | _ :: _, [] => None
  end.

(** A match at the very start of [text]: the captured group, and the text
    after the match. *)
Definition match_placeholder (cls : jschar -> bool) (text : jsstring)
  : option (jsstring * jsstring) :=
  match strip_prefix PLACEHOLDER_OPEN text with
  | Some body =>
      match takeWhile cls body, dropWhile cls body with
      | (_ :: _) as id, c :: rest =>
          if (c =? RPAREN)%N then Some (id, rest) else None
      | _, _ => None
      end
  | None => None
  end.

(** [text.replace(/!\[\]\(dayone-moment:\/\/CLASS+\)/g, repl)]: the text is
    scanned from the left; a match is replaced and the scan resumes after
    it, any other unit is copied.  [fuel] bounds the number of steps; the
    length of the text is always enough. *)
Fixpoint replace_placeholders (fuel : nat) (cls : jschar -> bool)
    (repl : jsstring -> jsstring) (text : jsstring) : jsstring :=
  match fuel with
  | O => text
  | S fuel' =>
      match text with
      | [] => []
      | c :: tl =>
          match match_placeholder cls text with
          | Some (id, rest) => repl id ++ replace_placeholders fuel' cls repl rest
          | None => c :: replace_placeholders fuel' cls repl tl
          end
      end
  end.

(** [[A-F0-9]] *)
Definition is_upper_hex (c : jschar) : bool :=
  ((65 <=? c) && (c <=? 70))%N || ((48 <=? c) && (c <=? 57))%N.

(** [[^)]] *)
Definition is_not_rparen (c : jschar) : bool := negb (c =? RPAREN)%N.

(** ** Data model

    The records follow the JSON of a Day One export.  An optional property
    is an [option]; [None] is a property that is absent ([undefined]) or
    [null]: the source reads the two alike, by their truthiness, everywhere
    but in [new Date(entry.creationDate)], and [creationDate] has a type of
    its own.  Numbers of the JSON are rationals (every finite double is
    one); pixel sizes are integers that a double holds exactly. *)

(** [Number.MAX_SAFE_INTEGER], 2^53 - 1. *)
Definition MAX_SAFE_INTEGER : Z := 9007199254740991.

(** A pixel size: an integer up to [MAX_SAFE_INTEGER] in absolute value.
    [String] prints such a number as its decimal digits. *)
Record Pixels := {
  pixels : Z;
  pixels_safe : (Z.abs pixels <=? MAX_SAFE_INTEGER) = true
}.

(** An item of [photos], [videos], [audios] or [pdfAttachments].
    [identifier] and [md5] are strings in every export. *)
Record Attachment := {
  identifier : jsstring;
  md5 : jsstring;
  type : option jsstring;
  cameraMake : option jsstring;
  cameraModel : option jsstring;
  lensModel : option jsstring;
  date : option jsstring;
  width : option Pixels;
  height : option Pixels
}.

(** A value of [photoMap]: [{ md5, type }]. *)
Record Media := { media_md5 : jsstring; media_type : jsstring }.

(** Truthiness of an optional string: [undefined] and [''] are falsy. *)
Definition truthy_str (o : option jsstring) : bool :=
  match o with Some (_ :: _) => true | _ => false end.

(** [o || d] for an optional string [o] *)
Definition or_default (o : option jsstring) (d : jsstring) : jsstring :=
  match o with Some ((_ :: _) as s) => s | _ => d end.

(** [convertImageReferences] *)
Definition media_link (m : Media) : jsstring :=
  js "![[" ++ media_md5 m ++ js "." ++ media_type m ++ js "]]".

Definition missing_media (id : jsstring) : jsstring :=
  js "<!-- Missing media: " ++ id ++ js " -->".

Definition image_replacement (photoMap : gmap (list N) Media) (id : jsstring)
  : jsstring :=
  match photoMap !! id with
  | Some media => media_link media
  | None => missing_media id
  end.

Definition convertImageReferences (photoMap : gmap (list N) Media)
    (text : jsstring) : jsstring :=
  replace_placeholders (length text) is_upper_hex
    (image_replacement photoMap) text.

(** What [convertContent] does to [entry.text]: unescape, rewrite the
    references, drop the zero-width spaces. *)
Definition convertContent_text (photoMap : gmap (list N) Media)
    (text : option jsstring) : jsstring :=
  let text := or_default text [] in
  let text := unescapeDayoneMarkdown text in
  let text := convertImageReferences photoMap text in
  List.filter (fun c => negb (c =? ZWSP)%N) text.

Record Location := {
  placeName : option jsstring;
  localityName : option jsstring;
  administrativeArea : option jsstring;
  country : option jsstring;
  latitude : option Q;
  longitude : option Q
}.

Record Weather := {
  conditionsDescription : option jsstring;
  temperatureCelsius : option Q;
  relativeHumidity : option Q;
  pressureMB : option Q;
  windSpeedKPH : option Q;
  windBearing : option Q;
  visibilityKM : option Q;
  moonPhaseCode : option jsstring
}.

Record Activity := {
  activityName : option jsstring;
  stepCount : option Q
}.

(** [entry.creationDate]: absent, [null], or a string.  [new Date(null)]
    is the epoch and [new Date(undefined)] an invalid date. *)
Inductive CreationDate :=
| DateAbsent
| DateNull
| DateString (s : jsstring).

(** The string of a creation date, for the tests of its truthiness. *)
Definition date_string (d : CreationDate) : option jsstring :=
  match d with
  | DateString s => Some s
  | DateAbsent | DateNull => None
  end.

(** An entry of the journal.  A flag that is absent reads as [false], a
    list that is absent as the empty list: the source treats the two
    alike. *)
Record Entry := {
  uuid : option jsstring;
  text : option jsstring;
  creationDate : CreationDate;
  modifiedDate : option jsstring;
  timeZone : option jsstring;
  starred : bool;
  isPinned : bool;
  isAllDay : bool;
  tags : list jsstring;
  location : option Location;
  weather : option Weather;
  userActivity : option Activity;
  creationDevice : option jsstring;
  creationDeviceType : option jsstring;
  creationDeviceModel : option jsstring;
  creationOSName : option jsstring;
  creationOSVersion : option jsstring;
  photos : list Attachment;
  videos : list Attachment;
  audios : list Attachment;
  pdfAttachments : list Attachment;
  editingTime : option Q
}.

(** [convertContent] *)
Definition convertContent (photoMap : gmap (list N) Media) (entry : Entry)
  : jsstring :=
  convertContent_text photoMap (text entry).

(** ** Media indexer *)

(** One [for ... of] loop of [buildPhotoMap]: every item is [set] under its
    identifier, a later item replacing an earlier one. *)
Definition register_all (kind_of : Attachment -> jsstring)
    (items : list Attachment) (photoMap : gmap (list N) Media)
  : gmap (list N) Media :=
  fold_left
    (fun m a => <[identifier a := {| media_md5 := md5 a; media_type := kind_of a |}]> m)
    items photoMap.

(** [buildPhotoMap] *)
Definition buildPhotoMap (photoMap : gmap (list N) Media) (entry : Entry)
  : gmap (list N) Media :=
  let m := register_all (fun photo => or_default (type photo) (js "jpeg"))
             (photos entry) photoMap in
  let m := register_all (fun video => or_default (type video) (js "mov"))
             (videos entry) m in
  let m := register_all (fun audio => or_default (type audio) (js "m4a"))
             (audios entry) m in
  register_all (fun pdf => js "pdf") (pdfAttachments entry) m.

(** ** Frontmatter builder

    The object [fm] is a list of keys and values in the order of their
    assignment, which is the order in which a JavaScript object lists its
    string keys. *)

Inductive yaml :=
| YStr (s : jsstring)
| YNum (q : Q)
| YBool (b : bool)
| YSeq (items : list yaml)
| YMap (fields : list (string * yaml))
| YInherited (name : jsstring).   (* the value of [Object.prototype[name]] *)

Abbreviation object := (list (string * yaml)) (only parsing).

(** [obj[key]] *)
Fixpoint get (key : string) (obj : object) : option yaml :=
  match obj with
  | [] => None
  | (k, v) :: obj' => if String.eqb k key then Some v else get key obj'
  end.

(** [if (x) obj.key = x] for an optional string: set when truthy. *)
Definition set_str (key : string) (o : option jsstring) : object :=
  match o with
  | Some ((_ :: _) as s) => [(key, YStr s)]
  | _ => []
  end.

(** The same for a number: [undefined] and zero are falsy. *)
Definition set_num (key : string) (o : option Q) : object :=
  match o with
  | Some q => if Qeq_bool q 0 then [] else [(key, YNum q)]
  | None => []
  end.

(** [if (x && x > 0) obj.key = x] *)
Definition set_pos (key : string) (o : option Q) : object :=
  match o with
  | Some q => if Qle_bool q 0 then [] else [(key, YNum q)]
  | None => []
  end.

(** [if (x) obj.key = x] for a flag *)
Definition set_flag (key : string) (b : bool) : object :=
  if b then [(key, YBool true)] else [].

(** [if (Object.keys(sub).length > 0) obj.key = sub] *)
Definition set_sub (key : string) (sub : object) : object :=
  match sub with
  | [] => []
  | _ :: _ => [(key, YMap sub)]
  end.

(** The table [WEATHER_CODES]; the source defines it and reads it
    nowhere. *)
Definition WEATHER_CODES : list (string * string) :=
  [ ("clear", "Clear");
    ("clear-day", "Clear");
    ("clear-night", "Clear Night");
    ("cloudy", "Cloudy");
    ("cloudy-night", "Cloudy Night");
    ("partly-cloudy", "Partly Cloudy");
    ("partly-cloudy-day", "Partly Cloudy");
    ("partly-cloudy-night", "Partly Cloudy Night");
    ("rain", "Rain");
    ("snow", "Snow");
    ("sleet", "Sleet");
    ("wind", "Windy");
    ("fog", "Fog");
    ("hail", "Hail");
    ("thunderstorm", "Thunderstorm") ]%string.

(** The table [MOON_PHASES], an object literal: its own properties. *)
Definition MOON_PHASES : list (string * string) :=
  [ ("new", "New Moon");
    ("waxing-crescent", "Waxing Crescent");
    ("first-quarter", "First Quarter");
    ("waxing-gibbous", "Waxing Gibbous");
    ("full", "Full Moon");
    ("waning-gibbous", "Waning Gibbous");
    ("last-quarter", "Last Quarter");
    ("waning-crescent", "Waning Crescent") ]%string.

Fixpoint table_get (table : list (string * string)) (code : jsstring)
  : option jsstring :=
  match table with
  | [] => None
  | (k, v) :: table' =>
      if decide (js k = code) then Some (js v) else table_get table' code
  end.

(** The properties that a plain object inherits from [Object.prototype]:
    those of ECMAScript and of its Annex B, which every browser has.  Each
    is a function, but [__proto__], which reads as the prototype itself;
    all of them are truthy. *)
Definition OBJECT_PROTOTYPE : list string :=
  [ "constructor"; "hasOwnProperty"; "isPrototypeOf"; "propertyIsEnumerable";
    "toLocaleString"; "toString"; "valueOf"; "__proto__";
    "__defineGetter__"; "__defineSetter__"; "__lookupGetter__";
    "__lookupSetter__" ]%string.

Definition is_inherited (name : jsstring) : bool :=
  existsb (fun k => bool_decide (js k = name)) OBJECT_PROTOTYPE.

(** [table[code]] on the object literal [table]: an own property, or else
    an inherited one; [None] is [undefined]. *)
Definition plain_object_get (table : list (string * string)) (code : jsstring)
  : option yaml :=
  match table_get table code with
  | Some label => Some (YStr label)
  | None => if is_inherited code then Some (YInherited code) else None
  end.

(** [if (w.moonPhaseCode && MOON_PHASES[w.moonPhaseCode]) ...] *)
Definition set_moon (key : string) (code : option jsstring) : object :=
  match code with
  | Some ((_ :: _) as c) =>
      match plain_object_get MOON_PHASES c with
      | Some value => [(key, value)]
      | None => []
      end
  | _ => []
  end.

(** The block [// Weather] of [buildFrontmatter]: the object [weather]. *)
Definition weather_object (w : Weather) : object :=
  set_str "conditions" (conditionsDescription w)
  ++ set_num "temperature_c" (temperatureCelsius w)
  ++ set_pos "humidity" (relativeHumidity w)
  ++ set_num "pressure_mb" (pressureMB w)
  ++ set_num "wind_speed_kph" (windSpeedKPH w)
  ++ set_num "wind_bearing" (windBearing w)
  ++ set_pos "visibility_km" (visibilityKM w)
  ++ set_moon "moon_phase" (moonPhaseCode w).

Definition location_object (loc : Location) : object :=
  set_str "name" (placeName loc)
  ++ set_str "locality" (localityName loc)
  ++ set_str "region" (administrativeArea loc)
  ++ set_str "country" (country loc)
  ++ set_num "latitude" (latitude loc)
  ++ set_num "longitude" (longitude loc).

Definition activity_object (activity : Activity) : object :=
  set_str "type" (activityName activity)
  ++ set_num "steps" (stepCount activity).

Definition device_object (entry : Entry) : object :=
  if truthy_str (creationDevice entry) || truthy_str (creationDeviceType entry)
  then set_str "name" (creationDevice entry)
       ++ set_str "type" (creationDeviceType entry)
       ++ set_str "model" (creationDeviceModel entry)
       ++ set_str "os" (creationOSName entry)
       ++ set_str "os_version" (creationOSVersion entry)
  else [].

(** [s.replace(/\s+/g, r)] for a one-unit [r]: every maximal run of
    white space becomes one [r]. *)
Fixpoint replace_space_runs (r : jschar) (s : jsstring) : jsstring :=
  match s with
  | [] => []
  | c :: tl =>
      if is_space c then
        match tl with
        | d :: _ => if is_space d then replace_space_runs r tl
                    else r :: replace_space_runs r tl
        | [] => [r]
        end
      else c :: replace_space_runs r tl
  end.

(** [toLowerCase] on the units that [sanitizeTag] lets through. *)
Definition to_lower (c : jschar) : jschar :=
  if ((65 <=? c) && (c <=? 90))%N then (c + 32)%N else c.

(** [sanitizeTag] *)
Definition sanitizeTag (tag : jsstring) : jsstring :=
  let t := replace_space_runs (ch "-") tag in
  let t := List.filter (fun c => is_word c || (c =? ch "-")%N) t in
  List.map to_lower t.

(** [String(n)] for an integer [n] *)
Definition number_to_string (n : Z) : jsstring :=
  js (DecimalString.NilZero.string_of_int (Z.to_int n)).

(** [Math.round] *)
Definition Math_round (q : Q) : Z := Qfloor (q + (1 # 2))%Q.

(** The [photoMeta] object of one photo. *)
Definition photo_meta (photo : Attachment) : object :=
  let camera :=
    match truthy_str (cameraMake photo), truthy_str (cameraModel photo) with
    | true, true =>
        or_default (cameraMake photo) [] ++ js " " ++ or_default (cameraModel photo) []
    | true, false => or_default (cameraMake photo) []
    | false, true => or_default (cameraModel photo) []
    | false, false => []
    end in
  [ ("file", YStr (md5 photo ++ js "." ++ or_default (type photo) (js "jpeg")));
    ("identifier", YStr (identifier photo)) ]%string
  ++ set_str "camera" (Some (trim camera))
  ++ set_str "lens" (lensModel photo)
  ++ set_str "date" (date photo)
  ++ match width photo, height photo with
     | Some w, Some h =>
         if (pixels w =? 0) || (pixels h =? 0) then []
         else [("dimensions"%string,
                YStr (number_to_string (pixels w) ++ js "x"
                      ++ number_to_string (pixels h)))]
     | _, _ => []
     end.

(** [buildFrontmatter], up to its call of [jsyaml.dump]: the object [fm].
    The text that the library makes of the object is outside the
    embedding, and a converted file keeps the object itself; whether the
    library returns is [dump_frontmatter] below. *)
Definition buildFrontmatter (entry : Entry) : object :=
  set_str "uuid" (uuid entry)
  ++ set_str "created" (date_string (creationDate entry))
  ++ set_str "modified" (modifiedDate entry)
  ++ set_str "timezone" (timeZone entry)
  ++ set_flag "starred" (starred entry)
  ++ set_flag "pinned" (isPinned entry)
  ++ set_flag "all_day" (isAllDay entry)
  ++ match tags entry with
     | [] => []
     | ts => [("tags"%string, YSeq (List.map (fun t => YStr (sanitizeTag t)) ts))]
     end
  ++ match location entry with
     | Some loc => set_sub "location" (location_object loc)
     | None => []
     end
  ++ match weather entry with
     | Some w => set_sub "weather" (weather_object w)
     | None => []
     end
  ++ match userActivity entry with
     | Some activity => set_sub "activity" (activity_object activity)
     | None => []
     end
  ++ set_sub "device" (device_object entry)
  ++ match photos entry with
     | [] => []
     | ps => [("photos"%string, YSeq (List.map (fun p => YMap (photo_meta p)) ps))]
     end
  ++ match editingTime entry with
     | Some q =>
         if Qle_bool q 0 then []
         else [("editing_time_seconds"%string, YNum (inject_Z (Math_round q)))]
     | None => []
     end.

(** ** Deduplicator *)

(** [ToInt32]: what [hash & hash] and [<<] do to an integer. *)
Definition to_int32 (z : Z) : Z := (z + 2 ^ 31) mod 2 ^ 32 - 2 ^ 31.

(** [hash.toString(16)] *)
Definition to_hex_string (z : Z) : jsstring :=
  js (HexadecimalString.NilZero.string_of_int (Z.to_hex_int z)).

(** The loop of [hashString]. *)
Definition hash_step (hash : Z) (char : jschar) : Z :=
  let hash := to_int32 (Z.shiftl hash 5) - hash + Z.of_N char in
  to_int32 hash.

Definition hashString (str : jsstring) : jsstring :=
  to_hex_string (fold_left hash_step str 0).

(** ** Filename resolver *)

(** *** The date prefix: [date.toISOString().split('T')[0]] *)

(** Year, month and day of a day number counted from 1970-01-01, in the
    proleptic Gregorian calendar ([YearFromTime], [MonthFromTime] and
    [DateFromTime] of ECMAScript, computed era by era). *)
Definition civil_from_days (days : Z) : Z * Z * Z :=
  let z := days + 719468 in
  let era := z / 146097 in
  let doe := z - era * 146097 in
  let yoe := (doe - doe / 1460 + doe / 36524 - doe / 146096) / 365 in
  let doy := doe - (365 * yoe + yoe / 4 - yoe / 100) in
  let mp := (5 * doy + 2) / 153 in
  let d := doy - (153 * mp + 2) / 5 + 1 in
  let m := if mp <? 10 then mp + 3 else mp - 9 in
  let y := yoe + era * 400 + (if m <=? 2 then 1 else 0) in
  (y, m, d).

(** The last [width] decimal digits of [n], zero padded. *)
Fixpoint pad (width : nat) (n : Z) : jsstring :=
  match width with
  | O => []
  | S w => pad w (n / 10) ++ [Z.to_N (48 + n mod 10)]
  end.

(** Years 0 to 9999 are written with four digits, the others with a sign
    and six digits. *)
Definition iso_year (y : Z) : jsstring :=
  if (0 <=? y) && (y <=? 9999) then pad 4 y
  else (if y <? 0 then ch "-" else ch "+") :: pad 6 (Z.abs y).

Definition MS_PER_DAY : Z := 86400000.

(** The part of [toISOString()] before the [T], for a time value [t]. *)
Definition iso_date (t : Z) : jsstring :=
  let '(y, m, d) := civil_from_days (t / MS_PER_DAY) in
  iso_year y ++ js "-" ++ pad 2 m ++ js "-" ++ pad 2 d.

(** *** Titles *)

(** The lazy [(.+?)] of the heading expression has taken its first unit;
    it takes further units until what follows is [\n], a backslash and an
    [n], or the end of a line ([$] with the [m] flag). *)
Fixpoint heading_rest (s : jsstring) : jsstring :=
  match s with
  | [] => []
  | c :: tl =>
      if is_line_terminator c then []
      else if (c =? BACKSLASH)%N
              && match tl with n :: _ => (n =? ch "n")%N | [] => false end
      then []
      else c :: heading_rest tl
  end.

(** [/^#\s+(.+?)(?:\n|\\n|$)/m] tried at one line start: the captured
    group.  After the [#], [\s+] takes the longest run of white space.  If
    a unit follows the run, it is not white space, and the group starts
    there.  If the run reaches the end of the text, [\s+] gives units back
    until the unit given back last is not a line terminator (the dot
    refuses those); the group is that one unit, and [\s+] must keep at
    least one unit. *)
Definition heading_at (s : jsstring) : option jsstring :=
  match s with
  | h :: rest =>
      if (h =? ch "#")%N then
        match takeWhile is_space rest, dropWhile is_space rest with
        | [], _ => None
        | _ :: _, x :: after => Some (x :: heading_rest after)
        | _ :: ws, [] =>
            match dropWhile is_line_terminator (rev ws) with
            | c :: _ => Some [c]
            | [] => None
            end
        end
      else None
  | [] => None
  end.

(** [text.match(...)]: the first position, from the left, that starts a
    line ([^] with the [m] flag) and where the expression matches. *)
Fixpoint heading_match (line_start : bool) (s : jsstring) : option jsstring :=
  match s with
  | [] => None
  | c :: tl =>
      match (if line_start then heading_at s else None) with
      | Some group => Some group
      | None => heading_match (is_line_terminator c) tl
      end
  end.

(** [s.replace(/^#+\s*/, '')] *)
Definition strip_heading_marks (s : jsstring) : jsstring :=
  match s with
  | c :: _ =>
      if (c =? ch "#")%N
      then dropWhile is_space (dropWhile (fun c => (c =? ch "#")%N) s)
      else s
  | [] => []
  end.

(** [s.replace(/!\[\]\(dayone-moment:\/\/[^)]+\)/g, '')] *)
Definition remove_placeholders (s : jsstring) : jsstring :=
  replace_placeholders (length s) is_not_rparen (fun _ => []) s.

(** [extractTitle]; [None] is [null]. *)
Definition extractTitle (text : option jsstring) : option jsstring :=
  match text with
  | None | Some [] => None
  | Some text =>
      match heading_match true text with
      | Some group => Some (trim (unescapeDayoneMarkdown group))
      | None =>
          match List.find (fun l => negb (Nat.eqb (length (trim l)) 0))
                          (split_lines text) with
          | None => None
          | Some firstLine =>
              let title := trim (strip_heading_marks (remove_placeholders firstLine)) in
              match title with
              | [] => None
              | _ => Some (slice0 50 (unescapeDayoneMarkdown title))
              end
          end
      end
  end.

(** The class of [safeTitle]: slash, backslash, colon, star, question
    mark, double quote (unit 34), angle brackets and bar. *)
Definition is_hostile (c : jschar) : bool :=
  (c =? ch "/")%N || (c =? BACKSLASH)%N || (c =? ch ":")%N || (c =? ch "*")%N
  || (c =? ch "?")%N || (c =? 34)%N || (c =? ch "<")%N || (c =? ch ">")%N
  || (c =? ch "|")%N.

(** The chain that makes [safeTitle]. *)
Definition sanitize_title (title : jsstring) : jsstring :=
  let t := List.map (fun c => if is_hostile c then ch "-" else c) title in
  let t := replace_space_runs (ch " ") t in
  slice0 50 (trim t).

(** ** Run state and errors *)

(** What a run can throw. *)
Inductive error :=
| NoJsonFile      (* Error('No JSON file found in ZIP') *)
| SyntaxError     (* JSON.parse *)
| TypeError       (* a property of undefined or null *)
| RangeError      (* toISOString of an invalid date *)
| YAMLException.  (* jsyaml.dump *)

Inductive result (A : Type) :=
| Ok (a : A)
| Throw (e : error).
Arguments Ok {A} a.
Arguments Throw {A} e.

Definition bind {A B} (r : result A) (k : A -> result B) : result B :=
  match r with
  | Ok a => k a
  | Throw e => Throw e
  end.

Notation "'try' x <- r ; k" := (bind r (fun x => k))
  (at level 10, x pattern, r at level 100, k at level 200).

(** The fields of [DayOneToObsidian]; [onProgress] only reports and is
    left out. *)
Record State := {
  allowDuplicates : bool;
  photoMap : gmap (list N) Media;
  usedFilenames : gset (list N);
  seenEntries : gmap (list N) (list N);
  skippedDuplicates : nat
}.

(** [new DayOneToObsidian(options)] *)
Definition constructor (allow : bool) : State :=
  {| allowDuplicates := allow; photoMap := ∅; usedFilenames := ∅;
     seenEntries := ∅; skippedDuplicates := 0 |}.

(** [shouldSkipDuplicate] *)
Definition shouldSkipDuplicate (this : State) (entry : Entry) : bool :=
  if allowDuplicates this then false
  else match uuid entry with
       | Some ((_ :: _) as uuid) =>
           let content := or_default (text entry) [] in
           let contentHash := hashString content in
           match seenEntries this !! uuid with
           | Some seen => bool_decide (seen = contentHash)
           | None => false
           end
       | _ => false
       end.

(** [recordEntry] *)
Definition recordEntry (this : State) (entry : Entry) : State :=
  match uuid entry with
  | Some ((_ :: _) as uuid) =>
      let content := or_default (text entry) [] in
      let contentHash := hashString content in
      {| allowDuplicates := allowDuplicates this;
         photoMap := photoMap this;
         usedFilenames := usedFilenames this;
         seenEntries := <[uuid := contentHash]> (seenEntries this);
         skippedDuplicates := skippedDuplicates this |}
  | _ => this
  end.

(** A file of the output archive: a converted entry (the frontmatter
    object and the body that follows it) or the bytes of a media file. *)
Inductive FileData :=
| Markdown (frontmatter : object) (content : jsstring)
| Binary (data : list N).

(** A file of the input archive. *)
Record ZipObject := { dir : bool; data : list N }.

(** What [JSON.parse] returns, as far as [convert] looks at it: [null], or
    a value whose [entries] property is an array of entries or is falsy
    or absent. *)
Inductive Journal :=
| JNull
| JValue (entries : option (list Entry)).

(** The locals [outputZip] and [converted] of [convert], with the object. *)
Record Run := {
  this : State;
  outputZip : gmap (list N) FileData;
  converted : nat
}.

Section Converter.

(** [Date.parse] of the host: the time value of a date string in
    milliseconds, [None] for [NaN]. *)
Variable Date_parse : jsstring -> option Z.

(** [file.async('string')] followed by [JSON.parse]; [None] when the
    text is not JSON. *)
Variable JSON_parse : list N -> option Journal.

(** [window.jsyaml.dump(fm, ...)]: whether the library returns the text of
    the object.  Otherwise it throws a [YAMLException]; which values it
    refuses depends on its version (js-yaml 4 refuses a function).  The
    library is not part of the repository. *)
Variable jsyaml_dumps : object -> bool.

(** [new Date(value)]: the time value, [None] for an invalid date.  A
    string is parsed, [null] is the number 0, [undefined] is [NaN]. *)
Definition new_Date (value : CreationDate) : option Z :=
  match value with
  | DateString s =>
      match Date_parse s with
      | Some t => if Z.abs t <=? 8640000000000000 then Some t else None
      | None => None
      end
  | DateNull => Some 0
  | DateAbsent => None
  end.

(** [date.toISOString().split('T')[0]] *)
Definition toISODate (date : option Z) : result jsstring :=
  match date with
  | Some t => Ok (iso_date t)
  | None => Throw RangeError
  end.

(** [entry.uuid.slice(0, 8)] *)
Definition uuid_slice (entry : Entry) : result jsstring :=
  match uuid entry with
  | Some u => Ok (slice0 8 u)
  | None => Throw TypeError
  end.

Definition with_usedFilenames (this : State) (used : gset (list N)) : State :=
  {| allowDuplicates := allowDuplicates this;
     photoMap := photoMap this;
     usedFilenames := used;
     seenEntries := seenEntries this;
     skippedDuplicates := skippedDuplicates this |}.

Definition with_photoMap (this : State) (m : gmap (list N) Media) : State :=
  {| allowDuplicates := allowDuplicates this;
     photoMap := m;
     usedFilenames := usedFilenames this;
     seenEntries := seenEntries this;
     skippedDuplicates := skippedDuplicates this |}.

(** [generateFilename] *)
Definition generateFilename (this : State) (entry : Entry)
  : result (State * jsstring) :=
  try dateStr <- toISODate (new_Date (creationDate entry));
  let title := extractTitle (text entry) in
  try baseFilename <-
    match title with
    | Some ((_ :: _) as title) =>
        Ok (dateStr ++ js " " ++ sanitize_title title)
    | _ =>
        try prefix <- uuid_slice entry;
        Ok (dateStr ++ js " " ++ prefix)
    end;
  let filename := baseFilename ++ js ".md" in
  try filename <-
    (if bool_decide (filename ∈ usedFilenames this)
     then try prefix <- uuid_slice entry;
          Ok (baseFilename ++ js " (" ++ prefix ++ js ").md")
     else Ok filename);
  Ok (with_usedFilenames this ({[filename]} ∪ usedFilenames this), filename).

(** The end of [buildFrontmatter]: the object is dumped. *)
Definition dump_frontmatter (entry : Entry) : result object :=
  let fm := buildFrontmatter entry in
  if jsyaml_dumps fm then Ok fm else Throw YAMLException.

(** [convertEntry] *)
Definition convertEntry (this : State) (entry : Entry)
  : result (State * (jsstring * FileData)) :=
  let this := with_photoMap this (buildPhotoMap (photoMap this) entry) in
  try frontmatter <- dump_frontmatter entry;
  let content := convertContent (photoMap this) entry in
  try (this, filename) <- generateFilename this entry;
  Ok (this, (filename, Markdown frontmatter content)).

Definition skip_one (this : State) : State :=
  {| allowDuplicates := allowDuplicates this;
     photoMap := photoMap this;
     usedFilenames := usedFilenames this;
     seenEntries := seenEntries this;
     skippedDuplicates := S (skippedDuplicates this) |}.

(** The body of the loop over the entries in [convert]. *)
Definition convert_step (r : Run) (entry : Entry) : result Run :=
  if shouldSkipDuplicate (this r) entry then
    Ok {| this := skip_one (this r);
          outputZip := outputZip r;
          converted := converted r |}
  else
    try (this', (filename, content)) <- convertEntry (this r) entry;
    let out := <[js "entries/" ++ filename := content]> (outputZip r) in
    let this' :=
      if allowDuplicates this' then this' else recordEntry this' entry in
    Ok {| this := this'; outputZip := out; converted := S (converted r) |}.

(** The loop itself: the entries in their order; a throw ends the run. *)
Fixpoint convert_entries (r : Run) (entries : list Entry) : result Run :=
  match entries with
  | [] => Ok r
  | entry :: rest =>
      try r' <- convert_step r entry;
      convert_entries r' rest
  end.

(** [inputZip.files[name]] *)
Fixpoint zip_file (name : jsstring) (files : list (list N * ZipObject))
  : option ZipObject :=
  match files with
  | [] => None
  | (n, f) :: files' => if decide (n = name) then Some f else zip_file name files'
  end.

Definition mediaFolders : list jsstring :=
  [js "photos"; js "videos"; js "audios"; js "pdfs"].

(** The filter that selects [mediaFiles]. *)
Definition is_media_file (file : list N * ZipObject) : bool :=
  let '(name, f) := file in
  if dir f then false
  else existsb
         (fun folder =>
            includes (js "/" ++ folder ++ js "/") name
            || startsWith (folder ++ js "/") name)
         mediaFolders.

(** The loop that copies the media files. *)
Definition copy_media (files : list (list N * ZipObject))
    (out : gmap (list N) FileData) : gmap (list N) FileData :=
  fold_left
    (fun out '(mediaPath, f) =>
       let filename := after_last_slash mediaPath in
       <[js "attachments/" ++ filename := Binary (data f)]> out)
    (List.filter is_media_file files) out.

(** [convert]: [files] is [inputZip.files], in the order of
    [Object.keys].  The result is the state of the run when the output
    archive is generated. *)
Definition convert (this : State) (files : list (list N * ZipObject))
  : result Run :=
  let jsonFiles :=
    List.filter (fun name => endsWith (js ".json") name) (List.map fst files) in
  match jsonFiles with
  | [] => Throw NoJsonFile
  | first :: _ =>
      match zip_file first files with
      | None => Throw TypeError
      | Some f =>
          match JSON_parse (data f) with
          | None => Throw SyntaxError
          | Some JNull => Throw TypeError
          | Some (JValue entries) =>
              let entries := match entries with Some es => es | None => [] end in
              let out := copy_media files ∅ in
              convert_entries
                {| this := this; outputZip := out; converted := 0 |} entries
          end
      end
  end.

End Converter.

(** * Specifications and example inputs

    What the properties below are stated with: the notions of the
    specification that the source does not name, and the inputs on which
    the properties are exercised. *)

(** ** Unescaping *)

(** The marks of [unescapeDayoneMarkdown], in the order of its calls. *)
Definition MARKS : list N :=
  js ".-()[]#>_*`~!".

Definition is_mark (m : N) : bool := existsb (N.eqb m) MARKS.

(** Every mark of [ms] behind a backslash. *)
Definition escape (ms : jsstring) : jsstring :=
  flat_map (fun m => [BACKSLASH; m]) ms.

(** No unit of [text] that stands right after a backslash satisfies [q]. *)
Fixpoint no_escaped (q : N -> bool) (text : jsstring) : bool :=
  match text with
  | a :: ((b :: _) as tl) =>
      negb ((a =? BACKSLASH)%N && q b) && no_escaped q tl
  | _ => true
  end.

(** The text starts with two backslashes and a recognised mark. *)
Definition starts_doubly_escaped (text : jsstring) : bool :=
  match text with
  | a :: b :: m :: _ => (a =? BACKSLASH)%N && (b =? BACKSLASH)%N && is_mark m
  | _ => false
  end.

(** No recognised mark of [text] stands right after two backslashes. *)
Fixpoint no_doubly_escaped_mark (text : jsstring) : bool :=
  match text with
  | [] => true
  | _ :: tl => negb (starts_doubly_escaped text) && no_doubly_escaped_mark tl
  end.

(** A text of marks, some of them behind a backslash. *)
Definition render (l : list (bool * N)) : jsstring :=
  flat_map (fun '(e, m) => if e : bool then [BACKSLASH; m] else [m]) l.

(** The passes for the marks [cs], one after the other. *)
Definition passes (cs : list N) (text : jsstring) : jsstring :=
  fold_left (fun t c => replace_escaped c t) cs text.

(** A text as its runs of backslashes: each run with the unit that ends
    it, and the run that ends the text. *)
Definition render_runs (l : list (nat * N)) (last : nat) : jsstring :=
  flat_map (fun '(n, x) => repeat BACKSLASH n ++ [x]) l ++ repeat BACKSLASH last.

(** One pass shortens the runs before its own mark by one backslash. *)
Definition pass_run (c : N) (t : nat * N) : nat * N :=
  (if (snd t =? c)%N then pred (fst t) else fst t, snd t).

(** All the passes together: one backslash less before every mark. *)
Definition unescape_run (t : nat * N) : nat * N :=
  (if is_mark (snd t) then pred (fst t) else fst t, snd t).

(** The length of a text, from its runs. *)
Definition runs_length (l : list (nat * N)) : nat :=
  fold_right (fun t k => S (fst t) + k)%nat 0%nat l.

(** A run of two backslashes or more before a mark. *)
Definition long_run (t : nat * N) : bool := is_mark (snd t) && (2 <=? fst t)%nat.

(** ** Media placeholders *)

(** The placeholder [![](dayone-moment://ID)] as a text. *)
Definition placeholder (id : jsstring) : jsstring :=
  js "![](dayone-moment://" ++ id ++ js ")".

(** A non-empty identifier of upper-case hexadecimal digits. *)
Definition is_identifier (id : jsstring) : Prop :=
  id <> [] /\ Forall (fun c => (65 <= c <= 70)%N \/ (48 <= c <= 57)%N) id.

(** The rewriting of the references as the specification words it: going
    through the text from the left, a placeholder becomes a link to
    [<fingerprint>.<kind>] when its identifier is in the media index, and
    a comment naming the identifier when it is not; a unit that starts no
    placeholder stays. *)
Inductive rewrites (index : gmap (list N) Media) : jsstring -> jsstring -> Prop :=
| rewrites_end :
    rewrites index [] []
| rewrites_link id m rest out :
    is_identifier id ->
    index !! id = Some m ->
    rewrites index rest out ->
    rewrites index (placeholder id ++ rest)
      (js "![[" ++ media_md5 m ++ js "." ++ media_type m ++ js "]]" ++ out)
| rewrites_missing id rest out :
    is_identifier id ->
    index !! id = None ->
    rewrites index rest out ->
    rewrites index (placeholder id ++ rest)
      (js "<!-- Missing media: " ++ id ++ js " -->" ++ out)
| rewrites_copy c rest out :
    (forall id rest', is_identifier id -> c :: rest <> placeholder id ++ rest') ->
    rewrites index rest out ->
    rewrites index (c :: rest) (c :: out).

(** No placeholder occurs anywhere in the text. *)
Definition placeholder_free (text : jsstring) : Prop :=
  forall pre id post, is_identifier id -> text <> pre ++ placeholder id ++ post.

(** ** Media indexer *)

(** What an attachment is registered as, when its category gives it the
    kind [kind_of]. *)
Definition registration (kind_of : Attachment -> jsstring) (a : Attachment)
  : jsstring * Media :=
  (identifier a, {| media_md5 := md5 a; media_type := kind_of a |}).

(** The explicit kind of an attachment, or [default] when it has none. *)
Definition kind_or (default : string) (a : Attachment) : jsstring :=
  match type a with
  | Some [] | None => js default
  | Some kind => kind
  end.

(** The registrations of an entry, in the order in which they are made. *)
Definition registrations (entry : Entry) : list (jsstring * Media) :=
  List.map (registration (kind_or "jpeg")) (photos entry)
  ++ List.map (registration (kind_or "mov")) (videos entry)
  ++ List.map (registration (kind_or "m4a")) (audios entry)
  ++ List.map (registration (fun _ => js "pdf")) (pdfAttachments entry).

(** The last registration under [id]. *)
Fixpoint last_registration (id : jsstring) (regs : list (jsstring * Media))
  : option Media :=
  match regs with
  | [] => None
  | (k, m) :: rest =>
      match last_registration id rest with
      | Some m' => Some m'
      | None => if decide (k = id) then Some m else None
      end
  end.

(** ** Filenames *)

(** No unit of the text is in the class that [safeTitle] replaces. *)
Definition safe (s : jsstring) : Prop :=
  Forall (fun c => is_hostile c = false) s.

(** Whether [generateFilename] finds a title for the entry. *)
Definition has_title (entry : Entry) : bool :=
  match extractTitle (text entry) with
  | Some (_ :: _) => true
  | _ => false
  end.

(** ** Deduplication *)

(** The body fingerprint of an entry: [hashString(entry.text || '')]. *)
Definition fingerprint (entry : Entry) : jsstring :=
  hashString (or_default (text entry) []).

(** The last entry of [entries] whose identifier is [u]. *)
Fixpoint last_with (u : jsstring) (entries : list Entry) : option Entry :=
  match entries with
  | [] => None
  | entry :: rest =>
      match last_with u rest with
      | Some last => Some last
      | None => if bool_decide (uuid entry = Some u) then Some entry else None
      end
  end.

(** The claim that the first recorded fingerprint of an identifier keeps
    deciding: [r] holds the fingerprint of [first] for [u], a different
    entry [later] with the same identifier is converted, and [probe] is
    then skipped exactly when its fingerprint is that of [first]. *)
Definition first_occurrence_wins (Date_parse : jsstring -> option Z)
    (jsyaml_dumps : list (string * yaml) -> bool) : Prop :=
  forall (r r' : Run) (first later probe : Entry) (u : jsstring),
    allowDuplicates (this r) = false ->
    u <> [] ->
    uuid first = Some u -> uuid later = Some u -> uuid probe = Some u ->
    seenEntries (this r) !! u = Some (fingerprint first) ->
    fingerprint later <> fingerprint first ->
    convert_step Date_parse jsyaml_dumps r later = Ok r' ->
    (shouldSkipDuplicate (this r') probe = true
     <-> fingerprint probe = fingerprint first).

(** ** The archive *)

(** The first file of the archive whose name ends in [.json]. *)
Definition first_json (files : list (list N * ZipObject))
  : option (list N * ZipObject) :=
  List.find (fun file => endsWith (js ".json") (fst file)) files.

(** The names of the files of the output archive. *)
Definition file_names (r : Run) : list jsstring :=
  List.map fst (map_to_list (outputZip r)).

(** ** Example inputs *)

(** [Date.parse] at the one date string of the examples:
    2024-01-15T10:00:00Z is 1705312800000 ms after the epoch. *)
Definition example_Date_parse (s : jsstring) : option Z :=
  if decide (s = js "2024-01-15T10:00:00Z") then Some 1705312800000 else None.

Definition JAN15 : CreationDate := DateString (js "2024-01-15T10:00:00Z").

(** Whether the object holds an inherited value, at any depth. *)
Fixpoint holds_inherited (v : yaml) : bool :=
  match v with
  | YInherited _ => true
  | YSeq items => existsb holds_inherited items
  | YMap fields => existsb (fun kv => holds_inherited (snd kv)) fields
  | YStr _ | YNum _ | YBool _ => false
  end.

(** A library for the examples: it returns on an object of strings,
    numbers, flags, lists and records, and refuses an object that holds an
    inherited value. *)
Definition example_jsyaml_dumps (fm : list (string * yaml)) : bool :=
  negb (holds_inherited (YMap fm)).

(** An entry made of an identifier, a body, a weather snapshot and
    attachments, created on 2024-01-15. *)
Definition example_entry (uuid text : option jsstring) (weather : option Weather)
    (photos videos audios pdfs : list Attachment) : Entry :=
  {| uuid := uuid; text := text; creationDate := JAN15;
     modifiedDate := None; timeZone := None;
     starred := false; isPinned := false; isAllDay := false;
     tags := []; location := None; weather := weather; userActivity := None;
     creationDevice := None; creationDeviceType := None;
     creationDeviceModel := None; creationOSName := None;
     creationOSVersion := None;
     photos := photos; videos := videos; audios := audios;
     pdfAttachments := pdfs;
     editingTime := None |}.

(** An entry with an identifier and a body only. *)
Definition plain_entry (uuid text : option jsstring) : Entry :=
  example_entry uuid text None [] [] [] [].

(** Two entries under one identifier, with the bodies [a] and [b]. *)
Definition entry_a : Entry := plain_entry (Some (js "AB12CD34")) (Some (js "a")).
Definition entry_b : Entry := plain_entry (Some (js "AB12CD34")) (Some (js "b")).

(** The entry of the README: a heading and a line. *)
Definition morning : Entry :=
  plain_entry (Some (js "ABCDEFGH12345678"))
    (Some (js "# Morning thoughts" ++ [LF] ++ js "Hello")).

(** A weather snapshot with a zero temperature, a zero humidity, a
    visibility and a known moon phase. *)
Definition full_moon_weather : Weather :=
  {| conditionsDescription := None;
     temperatureCelsius := Some 0%Q;
     relativeHumidity := Some 0%Q;
     pressureMB := None;
     windSpeedKPH := None;
     windBearing := None;
     visibilityKM := Some (16 # 1)%Q;
     moonPhaseCode := Some (js "full") |}.

(** A weather snapshot that holds nothing but a moon phase code, and the
    code is the name of a property that every object inherits. *)
Definition inherited_moon_weather : Weather :=
  {| conditionsDescription := None;
     temperatureCelsius := None;
     relativeHumidity := None;
     pressureMB := None;
     windSpeedKPH := None;
     windBearing := None;
     visibilityKM := None;
     moonPhaseCode := Some (js "constructor") |}.

Definition with_weather (w : option Weather) : Entry :=
  example_entry (Some (js "ABCDEFGH12345678")) None w [] [] [] [].

(** An attachment with no descriptive metadata. *)
Definition attachment (identifier md5 : jsstring) (type : option jsstring)
  : Attachment :=
  {| identifier := identifier; md5 := md5; type := type;
     cameraMake := None; cameraModel := None; lensModel := None;
     date := None; width := None; height := None |}.

Definition with_media (photos videos audios pdfs : list Attachment) : Entry :=
  example_entry (Some (js "ABCDEFGH12345678")) None None photos videos audios pdfs.

(** A run that has not started: a new converter, an empty output. *)
Definition fresh_run (allow : bool) : Run :=
  {| this := constructor allow; outputZip := ∅; converted := 0 |}.

(** The run that a step or a loop returns (the fresh run when it throws). *)
Definition after (r : result Run) : Run :=
  match r with
  | Ok r' => r'
  | Throw _ => fresh_run false
  end.

(** An archive with one photo and a journal file. *)
Definition journal_and_photo : list (list N * ZipObject) :=
  [ (js "export/photos/f00d.jpeg", {| dir := false; data := [255; 216; 255]%N |});
    (js "export/Journal.json", {| dir := false; data := js "{}" |}) ].

(** ** Further notions and example inputs *)

(** The polynomial of base 31 over the units of a string, from [h]. *)
Definition poly31 (h : Z) (str : jsstring) : Z :=
  fold_left (fun h c => 31 * h + Z.of_N c) str h.

(** A unit that a sanitised tag can hold: [a-z], [0-9], [_] or [-]. *)
Definition is_tag_unit (c : N) : bool :=
  ((97 <=? c) && (c <=? 122))%N || ((48 <=? c) && (c <=? 57))%N
  || (c =? 95)%N || (c =? 45)%N.

(** The placeholder with its brackets and parentheses behind backslashes. *)
Definition escaped_placeholder (id : jsstring) : jsstring :=
  [ch "!"; BACKSLASH; ch "["; BACKSLASH; ch "]"; BACKSLASH; ch "("]
  ++ js "dayone-moment://" ++ id ++ [BACKSLASH; ch ")"].

(** What may stand in a heading line: no line terminator, no backslash. *)
Definition is_heading_unit (c : N) : bool :=
  negb (is_line_terminator c) && negb (c =? BACKSLASH)%N.

(** The day number of a calendar date (the inverse computation). *)
Definition days_from_civil (y m d : Z) : Z :=
  let y := if m <=? 2 then y - 1 else y in
  let era := y / 400 in
  let yoe := y - era * 400 in
  let doy := (153 * (if 2 <? m then m - 3 else m + 9) + 2) / 5 + d - 1 in
  let doe := yoe * 365 + yoe / 4 - yoe / 100 + doy in
  era * 146097 + doe - 719468.

(** The Gregorian leap years. *)
Definition is_leap (y : Z) : bool :=
  (y mod 4 =? 0) && (negb (y mod 100 =? 0) || (y mod 400 =? 0)).

Definition days_in_month (y m : Z) : Z :=
  if m =? 2 then (if is_leap y then 29 else 28)
  else if (m =? 4) || (m =? 6) || (m =? 9) || (m =? 11) then 30
  else 31.

(** The calendar date that follows a date. *)
Definition next_day (date : Z * Z * Z) : Z * Z * Z :=
  let '(y, m, d) := date in
  if d <? days_in_month y m then (y, m, d + 1)
  else if m <? 12 then (y, m + 1, 1)
  else (y + 1, 1, 1).

(** The number that a string of decimal digits writes. *)
Definition digits_value (s : jsstring) : Z :=
  fold_left (fun v c => 10 * v + (Z.of_N c - 48)) s 0.

Definition all_digits (s : jsstring) : bool :=
  forallb (fun c => (48 <=? c)%N && (c <=? 57)%N) s.

(** An entry with the creation date as given, and no other metadata. *)
Definition example_entry_dated (uuid text : option jsstring)
    (creationDate : CreationDate) : Entry :=
  {| uuid := uuid; text := text; creationDate := creationDate;
     modifiedDate := None; timeZone := None;
     starred := false; isPinned := false; isAllDay := false;
     tags := []; location := None; weather := None; userActivity := None;
     creationDevice := None; creationDeviceType := None;
     creationDeviceModel := None; creationOSName := None;
     creationOSVersion := None;
     photos := []; videos := []; audios := []; pdfAttachments := [];
     editingTime := None |}.

(** The converter after one, and after two entries like [morning]. *)
Definition once_used : State :=
  with_usedFilenames (constructor true) {[ js "2024-01-15 Morning thoughts.md" ]}.

Definition twice_used : State :=
  with_usedFilenames (constructor true)
    ({[ js "2024-01-15 Morning thoughts (ABCDEFGH).md" ]}
     ∪ {[ js "2024-01-15 Morning thoughts.md" ]}).

(** A run in which one media file has been copied. *)
Definition media_copied : Run :=
  {| this := constructor false;
     outputZip := {[ js "attachments/f00d.jpeg" := Binary [255; 216]%N ]};
     converted := 0 |}.

(** The last media file of the archive whose base name is [name]. *)
Fixpoint last_media (name : jsstring) (files : list (list N * ZipObject))
  : option ZipObject :=
  match files with
  | [] => None
  | (path, f) :: rest =>
      match last_media name rest with
      | Some g => Some g
      | None =>
          if is_media_file (path, f) && bool_decide (after_last_slash path = name)
          then Some f else None
      end
  end.

(** An archive in which two folders hold a photo of the same name. *)
Definition same_name_twice : list (list N * ZipObject) :=
  [ (js "a/photos/f00d.jpeg", {| dir := false; data := [1]%N |});
    (js "photos/", {| dir := true; data := [] |});
    (js "b/photos/f00d.jpeg", {| dir := false; data := [2]%N |});
    (js "notes/f00d.jpeg", {| dir := false; data := [3]%N |});
    (js "Journal.json", {| dir := false; data := js "{}" |}) ].

(** A parser for the examples: every journal holds the entry [morning]. *)
Definition example_JSON_parse (content : list N) : option Journal :=
  Some (JValue (Some [morning])).

(** The run after an entry with one photo. *)
Definition one_photo_indexed : Run :=
  after (convert_step example_Date_parse example_jsyaml_dumps (fresh_run true)
           (with_media [attachment (js "AA11") (js "f00d") None] [] [] [])).

(** The keys of the frontmatter, in the order in which [buildFrontmatter]
    assigns them. *)
Definition FRONTMATTER_KEYS : list string :=
  [ "uuid"; "created"; "modified"; "timezone"; "starred"; "pinned"; "all_day";
    "tags"; "location"; "weather"; "activity"; "device"; "photos";
    "editing_time_seconds" ]%string.

Definition keys (obj : list (string * yaml)) : list string := List.map fst obj.

(** An entry that was edited for four tenths of a second, on a device of
    which only the model is known. *)
Definition quick_edit : Entry :=
  {| uuid := Some (js "ABCDEFGH12345678"); text := None; creationDate := JAN15;
     modifiedDate := None; timeZone := None;
     starred := false; isPinned := false; isAllDay := false;
     tags := []; location := None; weather := None; userActivity := None;
     creationDevice := None; creationDeviceType := None;
     creationDeviceModel := Some (js "iPhone15,2"); creationOSName := None;
     creationOSVersion := None;
     photos := []; videos := []; audios := []; pdfAttachments := [];
     editingTime := Some (2 # 5)%Q |}.

(** An entry with two photos and a video. *)
Definition two_photos : Entry :=
  with_media [ attachment (js "AA11") (js "f00d") None;
               attachment (js "BB22") (js "cafe") (Some (js "png")) ]
             [ attachment (js "CC33") (js "beef") None ] [] [].

(** * Properties *)

(** ** Unescaping *)

Lemma unescape_passes text :
  unescapeDayoneMarkdown text = passes MARKS text.
Proof. reflexivity. Qed.

Lemma replace_escaped_eq c a b rest :
  replace_escaped c (a :: b :: rest)
  = if (a =? BACKSLASH)%N && (b =? c)%N
    then c :: replace_escaped c rest
    else a :: replace_escaped c (b :: rest).
Proof. reflexivity. Qed.

Lemma replace_escaped_cons c a tl :
  a <> BACKSLASH ->
  replace_escaped c (a :: tl) = a :: replace_escaped c tl.
Proof.
  intros Ha. destruct tl as [|b rest]; [reflexivity|].
  rewrite replace_escaped_eq.
  destruct (N.eqb_spec a BACKSLASH); [contradiction|reflexivity].
Qed.

(** A pass changes nothing when no mark stands behind a backslash. *)
Lemma replace_escaped_id c text :
  no_escaped (N.eqb c) text = true ->
  replace_escaped c text = text.
Proof.
  induction text as [|a tl IH]; [reflexivity|].
  intros H. destruct tl as [|b rest]; [reflexivity|].
  rewrite replace_escaped_eq. cbn [no_escaped] in H.
  apply andb_true_iff in H as [H1 H2].
  rewrite (N.eqb_sym b c). apply negb_true_iff in H1. rewrite H1.
  f_equal. apply IH, H2.
Qed.

Lemma passes_id cs text :
  Forall (fun m => no_escaped (N.eqb m) text = true) cs ->
  passes cs text = text.
Proof.
  induction 1 as [|c cs Hc _ IH]; [reflexivity|].
  cbn. rewrite replace_escaped_id by assumption. exact IH.
Qed.

Lemma MARKS_NoDup : NoDup MARKS.
Proof. apply (bool_decide_unpack _). vm_compute. reflexivity. Qed.

(** A pass over a text of marks takes the backslash off its own mark and
    leaves the other marks as they are. *)
Lemma replace_escaped_render c l :
  Forall (fun em => snd em <> BACKSLASH) l ->
  replace_escaped c (render l)
  = render (List.map (fun em => (fst em && negb (snd em =? c)%N, snd em)) l).
Proof.
  induction 1 as [|[e m] l Hm _ IH]; [reflexivity|].
  cbn [List.map render flat_map fst snd] in *.
  fold (render l). fold (render (List.map (fun em => (fst em && negb (snd em =? c)%N, snd em)) l)).
  destruct e; cbn [andb app].
  - rewrite replace_escaped_eq. change (BACKSLASH =? BACKSLASH)%N with true.
    cbn [andb]. destruct (m =? c)%N eqn:E; cbn [negb app].
    + apply N.eqb_eq in E. subst m. rewrite IH. reflexivity.
    + rewrite replace_escaped_cons by assumption. rewrite IH. reflexivity.
  - rewrite replace_escaped_cons by assumption. rewrite IH. reflexivity.
Qed.

Lemma passes_render cs l :
  Forall (fun em => snd em <> BACKSLASH) l ->
  passes cs (render l)
  = render (List.map (fun em => (fst em && negb (existsb (N.eqb (snd em)) cs), snd em)) l).
Proof.
  revert l. induction cs as [|c cs IH]; intros l Hl.
  - cbn. f_equal. rewrite <- (map_id l) at 1. apply map_ext.
    intros [e m]. cbn. rewrite andb_true_r. reflexivity.
  - change (passes (c :: cs) (render l))
      with (passes cs (replace_escaped c (render l))).
    rewrite replace_escaped_render by assumption.
    rewrite IH.
    + rewrite List.map_map. f_equal. apply map_ext. intros [e m]. cbn.
      destruct e, (m =? c)%N; reflexivity.
    + apply Forall_forall. intros em Hin.
      apply list_elem_of_In, in_map_iff in Hin as ([e m] & <- & Hin). cbn.
      rewrite Forall_forall in Hl. apply (Hl (e, m)), list_elem_of_In, Hin.
Qed.

Lemma escape_render ms : escape ms = render (List.map (pair true) ms).
Proof. induction ms as [|m ms IH]; [reflexivity|]. cbn. f_equal. f_equal. exact IH. Qed.

Lemma is_mark_not_backslash m : is_mark m = true -> m <> BACKSLASH.
Proof. intros H ->. vm_compute in H. discriminate. Qed.

Lemma unescape_escape ms :
  forallb is_mark ms = true -> unescapeDayoneMarkdown (escape ms) = ms.
Proof.
  intros H. rewrite unescape_passes, escape_render, passes_render.
  - rewrite List.map_map. cbn [fst snd andb].
    induction ms as [|m ms IH]; [reflexivity|].
    cbn [forallb] in H. apply andb_true_iff in H as [Hm H].
    cbn [List.map render flat_map]. unfold is_mark in Hm. rewrite Hm.
    cbn [negb app]. f_equal. apply IH, H.
  - apply Forall_forall. intros em Hin.
    apply list_elem_of_In, in_map_iff in Hin as (m & <- & Hin). cbn.
    apply is_mark_not_backslash.
    rewrite forallb_forall in H. apply H, Hin.
Qed.

(** Claim C3 as stated fails.  On two backslashes and a dot the first
    application removes one backslash and leaves a backslash and a dot,
    which the second application unescapes again. *)
Lemma unescape_not_idempotent :
  unescapeDayoneMarkdown (unescapeDayoneMarkdown [BACKSLASH; BACKSLASH; ch "."])
  <> unescapeDayoneMarkdown [BACKSLASH; BACKSLASH; ch "."].
Proof. vm_compute. discriminate. Qed.

Lemma render_runs_cons n x l last :
  render_runs ((n, x) :: l) last = repeat BACKSLASH n ++ x :: render_runs l last.
Proof. unfold render_runs. cbn [flat_map]. rewrite <- !app_assoc. reflexivity. Qed.

Lemma render_runs_exists text :
  exists l last,
    Forall (fun t : nat * N => snd t <> BACKSLASH) l /\ text = render_runs l last.
Proof.
  induction text as [|a text (l & last & Hl & ->)].
  - exists [], 0%nat. split; [constructor|reflexivity].
  - destruct (N.eq_dec a BACKSLASH) as [->|Ha].
    + destruct l as [|[n x] l].
      * exists [], (S last). split; [constructor|reflexivity].
      * exists ((S n, x) :: l), last. split.
        -- apply Forall_cons in Hl as [Hx Hl]. constructor; assumption.
        -- rewrite !render_runs_cons. reflexivity.
    + exists ((0%nat, a) :: l), last. split.
      * constructor; assumption.
      * rewrite render_runs_cons. reflexivity.
Qed.

Lemma render_runs_app l1 n l2 last :
  render_runs l1 n ++ render_runs l2 last
  = match l2 with
    | [] => render_runs l1 (n + last)
    | (k, x) :: l2' => render_runs (l1 ++ (n + k, x)%nat :: l2') last
    end.
Proof.
  unfold render_runs. destruct l2 as [|[k x] l2'].
  - cbn [flat_map app]. rewrite <- app_assoc, repeat_app. reflexivity.
  - rewrite flat_map_app. cbn [flat_map]. rewrite repeat_app, <- !app_assoc. reflexivity.
Qed.

(** One pass over a run and the unit that ends it. *)
Lemma replace_escaped_run c n x rest :
  c <> BACKSLASH -> x <> BACKSLASH ->
  replace_escaped c (repeat BACKSLASH n ++ x :: rest)
  = repeat BACKSLASH (if (x =? c)%N then pred n else n) ++ x :: replace_escaped c rest.
Proof.
  intros Hc Hx. induction n as [|n IH].
  - cbn [repeat app pred]. rewrite replace_escaped_cons by exact Hx.
    destruct (x =? c)%N; reflexivity.
  - destruct n as [|n].
    + cbn [repeat app pred]. rewrite replace_escaped_eq.
      change (BACKSLASH =? BACKSLASH)%N with true. cbn [andb].
      destruct (N.eqb_spec x c) as [->|Hxc].
      * reflexivity.
      * rewrite replace_escaped_cons by exact Hx. reflexivity.
    + change (repeat BACKSLASH (S (S n)) ++ x :: rest)
        with (BACKSLASH :: BACKSLASH :: (repeat BACKSLASH n ++ x :: rest)).
      rewrite replace_escaped_eq.
      destruct (N.eqb_spec BACKSLASH c) as [E|_]; [symmetry in E; contradiction|].
      rewrite andb_false_r.
      change (BACKSLASH :: repeat BACKSLASH n ++ x :: rest)
        with (repeat BACKSLASH (S n) ++ x :: rest).
      rewrite IH. destruct (x =? c)%N; reflexivity.
Qed.

Lemma replace_escaped_backslashes c n :
  c <> BACKSLASH -> replace_escaped c (repeat BACKSLASH n) = repeat BACKSLASH n.
Proof.
  intros Hc. induction n as [|n IH]; [reflexivity|].
  destruct n as [|n]; [reflexivity|].
  change (repeat BACKSLASH (S (S n)))
    with (BACKSLASH :: BACKSLASH :: repeat BACKSLASH n).
  rewrite replace_escaped_eq.
  destruct (N.eqb_spec BACKSLASH c) as [E|_]; [symmetry in E; contradiction|].
  rewrite andb_false_r. f_equal. exact IH.
Qed.

Lemma replace_escaped_runs c l last :
  c <> BACKSLASH ->
  Forall (fun t : nat * N => snd t <> BACKSLASH) l ->
  replace_escaped c (render_runs l last) = render_runs (List.map (pass_run c) l) last.
Proof.
  intros Hc. induction 1 as [|[n x] l Hx _ IH].
  - apply replace_escaped_backslashes, Hc.
  - cbn [List.map]. unfold pass_run at 1. cbn [fst snd] in *.
    rewrite !render_runs_cons, replace_escaped_run by assumption.
    rewrite IH. reflexivity.
Qed.

Lemma passes_runs cs l last :
  Forall (fun c => c <> BACKSLASH) cs ->
  Forall (fun t : nat * N => snd t <> BACKSLASH) l ->
  passes cs (render_runs l last)
  = render_runs (List.map (fun t => fold_left (fun t c => pass_run c t) cs t) l) last.
Proof.
  intros Hcs. revert l. induction Hcs as [|c cs Hc _ IH]; intros l Hl.
  - cbn. rewrite map_id. reflexivity.
  - change (passes (c :: cs) (render_runs l last))
      with (passes cs (replace_escaped c (render_runs l last))).
    rewrite replace_escaped_runs by assumption.
    rewrite IH.
    + rewrite List.map_map. reflexivity.
    + apply Forall_forall. intros t Hin.
      apply list_elem_of_In, in_map_iff in Hin as (t0 & <- & Hin).
      rewrite Forall_forall in Hl. apply (Hl t0), list_elem_of_In, Hin.
Qed.

Lemma pass_run_other c t : (snd t =? c)%N = false -> pass_run c t = t.
Proof. intros H. unfold pass_run. rewrite H. destruct t; reflexivity. Qed.

Lemma passes_run_other cs t :
  existsb (N.eqb (snd t)) cs = false ->
  fold_left (fun t c => pass_run c t) cs t = t.
Proof.
  induction cs as [|c cs IH]; [reflexivity|].
  cbn [existsb fold_left]. intros H. apply orb_false_iff in H as [Hc H].
  rewrite pass_run_other by exact Hc. apply IH, H.
Qed.

Lemma passes_run_once cs t :
  NoDup cs ->
  fold_left (fun t c => pass_run c t) cs t
  = (if existsb (N.eqb (snd t)) cs then pred (fst t) else fst t, snd t).
Proof.
  intros Hnd. revert t. induction Hnd as [|c cs Hnotin Hnd IH]; intros [n x].
  - reflexivity.
  - cbn [fold_left existsb fst snd]. unfold pass_run at 2. cbn [fst snd].
    destruct (N.eqb_spec x c) as [->|Hxc]; cbn [orb].
    + apply passes_run_other. cbn [snd].
      destruct (existsb (N.eqb c) cs) eqn:E; [|reflexivity].
      apply existsb_exists in E as (y & Hin & Hy). apply N.eqb_eq in Hy. subst y.
      exfalso. apply Hnotin, list_elem_of_In, Hin.
    + apply IH.
Qed.

Lemma unescape_runs l last :
  Forall (fun t : nat * N => snd t <> BACKSLASH) l ->
  unescapeDayoneMarkdown (render_runs l last)
  = render_runs (List.map unescape_run l) last.
Proof.
  intros Hl. rewrite unescape_passes, passes_runs.
  - f_equal. apply map_ext. intros t. apply passes_run_once, MARKS_NoDup.
  - apply Forall_forall. intros m Hin. apply is_mark_not_backslash.
    unfold is_mark. apply existsb_exists. exists m.
    split; [apply list_elem_of_In, Hin|apply N.eqb_refl].
  - exact Hl.
Qed.

Lemma unescape_run_keeps l :
  Forall (fun t : nat * N => snd t <> BACKSLASH) l ->
  Forall (fun t : nat * N => snd t <> BACKSLASH) (List.map unescape_run l).
Proof.
  intros Hl. apply Forall_forall. intros t Hin.
  apply list_elem_of_In, in_map_iff in Hin as (t0 & <- & Hin).
  rewrite Forall_forall in Hl. apply (Hl t0), list_elem_of_In, Hin.
Qed.

Lemma length_render_runs l last :
  length (render_runs l last) = (runs_length l + last)%nat.
Proof.
  unfold render_runs. rewrite length_app, repeat_length. f_equal.
  induction l as [|[n x] l IH]; [reflexivity|].
  cbn [flat_map runs_length fold_right fst].
  rewrite !length_app, repeat_length, IH. cbn [length]. unfold runs_length. lia.
Qed.

Lemma unescape_run_fixed t :
  long_run t = false -> unescape_run (unescape_run t) = unescape_run t.
Proof.
  destruct t as [n x]. unfold long_run, unescape_run. cbn [fst snd].
  destruct (is_mark x); [|reflexivity]. cbn [andb]. intros H.
  apply Nat.leb_gt in H. f_equal. lia.
Qed.

Lemma unescape_runs_fixed l :
  forallb (fun t => negb (long_run t)) l = true ->
  List.map unescape_run (List.map unescape_run l) = List.map unescape_run l.
Proof.
  intros H. rewrite List.map_map. apply map_ext_in. intros t Hin.
  rewrite forallb_forall in H. apply unescape_run_fixed, negb_true_iff, H, Hin.
Qed.

Lemma runs_length_cons t l :
  runs_length (t :: l) = (S (fst t) + runs_length l)%nat.
Proof. reflexivity. Qed.

Lemma unescape_run_fst t : (fst (unescape_run t) <= fst t)%nat.
Proof. unfold unescape_run. cbn [fst]. destruct (is_mark (snd t)); lia. Qed.

Lemma runs_length_le l : (runs_length (List.map unescape_run l) <= runs_length l)%nat.
Proof.
  induction l as [|t l IH]; [reflexivity|].
  cbn [List.map]. rewrite !runs_length_cons.
  pose proof (unescape_run_fst t). lia.
Qed.

Lemma long_run_lt t :
  long_run t = true ->
  (fst (unescape_run (unescape_run t)) < fst (unescape_run t))%nat.
Proof.
  destruct t as [n x]. unfold long_run, unescape_run. cbn [fst snd].
  destruct (is_mark x); [|discriminate]. cbn [andb fst]. intros H.
  apply Nat.leb_le in H. lia.
Qed.

Lemma unescape_runs_shorter l :
  existsb long_run l = true ->
  (runs_length (List.map unescape_run (List.map unescape_run l))
   < runs_length (List.map unescape_run l))%nat.
Proof.
  induction l as [|t l IH]; [discriminate|].
  cbn [existsb List.map]. rewrite !runs_length_cons. intros H.
  destruct (long_run t) eqn:E.
  - pose proof (long_run_lt t E).
    pose proof (runs_length_le (List.map unescape_run l)). lia.
  - cbn [orb] in H. specialize (IH H).
    pose proof (unescape_run_fst (unescape_run t)). lia.
Qed.

(** The occurrences of two backslashes and a mark, read off the text and
    read off the runs. *)
Lemma no_doubly_escaped_mark_app pre post :
  no_doubly_escaped_mark (pre ++ post) = true -> no_doubly_escaped_mark post = true.
Proof.
  induction pre as [|a pre IH]; [trivial|].
  cbn [app no_doubly_escaped_mark]. intros H. apply andb_true_iff in H as [_ H].
  exact (IH H).
Qed.

Lemma long_run_occurs l last :
  existsb long_run l = true ->
  no_doubly_escaped_mark (render_runs l last) = false.
Proof.
  intros H. apply existsb_exists in H as ([n x] & Hin & Hlong).
  apply in_split in Hin as (l1 & l2 & ->).
  unfold long_run in Hlong. cbn [fst snd] in Hlong.
  apply andb_true_iff in Hlong as [Hx Hn]. apply Nat.leb_le in Hn.
  destruct (no_doubly_escaped_mark _) eqn:E; [|reflexivity]. exfalso.
  unfold render_runs in E. rewrite flat_map_app in E. cbn [flat_map] in E.
  rewrite <- !app_assoc in E.
  apply no_doubly_escaped_mark_app in E.
  replace n with ((n - 2) + 2)%nat in E by lia.
  rewrite repeat_app, <- !app_assoc in E.
  apply no_doubly_escaped_mark_app in E.
  cbn [repeat app no_doubly_escaped_mark starts_doubly_escaped] in E.
  rewrite Hx, N.eqb_refl in E. discriminate.
Qed.

Lemma short_runs_clean l last :
  Forall (fun t : nat * N => snd t <> BACKSLASH) l ->
  existsb long_run l = false ->
  no_doubly_escaped_mark (render_runs l last) = true.
Proof.
  intros Hl. induction Hl as [|[n x] l Hx Hl IH].
  - intros _. unfold render_runs. cbn [flat_map app].
    induction last as [|k IHk]; [reflexivity|].
    cbn [repeat no_doubly_escaped_mark]. rewrite IHk, andb_true_r.
    destruct k as [|[|k]]; try reflexivity.
  - cbn [existsb]. intros H. apply orb_false_iff in H as [Hlong H].
    specialize (IH H). rewrite render_runs_cons. cbn [fst snd] in *.
    unfold long_run in Hlong. cbn [fst snd] in Hlong.
    assert (Hxs : no_doubly_escaped_mark (x :: render_runs l last) = true).
    { cbn [no_doubly_escaped_mark]. rewrite IH, andb_true_r.
      unfold starts_doubly_escaped.
      destruct (render_runs l last) as [|b [|m rest]]; try reflexivity.
      destruct (N.eqb_spec x BACKSLASH); [contradiction|reflexivity]. }
    induction n as [|n IHn]; [exact Hxs|].
    cbn [repeat app no_doubly_escaped_mark].
    apply andb_true_iff. split.
    + apply negb_true_iff. destruct n as [|[|n]].
      * cbn [repeat app starts_doubly_escaped].
        destruct (render_runs l last) as [|m rest]; [reflexivity|].
        destruct (N.eqb_spec x BACKSLASH); [contradiction|].
        rewrite andb_false_r. reflexivity.
      * cbn [repeat app starts_doubly_escaped].
        destruct (is_mark x); [discriminate|]. rewrite andb_false_r. reflexivity.
      * cbn [repeat app starts_doubly_escaped].
        rewrite andb_false_r. reflexivity.
    + apply IHn. destruct (is_mark x); [|reflexivity].
      cbn [andb] in *. apply Nat.leb_gt in Hlong. apply Nat.leb_gt. lia.
Qed.

Lemma unescape_idempotent_iff text :
  unescapeDayoneMarkdown (unescapeDayoneMarkdown text) = unescapeDayoneMarkdown text
  <-> no_doubly_escaped_mark text = true.
Proof.
  destruct (render_runs_exists text) as (l & last & Hl & ->).
  rewrite (unescape_runs l last Hl).
  rewrite (unescape_runs _ last (unescape_run_keeps l Hl)).
  destruct (existsb long_run l) eqn:E.
  - rewrite (long_run_occurs l last E). split; [|discriminate].
    intros H. apply (f_equal (@length N)) in H.
    rewrite !length_render_runs in H.
    pose proof (unescape_runs_shorter l E). lia.
  - rewrite (short_runs_clean l last Hl E). split; [reflexivity|]. intros _.
    rewrite unescape_runs_fixed; [reflexivity|].
    apply forallb_forall. intros t Hin. apply negb_true_iff.
    destruct (long_run t) eqn:Et; [|reflexivity].
    assert (existsb long_run l = true) by (apply existsb_exists; eauto).
    congruence.
Qed.

(** Claim C3, amended.  Unescaping is idempotent on a text exactly when no
    recognised mark stands in it right after two backslashes; and a text
    that consists only of recognised marks, each behind a backslash, is
    unescaped by one application to the marks alone, with no backslash
    left. *)
Theorem unescape_roundtrip (text ms : jsstring)
    (Hms : forallb is_mark ms = true) :
  (unescapeDayoneMarkdown (unescapeDayoneMarkdown text) = unescapeDayoneMarkdown text
   <-> no_doubly_escaped_mark text = true)
  /\ unescapeDayoneMarkdown (escape ms) = ms.
Proof.
  split; [apply unescape_idempotent_iff|apply unescape_escape, Hms].
Qed.

Lemma unescape_roundtrip_witness :
  (unescapeDayoneMarkdown (unescapeDayoneMarkdown (js "C:\\dir 1\. a\-b \x"))
   = unescapeDayoneMarkdown (js "C:\\dir 1\. a\-b \x")
   <-> no_doubly_escaped_mark (js "C:\\dir 1\. a\-b \x") = true)
  /\ unescapeDayoneMarkdown (escape (js ".-()[]#>_*`~!")) = js ".-()[]#>_*`~!".
Proof.
  apply (unescape_roundtrip (js "C:\\dir 1\. a\-b \x") (js ".-()[]#>_*`~!")).
  reflexivity.
Defined.


(** ** Media placeholders *)

Lemma strip_prefix_app p s : strip_prefix p (p ++ s) = Some s.
Proof.
  induction p as [|a p IH]; [destruct s; reflexivity|].
  cbn. rewrite N.eqb_refl. exact IH.
Qed.

Lemma strip_prefix_Some p s r : strip_prefix p s = Some r -> s = p ++ r.
Proof.
  revert s. induction p as [|a p IH]; intros s H.
  - destruct s; cbn in *; congruence.
  - destruct s as [|b s]; [discriminate|]. cbn in H.
    destruct (N.eqb_spec a b) as [->|]; [|discriminate].
    cbn. f_equal. apply IH, H.
Qed.

Lemma takeWhile_dropWhile p s : takeWhile p s ++ dropWhile p s = s.
Proof.
  induction s as [|c s IH]; [reflexivity|].
  cbn. destruct (p c); [cbn; f_equal; exact IH|reflexivity].
Qed.

Lemma takeWhile_all p s : forallb p (takeWhile p s) = true.
Proof.
  induction s as [|c s IH]; [reflexivity|].
  cbn. destruct (p c) eqn:E; [cbn; rewrite E; exact IH|reflexivity].
Qed.

Lemma takeWhile_app p id c rest :
  forallb p id = true -> p c = false ->
  takeWhile p (id ++ c :: rest) = id /\ dropWhile p (id ++ c :: rest) = c :: rest.
Proof.
  intros Hid Hc. induction id as [|a id IH]; cbn.
  - rewrite Hc. split; reflexivity.
  - cbn in Hid. apply andb_true_iff in Hid as [Ha Hid]. rewrite Ha.
    destruct (IH Hid) as [-> ->]. split; reflexivity.
Qed.

(** What a match is. *)
Lemma match_placeholder_Some cls text id rest :
  match_placeholder cls text = Some (id, rest) ->
  text = PLACEHOLDER_OPEN ++ id ++ RPAREN :: rest
  /\ id <> [] /\ forallb cls id = true.
Proof.
  unfold match_placeholder. intros H.
  destruct (strip_prefix PLACEHOLDER_OPEN text) as [body|] eqn:E; [|discriminate].
  apply strip_prefix_Some in E. subst text.
  pose proof (takeWhile_dropWhile cls body) as Hbody.
  pose proof (takeWhile_all cls body) as Hall.
  destruct (takeWhile cls body) as [|a run]; [discriminate|].
  destruct (dropWhile cls body) as [|c after]; [discriminate|].
  destruct (N.eqb_spec c RPAREN) as [->|]; [|discriminate].
  injection H as <- <-. rewrite <- Hbody. repeat split; [discriminate|exact Hall].
Qed.

(** The expression matches at the start of every placeholder. *)
Lemma match_placeholder_complete cls id rest :
  cls RPAREN = false -> id <> [] -> forallb cls id = true ->
  match_placeholder cls (PLACEHOLDER_OPEN ++ id ++ RPAREN :: rest)
  = Some (id, rest).
Proof.
  intros Hr Hne Hid. unfold match_placeholder.
  rewrite strip_prefix_app.
  destruct (takeWhile_app cls id RPAREN rest Hid Hr) as [-> ->].
  destruct id; [contradiction|]. rewrite N.eqb_refl. reflexivity.
Qed.

Lemma is_upper_hex_spec c :
  is_upper_hex c = true <-> (65 <= c <= 70)%N \/ (48 <= c <= 57)%N.
Proof.
  unfold is_upper_hex. rewrite orb_true_iff, !andb_true_iff, !N.leb_le. tauto.
Qed.

Lemma is_identifier_spec id :
  is_identifier id <-> id <> [] /\ forallb is_upper_hex id = true.
Proof.
  unfold is_identifier. rewrite forallb_forall, Forall_forall.
  split; intros [H1 H2]; (split; [exact H1|]); intros c Hin.
  - apply is_upper_hex_spec, H2, list_elem_of_In, Hin.
  - apply is_upper_hex_spec, H2, list_elem_of_In, Hin.
Qed.

Lemma placeholder_eq id rest :
  placeholder id ++ rest = PLACEHOLDER_OPEN ++ id ++ RPAREN :: rest.
Proof. unfold placeholder. rewrite <- !app_assoc. reflexivity. Qed.

Lemma replace_placeholders_rewrites index fuel text :
  (length text <= fuel)%nat ->
  rewrites index text
    (replace_placeholders fuel is_upper_hex (image_replacement index) text).
Proof.
  revert text. induction fuel as [|fuel IH]; intros text Hlen.
  - destruct text; [constructor|cbn in Hlen; lia].
  - destruct text as [|c tl]; [constructor|].
    cbn [replace_placeholders].
    destruct (match_placeholder is_upper_hex (c :: tl)) as [[id rest]|] eqn:E.
    + apply match_placeholder_Some in E as (Htext & Hne & Hid).
      assert (Hident : is_identifier id) by (apply is_identifier_spec; auto).
      assert (Hrest : (length rest <= fuel)%nat).
      { apply (f_equal (@length N)) in Htext.
        rewrite !length_app in Htext. cbn in Htext, Hlen. lia. }
      rewrite Htext, <- placeholder_eq. unfold image_replacement.
      destruct (index !! id) as [m|] eqn:Em.
      * unfold media_link. rewrite <- !app_assoc.
        apply rewrites_link; auto.
      * unfold missing_media. rewrite <- !app_assoc.
        apply rewrites_missing; auto.
    + apply rewrites_copy.
      * intros id rest' Hident Heq. apply is_identifier_spec in Hident as [Hne Hid].
        rewrite placeholder_eq in Heq. rewrite Heq in E.
        rewrite match_placeholder_complete in E; auto; discriminate.
      * apply IH. cbn in Hlen. lia.
Qed.

Lemma replace_placeholders_match fuel cls repl id rest :
  cls RPAREN = false -> id <> [] -> forallb cls id = true ->
  replace_placeholders (S fuel) cls repl (placeholder id ++ rest)
  = repl id ++ replace_placeholders fuel cls repl rest.
Proof.
  intros Hr Hne Hid. rewrite placeholder_eq.
  change (PLACEHOLDER_OPEN ++ id ++ RPAREN :: rest)
    with (ch "!" :: List.tl PLACEHOLDER_OPEN ++ id ++ RPAREN :: rest).
  cbn [replace_placeholders].
  change (ch "!" :: List.tl PLACEHOLDER_OPEN ++ id ++ RPAREN :: rest)
    with (PLACEHOLDER_OPEN ++ id ++ RPAREN :: rest).
  rewrite match_placeholder_complete by assumption. reflexivity.
Qed.

Lemma length_placeholder id rest :
  length (placeholder id ++ rest) = (21 + length id + length rest)%nat.
Proof. unfold placeholder. rewrite !length_app. cbn. lia. Qed.

(** The relation determines the result. *)
Lemma rewrites_unique index text out :
  rewrites index text out ->
  forall fuel, (length text <= fuel)%nat ->
  out = replace_placeholders fuel is_upper_hex (image_replacement index) text.
Proof.
  induction 1 as [|id m rest out Hid Hm _ IH|id rest out Hid Hm _ IH
                 |c rest out Hno _ IH]; intros fuel Hlen.
  - destruct fuel; reflexivity.
  - rewrite length_placeholder in Hlen.
    destruct fuel as [|fuel]; [lia|].
    apply is_identifier_spec in Hid as [Hne Hall].
    rewrite replace_placeholders_match by auto.
    rewrite <- (IH fuel) by lia.
    unfold image_replacement. rewrite Hm. unfold media_link.
    rewrite <- !app_assoc. reflexivity.
  - rewrite length_placeholder in Hlen.
    destruct fuel as [|fuel]; [lia|].
    apply is_identifier_spec in Hid as [Hne Hall].
    rewrite replace_placeholders_match by auto.
    rewrite <- (IH fuel) by lia.
    unfold image_replacement. rewrite Hm. unfold missing_media.
    rewrite <- !app_assoc. reflexivity.
  - destruct fuel as [|fuel]; [cbn in Hlen; lia|].
    cbn [replace_placeholders].
    destruct (match_placeholder is_upper_hex (c :: rest)) as [[id rest']|] eqn:E.
    + apply match_placeholder_Some in E as (Htext & Hne & Hall).
      exfalso. apply (Hno id rest').
      * apply is_identifier_spec. auto.
      * rewrite placeholder_eq. exact Htext.
    + f_equal. apply IH. cbn in Hlen. lia.
Qed.

Lemma placeholder_free_unchanged index fuel text :
  placeholder_free text ->
  replace_placeholders fuel is_upper_hex (image_replacement index) text = text.
Proof.
  revert text. induction fuel as [|fuel IH]; intros text Hfree; [reflexivity|].
  destruct text as [|c tl]; [reflexivity|].
  cbn [replace_placeholders].
  destruct (match_placeholder is_upper_hex (c :: tl)) as [[id rest]|] eqn:E.
  - apply match_placeholder_Some in E as (Htext & Hne & Hall).
    exfalso. apply (Hfree [] id rest).
    + apply is_identifier_spec. auto.
    + rewrite placeholder_eq. exact Htext.
  - f_equal. apply IH. intros pre id post Hid Heq.
    apply (Hfree (c :: pre) id post Hid). rewrite Heq. reflexivity.
Qed.

(** Claim C2.  [convertImageReferences] rewrites every text as [rewrites]
    describes, and [rewrites] leaves no other result: each placeholder
    with a non-empty upper-case hexadecimal identifier becomes the link
    to [<fingerprint>.<kind>] when the identifier is in the index and the
    comment naming it when it is not, and every other unit is copied.  A
    text without such a placeholder is unchanged, as are placeholders
    with a lower-case or an empty identifier.  An unregistered [ABC123]
    yields the comment naming [ABC123]; registered with fingerprint
    [f00d] and kind [jpeg] it yields the link to [f00d.jpeg]. *)
Theorem convertImageReferences_rewrites
    (index : gmap (list N) Media) (text : jsstring) :
  rewrites index text (convertImageReferences index text)
  /\ (forall out, rewrites index text out ->
                  out = convertImageReferences index text)
  /\ (placeholder_free text -> convertImageReferences index text = text)
  /\ (index !! js "ABC123" = None ->
      convertImageReferences index (js "![](dayone-moment://ABC123)")
      = js "<!-- Missing media: ABC123 -->")
  /\ (index !! js "ABC123"
        = Some {| media_md5 := js "f00d"; media_type := js "jpeg" |} ->
      convertImageReferences index (js "![](dayone-moment://ABC123)")
      = js "![[f00d.jpeg]]")
  /\ convertImageReferences index
       (js "![](dayone-moment://abc123) ![](dayone-moment://) ![](dayone-moment://AB1")
     = js "![](dayone-moment://abc123) ![](dayone-moment://) ![](dayone-moment://AB1".
Proof.
  assert (Hident : is_identifier (js "ABC123")).
  { apply is_identifier_spec. split; [discriminate|reflexivity]. }
  repeat split.
  - apply replace_placeholders_rewrites. lia.
  - intros out H. apply (rewrites_unique _ _ _ H). lia.
  - apply placeholder_free_unchanged.
  - intros Hm. symmetry.
    apply (rewrites_unique index (placeholder (js "ABC123") ++ [])); [|cbn; lia].
    apply (rewrites_missing index (js "ABC123") [] [] Hident Hm). constructor.
  - intros Hm. symmetry.
    apply (rewrites_unique index (placeholder (js "ABC123") ++ [])); [|cbn; lia].
    apply (rewrites_link index (js "ABC123") _ [] [] Hident Hm). constructor.
Qed.

Lemma convertImageReferences_rewrites_witness :
  convertImageReferences ∅ (js "![](dayone-moment://ABC123)")
  = js "<!-- Missing media: ABC123 -->".
Proof.
  apply (convertImageReferences_rewrites ∅ []). reflexivity.
Defined.


(** ** Media indexer *)

Lemma last_registration_app id regs1 regs2 :
  last_registration id (regs1 ++ regs2)
  = match last_registration id regs2 with
    | Some m => Some m
    | None => last_registration id regs1
    end.
Proof.
  induction regs1 as [|[k m] regs1 IH]; cbn [app last_registration].
  - destruct (last_registration id regs2); reflexivity.
  - rewrite IH. destruct (last_registration id regs2); reflexivity.
Qed.

(** One loop of [buildPhotoMap]: what is found under an identifier. *)
Lemma register_all_lookup kind_of items id :
  forall index,
    register_all kind_of items index !! id
    = match last_registration id (List.map (registration kind_of) items) with
      | Some m => Some m
      | None => index !! id
      end.
Proof.
  induction items as [|a items IH]; intros index; [reflexivity|].
  change (register_all kind_of (a :: items) index)
    with (register_all kind_of items
            (<[identifier a := {| media_md5 := md5 a; media_type := kind_of a |}]> index)).
  rewrite IH. cbn [List.map last_registration registration].
  destruct (last_registration id _); [reflexivity|].
  destruct (decide (identifier a = id)) as [->|Hne].
  - apply lookup_insert_eq.
  - apply lookup_insert_ne, Hne.
Qed.

(** Claim C5 as stated fails for PDF attachments: the explicit kind [png]
    of a PDF attachment is not used, the attachment is registered with
    the kind [pdf]. *)
Lemma pdf_kind_is_not_overridden :
  let index :=
    buildPhotoMap ∅
      (with_media [] [] [] [attachment (js "D4") (js "dd") (Some (js "png"))]) in
  index !! js "D4" = Some {| media_md5 := js "dd"; media_type := js "pdf" |}
  /\ index !! js "D4" <> Some {| media_md5 := js "dd"; media_type := js "png" |}.
Proof. vm_compute. split; [reflexivity|discriminate]. Qed.

(** Claim C5, amended.  After [buildPhotoMap], what the index holds for an
    identifier is the last registration of the entry under it, and what
    it held before when the entry has none.  The registrations are those
    of the photos, the videos, the audios and the PDF attachments, in
    this order, each with the fingerprint of the attachment; the kind is
    the explicit kind of the attachment, or [jpeg], [mov] and [m4a] when
    it has none, for a photo, a video and an audio, and always [pdf] for
    a PDF attachment. *)
Theorem buildPhotoMap_registers
    (index : gmap (list N) Media) (entry : Entry) (id : jsstring) :
  buildPhotoMap index entry !! id
  = match last_registration id (registrations entry) with
    | Some m => Some m
    | None => index !! id
    end.
Proof.
  unfold buildPhotoMap, registrations.
  rewrite !last_registration_app, !register_all_lookup.
  repeat destruct (last_registration id _); reflexivity.
Qed.

(** ** Frontmatter *)

Lemma get_app key (a b : list (string * yaml)) :
  get key (a ++ b) = match get key a with Some v => Some v | None => get key b end.
Proof.
  induction a as [|[k v] a IH]; [reflexivity|].
  cbn. destruct (String.eqb k key); [reflexivity|exact IH].
Qed.

Lemma get_set_str key k o :
  String.eqb k key = false -> get key (set_str k o) = None.
Proof. intros H. destruct o as [[|? ?]|]; cbn; rewrite ?H; reflexivity. Qed.

Lemma get_set_num key k o :
  String.eqb k key = false -> get key (set_num k o) = None.
Proof.
  intros H. destruct o as [q|]; cbn; [|reflexivity].
  destruct (Qeq_bool q 0); cbn; rewrite ?H; reflexivity.
Qed.

Lemma get_set_pos key k o :
  String.eqb k key = false -> get key (set_pos k o) = None.
Proof.
  intros H. destruct o as [q|]; cbn; [|reflexivity].
  destruct (Qle_bool q 0); cbn; rewrite ?H; reflexivity.
Qed.

Lemma get_set_flag key k b :
  String.eqb k key = false -> get key (set_flag k b) = None.
Proof. intros H. destruct b; cbn; rewrite ?H; reflexivity. Qed.

Lemma get_set_sub key k sub :
  String.eqb k key = false -> get key (set_sub k sub) = None.
Proof. intros H. destruct sub; cbn; rewrite ?H; reflexivity. Qed.

Lemma get_set_moon key k o :
  String.eqb k key = false -> get key (set_moon k o) = None.
Proof.
  intros H. destruct o as [[|c code]|]; try reflexivity.
  unfold set_moon. destruct (plain_object_get _ _); cbn; rewrite ?H; reflexivity.
Qed.

Lemma get_set_sub_same key sub :
  get key (set_sub key sub)
  = match sub with [] => None | _ => Some (YMap sub) end.
Proof. destruct sub; cbn; rewrite ?String.eqb_refl; reflexivity. Qed.

Lemma get_set_pos_same key o :
  get key (set_pos key o)
  = match o with
    | Some q => if Qle_bool q 0 then None else Some (YNum q)
    | None => None
    end.
Proof.
  destruct o as [q|]; cbn; [|reflexivity].
  destruct (Qle_bool q 0); cbn; rewrite ?String.eqb_refl; reflexivity.
Qed.

Lemma get_set_moon_same key o :
  get key (set_moon key o)
  = match o with
    | Some code => plain_object_get MOON_PHASES code
    | None => None
    end.
Proof.
  destruct o as [[|c code]|]; try reflexivity.
  unfold set_moon.
  destruct (plain_object_get _ _); cbn; rewrite ?String.eqb_refl; reflexivity.
Qed.

Lemma get_weather entry :
  get "weather" (buildFrontmatter entry)
  = match weather entry with
    | Some w =>
        match weather_object w with
        | [] => None
        | fields => Some (YMap fields)
        end
    | None => None
    end.
Proof.
  unfold buildFrontmatter. rewrite !get_app.
  rewrite !get_set_str, !get_set_flag by reflexivity.
  destruct (tags entry); cbn [get String.eqb Ascii.eqb Bool.eqb];
  (destruct (location entry) as [loc|]; [rewrite get_set_sub by reflexivity|cbn [get]]);
  (destruct (weather entry) as [w|]; [rewrite get_set_sub_same|cbn [get]]).
  all: try (destruct (weather_object w); [|reflexivity]).
  all: (destruct (userActivity entry); [rewrite get_set_sub by reflexivity|cbn [get]]).
  all: rewrite get_set_sub by reflexivity.
  all: destruct (photos entry); cbn [get String.eqb Ascii.eqb Bool.eqb].
  all: destruct (editingTime entry) as [q|]; try reflexivity.
  all: destruct (Qle_bool q 0); reflexivity.
Qed.

Lemma get_humidity w :
  get "humidity" (weather_object w)
  = match relativeHumidity w with
    | Some q => if Qle_bool q 0 then None else Some (YNum q)
    | None => None
    end.
Proof.
  unfold weather_object. rewrite !get_app.
  rewrite get_set_str, get_set_num by reflexivity.
  rewrite get_set_pos_same.
  rewrite !get_set_num, get_set_pos, get_set_moon by reflexivity.
  destruct (relativeHumidity w) as [q|]; [|reflexivity].
  destruct (Qle_bool q 0); reflexivity.
Qed.

Lemma get_visibility w :
  get "visibility_km" (weather_object w)
  = match visibilityKM w with
    | Some q => if Qle_bool q 0 then None else Some (YNum q)
    | None => None
    end.
Proof.
  unfold weather_object. rewrite !get_app.
  rewrite get_set_str, !get_set_num by reflexivity.
  rewrite (get_set_pos "visibility_km" "humidity") by reflexivity.
  rewrite get_set_pos_same, get_set_moon by reflexivity.
  destruct (visibilityKM w) as [q|]; [|reflexivity].
  destruct (Qle_bool q 0); reflexivity.
Qed.

Lemma get_moon_phase w :
  get "moon_phase" (weather_object w)
  = match moonPhaseCode w with
    | Some code => plain_object_get MOON_PHASES code
    | None => None
    end.
Proof.
  unfold weather_object. rewrite !get_app.
  rewrite get_set_str, !get_set_num, !get_set_pos by reflexivity.
  apply get_set_moon_same.
Qed.

Lemma Qle_bool_false q : Qle_bool q 0 = false <-> (0 < q)%Q.
Proof.
  split.
  - intros H. apply Qnot_le_lt. intros Hle.
    apply Qle_bool_iff in Hle. congruence.
  - intros H. destruct (Qle_bool q 0) eqn:E; [|reflexivity].
    apply Qle_bool_iff in E. exfalso. exact (Qlt_not_le _ _ H E).
Qed.

Lemma table_get_In table code label :
  table_get table code = Some label ->
  exists k v, In (k, v) table /\ code = js k /\ label = js v.
Proof.
  induction table as [|[k v] table IH]; [discriminate|].
  cbn. destruct (decide (js k = code)) as [<-|].
  - intros H. injection H as <-. exists k, v. auto.
  - intros H. destruct (IH H) as (k' & v' & Hin & ? & ?). exists k', v'. auto.
Qed.

Lemma table_get_MOON_PHASES code label :
  In (code, label) MOON_PHASES ->
  table_get MOON_PHASES (js code) = Some (js label).
Proof.
  intros H. cbn in H.
  repeat (destruct H as [H|H]; [injection H as <- <-; reflexivity|]).
  contradiction.
Qed.

(** No key of [MOON_PHASES] is the name of an inherited property. *)
Lemma table_get_own code label :
  table_get MOON_PHASES code = Some label -> is_inherited code = false.
Proof.
  intros H. apply table_get_In in H as (k & l & Hin & -> & _).
  cbn in Hin.
  repeat (destruct Hin as [Hin|Hin]; [injection Hin as <- _; reflexivity|]).
  contradiction.
Qed.

(** Claim C9, where the code departs from it.  The code [constructor] is
    no key of [MOON_PHASES], yet the lookup [MOON_PHASES[code]] finds the
    property of that name which the table inherits: a weather snapshot
    with that code and nothing else gets a [weather] record, and the
    record holds a [moon_phase] that is no label of the table. *)
Theorem inherited_moon_code_is_not_omitted :
  table_get MOON_PHASES (js "constructor") = None
  /\ get "weather" (buildFrontmatter (with_weather (Some inherited_moon_weather)))
     = Some (YMap [("moon_phase"%string, YInherited (js "constructor"))]).
Proof. split; vm_compute; reflexivity. Qed.

(** Property X28.  The frontmatter has no [weather] key when the entry has
    no weather or when no weather field is derived, and otherwise the key
    holds the record of the derived fields.  [humidity] and
    [visibility_km] are in the record exactly when the source value is
    strictly positive, so a zero humidity is left out.  [moon_phase] is
    in the record exactly when the code is a key of [MOON_PHASES], and is
    then the label of the table, or is the name of a property that the
    table inherits, and is then the inherited value. *)
Theorem weather_record (entry : Entry) :
  (weather entry = None -> get "weather" (buildFrontmatter entry) = None)
  /\ (forall w, weather entry = Some w ->
      (get "weather" (buildFrontmatter entry) = None <-> weather_object w = [])
      /\ (weather_object w <> [] ->
          get "weather" (buildFrontmatter entry) = Some (YMap (weather_object w)))
      /\ (forall v, get "humidity" (weather_object w) = Some v
                    <-> exists q, relativeHumidity w = Some q
                                  /\ (0 < q)%Q /\ v = YNum q)
      /\ (forall q, relativeHumidity w = Some q -> (q == 0)%Q ->
                    get "humidity" (weather_object w) = None)
      /\ (forall v, get "visibility_km" (weather_object w) = Some v
                    <-> exists q, visibilityKM w = Some q
                                  /\ (0 < q)%Q /\ v = YNum q)
      /\ (forall v, get "moon_phase" (weather_object w) = Some v
                    <-> exists code,
                          moonPhaseCode w = Some code
                          /\ ((exists key label,
                                 In (key, label) MOON_PHASES
                                 /\ code = js key /\ v = YStr (js label))
                              \/ (is_inherited code = true
                                  /\ v = YInherited code)))).
Proof.
  split.
  - intros H. rewrite get_weather, H. reflexivity.
  - intros w Hw. rewrite get_weather, Hw.
    split; [|split; [|split; [|split; [|split]]]].
    + destruct (weather_object w); [tauto|]. split; discriminate.
    + destruct (weather_object w); [contradiction|reflexivity].
    + intros v. rewrite get_humidity.
      destruct (relativeHumidity w) as [q|].
      * destruct (Qle_bool q 0) eqn:E.
        -- split; [discriminate|]. intros (q' & Hq & Hpos & _).
           injection Hq as <-. apply Qle_bool_false in Hpos. congruence.
        -- apply Qle_bool_false in E. split.
           ++ intros H. injection H as <-. eauto.
           ++ intros (q' & Hq & _ & ->). congruence.
      * split; [discriminate|]. intros (q' & Hq & _). discriminate.
    + intros q Hq Hzero. rewrite get_humidity, Hq.
      replace (Qle_bool q 0) with true; [reflexivity|].
      symmetry. apply Qle_bool_iff. rewrite Hzero. apply Qle_refl.
    + intros v. rewrite get_visibility.
      destruct (visibilityKM w) as [q|].
      * destruct (Qle_bool q 0) eqn:E.
        -- split; [discriminate|]. intros (q' & Hq & Hpos & _).
           injection Hq as <-. apply Qle_bool_false in Hpos. congruence.
        -- apply Qle_bool_false in E. split.
           ++ intros H. injection H as <-. eauto.
           ++ intros (q' & Hq & _ & ->). congruence.
      * split; [discriminate|]. intros (q' & Hq & _). discriminate.
    + intros v. rewrite get_moon_phase.
      destruct (moonPhaseCode w) as [code|];
        [|split; [discriminate|]; intros (c & Hc & _); discriminate].
      unfold plain_object_get.
      destruct (table_get MOON_PHASES code) as [label|] eqn:E.
      * pose proof (table_get_own _ _ E) as Hown. split.
        -- intros H. injection H as <-. exists code. split; [reflexivity|]. left.
           apply table_get_In in E as (k & l & Hin & -> & ->). eauto.
        -- intros (c & Hc & H). injection Hc as <-.
           destruct H as [(k & l & Hin & Hk & Hv) | [Hinh _]]; [|congruence].
           subst code v. rewrite (table_get_MOON_PHASES _ _ Hin) in E. congruence.
      * destruct (is_inherited code) eqn:Einh.
        -- split.
           ++ intros H. injection H as <-. exists code. auto.
           ++ intros (c & Hc & H). injection Hc as <-.
              destruct H as [(k & l & Hin & Hk & Hv) | [_ Hv]]; [|congruence].
              subst code. rewrite (table_get_MOON_PHASES _ _ Hin) in E. discriminate.
        -- split; [discriminate|].
           intros (c & Hc & H). injection Hc as <-.
           destruct H as [(k & l & Hin & Hk & Hv) | [Hinh _]]; [|congruence].
           subst code. rewrite (table_get_MOON_PHASES _ _ Hin) in E. discriminate.
Qed.

Lemma weather_record_witness :
  get "weather" (buildFrontmatter (with_weather (Some full_moon_weather)))
  = Some (YMap [("visibility_km"%string, YNum (16 # 1)%Q);
                ("moon_phase"%string, YStr (js "Full Moon"))]).
Proof.
  destruct (weather_record (with_weather (Some full_moon_weather))) as [_ H].
  destruct (H full_moon_weather eq_refl) as (_ & Hrecord & _).
  apply Hrecord. discriminate.
Defined.


(** ** Filenames *)

Lemma safe_app a b : safe a -> safe b -> safe (a ++ b).
Proof. apply Forall_app_2. Qed.

Lemma safe_literal s : forallb (fun c => negb (is_hostile c)) s = true -> safe s.
Proof.
  intros H. apply Forall_forall. intros c Hin.
  rewrite forallb_forall in H. apply negb_true_iff, H, list_elem_of_In, Hin.
Qed.

Lemma pad_safe width n : safe (pad width n).
Proof.
  revert n. induction width as [|w IH]; intros n; [constructor|].
  cbn [pad]. apply safe_app; [apply IH|].
  constructor; [|constructor].
  pose proof (Z.mod_pos_bound n 10 ltac:(lia)) as Hd.
  assert (Hc : (48 <= Z.to_N (48 + n mod 10) <= 57)%N) by lia.
  revert Hc. generalize (Z.to_N (48 + n mod 10)). intros c Hc.
  unfold is_hostile, ch, BACKSLASH. cbn.
  repeat (apply orb_false_iff; split); apply N.eqb_neq; lia.
Qed.

Lemma iso_date_safe t : safe (iso_date t).
Proof.
  unfold iso_date. destruct (civil_from_days _) as [[y m] d].
  apply safe_app; [|apply safe_app; [apply safe_literal; reflexivity|];
                    apply safe_app; [apply pad_safe|];
                    apply safe_app; [apply safe_literal; reflexivity|];
                    apply pad_safe].
  unfold iso_year. destruct (_ && _); [apply pad_safe|].
  constructor; [destruct (y <? 0); reflexivity|apply pad_safe].
Qed.

Lemma dropWhile_safe p s : safe s -> safe (dropWhile p s).
Proof.
  induction 1 as [|c s Hc Hs IH]; [constructor|].
  cbn. destruct (p c); [exact IH|constructor; assumption].
Qed.

Lemma rev_safe s : safe s -> safe (rev s).
Proof. apply List.Forall_rev. Qed.

Lemma trim_safe s : safe s -> safe (trim s).
Proof.
  intros H. unfold trim.
  apply rev_safe, dropWhile_safe, rev_safe, dropWhile_safe, H.
Qed.

Lemma replace_space_runs_safe r s :
  is_hostile r = false -> safe s -> safe (replace_space_runs r s).
Proof.
  intros Hr. induction 1 as [|c s Hc Hs IH]; [constructor|].
  cbn [replace_space_runs]. destruct (is_space c).
  - destruct s as [|d s']; [repeat constructor; exact Hr|].
    destruct (is_space d); [exact IH|constructor; [exact Hr|exact IH]].
  - constructor; assumption.
Qed.

Lemma slice0_safe n s : safe s -> safe (slice0 n s).
Proof. intros H. unfold slice0. apply Forall_take. exact H. Qed.

Lemma sanitize_title_safe title : safe (sanitize_title title).
Proof.
  unfold sanitize_title.
  apply slice0_safe, trim_safe, replace_space_runs_safe; [reflexivity|].
  induction title as [|c title IH]; [constructor|].
  cbn [List.map]. constructor; [|exact IH].
  destruct (is_hostile c) eqn:E; [reflexivity|exact E].
Qed.

Lemma sanitize_title_length title : (length (sanitize_title title) <= 50)%nat.
Proof. unfold sanitize_title, slice0. rewrite length_firstn. lia. Qed.

Lemma slice0_length n s : (length (slice0 n s) <= n)%nat.
Proof. unfold slice0. rewrite length_firstn. lia. Qed.

Lemma toISODate_safe d dateStr : toISODate d = Ok dateStr -> safe dateStr.
Proof.
  destruct d as [t|]; [|discriminate]. cbn. intros H. injection H as <-.
  apply iso_date_safe.
Qed.

Lemma Ok_filename (this1 this2 : State) (f1 f2 : jsstring) :
  Ok (this1, f1) = Ok (this2, f2) -> f1 = f2.
Proof. congruence. Qed.

Ltac solve_safe :=
  repeat first
    [ assumption
    | apply List.Forall_nil
    | apply List.Forall_cons; [reflexivity|]
    | apply safe_app ].

(** Claim C7 as stated fails on the fallback path: the first eight units of
    the identifier go into the name as they are. *)
Lemma identifier_prefix_is_not_sanitized :
  exists this',
    generateFilename example_Date_parse (constructor false)
      (plain_entry (Some (js "12/34:56")) None)
    = Ok (this', js "2024-01-15 12/34:56.md")
    /\ In (ch "/") (js "2024-01-15 12/34:56.md").
Proof. eexists. split; [vm_compute; reflexivity|]. vm_compute. tauto. Qed.

Lemma safe_app_inv a b : safe (a ++ b) -> safe a /\ safe b.
Proof. unfold safe. apply Forall_app. Qed.

(** Claim C7, amended.  A filename is the date, a space, a portion of at
    most fifty units, an optional disambiguating suffix and [.md]; the
    portion is the sanitised title when there is a title and the
    identifier prefix when there is none, and the suffix is there exactly
    when the name without it was taken.  The filename holds none of the
    nine characters exactly when the identifier prefix holds none of
    them or is not used: it is used when there is no title and in the
    suffix, and goes into the name as it is.  A filename made of a title
    and no suffix is free of the nine characters whatever the
    identifier. *)
Theorem generateFilename_safe
    (Date_parse : jsstring -> option Z) (this0 this' : State) (entry : Entry)
    (filename : jsstring)
    (Hgen : generateFilename Date_parse this0 entry = Ok (this', filename)) :
  exists dateStr portion suffix,
    filename = dateStr ++ js " " ++ portion ++ suffix ++ js ".md"
    /\ toISODate (new_Date Date_parse (creationDate entry)) = Ok dateStr
    /\ (length portion <= 50)%nat
    /\ match extractTitle (text entry) with
       | Some ((_ :: _) as title) => portion = sanitize_title title
       | _ => exists u, uuid entry = Some u /\ portion = slice0 8 u
       end
    /\ ((suffix = []
         /\ dateStr ++ js " " ++ portion ++ js ".md" ∉ usedFilenames this0)
        \/ (exists u, uuid entry = Some u
                      /\ suffix = js " (" ++ slice0 8 u ++ js ")"
                      /\ dateStr ++ js " " ++ portion ++ js ".md"
                         ∈ usedFilenames this0))
    /\ (safe filename
        <-> (has_title entry = false \/ suffix <> [] ->
             forall u, uuid entry = Some u -> safe (slice0 8 u))).
Proof.
  unfold generateFilename, bind in Hgen.
  destruct (toISODate _) as [dateStr|] eqn:Edate; [|discriminate].
  pose proof (toISODate_safe _ _ Edate) as Hdate.
  assert (Hbase : exists portion,
             match extractTitle (text entry) with
             | Some ((_ :: _) as title) =>
                 Ok (dateStr ++ js " " ++ sanitize_title title)
             | _ =>
                 match uuid_slice entry with
                 | Ok a => Ok (dateStr ++ js " " ++ a)
                 | Throw e => Throw e
                 end
             end = Ok (dateStr ++ js " " ++ portion)
             /\ (length portion <= 50)%nat
             /\ match extractTitle (text entry) with
                | Some ((_ :: _) as title) => portion = sanitize_title title
                | _ => exists u, uuid entry = Some u /\ portion = slice0 8 u
                end
             /\ (safe portion
                 <-> (has_title entry = false ->
                      forall u, uuid entry = Some u -> safe (slice0 8 u)))).
  { unfold has_title. destruct (extractTitle (text entry)) as [[|c title]|].
    1,3: unfold uuid_slice in *; destruct (uuid entry) as [u|] eqn:Eu;
         [|discriminate]; exists (slice0 8 u);
         (split; [reflexivity|]);
         (split; [pose proof (slice0_length 8 u); lia|]);
         (split; [eauto|]);
         (split; [intros H _ u' [= <-]; exact H|intros H; exact (H eq_refl u eq_refl)]).
    exists (sanitize_title (c :: title)).
    split; [reflexivity|]. split; [apply sanitize_title_length|].
    split; [reflexivity|].
    split; [discriminate|intros _; apply sanitize_title_safe]. }
  destruct Hbase as (portion & Ebase & Hlen & Hkind & Hportion).
  rewrite Ebase in Hgen.
  assert (Hname : (dateStr ++ js " " ++ portion) ++ js ".md"
                  = dateStr ++ js " " ++ portion ++ js ".md")
    by (rewrite <- !app_assoc; reflexivity).
  rewrite Hname in Hgen.
  case_bool_decide as Hused.
  - unfold uuid_slice in Hgen. destruct (uuid entry) as [u|] eqn:Eu; [|discriminate].
    apply Ok_filename in Hgen. subst filename.
    exists dateStr, portion, (js " (" ++ slice0 8 u ++ js ")").
    split; [rewrite <- ?app_assoc; reflexivity|].
    split; [reflexivity|]. split; [exact Hlen|]. split; [exact Hkind|].
    split; [right; exists u; auto|].
    split.
    + intros Hsafe _ u' [= <-].
      apply (safe_app_inv (dateStr ++ js " " ++ portion)
               (js " (" ++ slice0 8 u ++ js ").md")) in Hsafe as [_ Hsafe].
      apply (safe_app_inv (js " (") (slice0 8 u ++ js ").md")) in Hsafe as [_ Hsafe].
      apply (safe_app_inv (slice0 8 u) (js ").md")) in Hsafe as [Hsafe _].
      exact Hsafe.
    + intros H.
      assert (Hne : js " (" ++ slice0 8 u ++ js ")" <> []) by discriminate.
      assert (Hu : safe (slice0 8 u)) by exact (H (or_intror Hne) u eq_refl).
      assert (Hp : safe portion).
      { apply Hportion. intros Hno. apply (H (or_introl Hno)). }
      solve_safe.
  - apply Ok_filename in Hgen. subst filename.
    exists dateStr, portion, [].
    split; [reflexivity|].
    split; [reflexivity|]. split; [exact Hlen|]. split; [exact Hkind|].
    split; [left; auto|].
    split.
    + intros Hsafe [Hno | Hne]; [|contradiction].
      apply Hportion; [|exact Hno].
      apply (safe_app_inv dateStr (js " " ++ portion ++ [] ++ js ".md"))
        in Hsafe as [_ Hsafe].
      apply (safe_app_inv (js " ") (portion ++ [] ++ js ".md")) in Hsafe as [_ Hsafe].
      apply (safe_app_inv portion ([] ++ js ".md")) in Hsafe as [Hsafe _].
      exact Hsafe.
    + intros H.
      assert (Hp : safe portion).
      { apply Hportion. intros Hno. apply (H (or_introl Hno)). }
      solve_safe.
Qed.

Lemma generateFilename_safe_witness :
  exists dateStr portion suffix,
    js "2024-01-15 What- Why-.md" = dateStr ++ js " " ++ portion ++ suffix ++ js ".md"
    /\ toISODate (new_Date example_Date_parse JAN15) = Ok dateStr
    /\ (length portion <= 50)%nat
    /\ portion = sanitize_title (js "What?   Why:")
    /\ ((suffix = []
         /\ dateStr ++ js " " ++ portion ++ js ".md" ∉ usedFilenames (constructor false))
        \/ (exists u, Some (js "12/34:56") = Some u
                      /\ suffix = js " (" ++ slice0 8 u ++ js ")"
                      /\ dateStr ++ js " " ++ portion ++ js ".md"
                         ∈ usedFilenames (constructor false)))
    /\ (safe (js "2024-01-15 What- Why-.md")
        <-> (has_title (plain_entry (Some (js "12/34:56")) (Some (js "# What?   Why:")))
             = false \/ suffix <> [] ->
             forall u, Some (js "12/34:56") = Some u -> safe (slice0 8 u))).
Proof.
  apply (generateFilename_safe example_Date_parse (constructor false)
           (with_usedFilenames (constructor false) {[ js "2024-01-15 What- Why-.md" ]})
           (plain_entry (Some (js "12/34:56")) (Some (js "# What?   Why:")))
           (js "2024-01-15 What- Why-.md")).
  vm_compute. reflexivity.
Defined.

(** ** Deduplication *)

Section Dedup.

Variable Date_parse : jsstring -> option Z.
Variable jsyaml_dumps : list (string * yaml) -> bool.

Lemma shouldSkipDuplicate_true this entry :
  shouldSkipDuplicate this entry = true <->
  allowDuplicates this = false
  /\ exists u, uuid entry = Some u /\ u <> []
               /\ seenEntries this !! u = Some (fingerprint entry).
Proof.
  unfold shouldSkipDuplicate, fingerprint.
  destruct (allowDuplicates this).
  { split; [discriminate|intros [? _]; discriminate]. }
  destruct (uuid entry) as [[|c u]|].
  - split; [discriminate|]. intros (_ & u & Hu & Hne & _). congruence.
  - destruct (seenEntries this !! (c :: u)) as [seen|] eqn:E.
    + rewrite bool_decide_eq_true. split.
      * intros ->. split; [reflexivity|]. exists (c :: u). auto.
      * intros (_ & u' & Hu & _ & Hs). congruence.
    + split; [discriminate|]. intros (_ & u' & Hu & _ & Hs). congruence.
  - split; [discriminate|]. intros (_ & u & Hu & _). discriminate.
Qed.

Lemma generateFilename_frame this entry this' filename :
  generateFilename Date_parse this entry = Ok (this', filename) ->
  allowDuplicates this' = allowDuplicates this
  /\ photoMap this' = photoMap this
  /\ seenEntries this' = seenEntries this
  /\ skippedDuplicates this' = skippedDuplicates this
  /\ usedFilenames this' = {[filename]} ∪ usedFilenames this.
Proof.
  unfold generateFilename, bind. intros H.
  destruct (toISODate _); [|discriminate].
  destruct (match extractTitle _ with Some (_ :: _) => _ | _ => _ end);
    [|discriminate].
  destruct (if bool_decide _ then _ else _); [|discriminate].
  injection H as <- <-. repeat split.
Qed.

Lemma convertEntry_frame this entry this' file :
  convertEntry Date_parse jsyaml_dumps this entry = Ok (this', file) ->
  allowDuplicates this' = allowDuplicates this
  /\ seenEntries this' = seenEntries this
  /\ skippedDuplicates this' = skippedDuplicates this.
Proof.
  unfold convertEntry, bind, dump_frontmatter. intros H.
  destruct (jsyaml_dumps _); [|discriminate].
  destruct (generateFilename _ _ _) as [[this1 filename]|] eqn:E; [|discriminate].
  injection H as <- _.
  apply generateFilename_frame in E as (-> & _ & -> & -> & _).
  repeat split.
Qed.

(** What a step leaves in [seenEntries]. *)
Lemma convert_step_seenEntries r entry r' :
  allowDuplicates (this r) = false ->
  convert_step Date_parse jsyaml_dumps r entry = Ok r' ->
  allowDuplicates (this r') = false
  /\ seenEntries (this r')
     = match uuid entry with
       | Some ((_ :: _) as u) => <[u := fingerprint entry]> (seenEntries (this r))
       | _ => seenEntries (this r)
       end.
Proof.
  intros Hallow. unfold convert_step.
  destruct (shouldSkipDuplicate (this r) entry) eqn:Eskip.
  - intros H. injection H as <-. cbn. split; [exact Hallow|].
    apply shouldSkipDuplicate_true in Eskip as (_ & u & -> & Hne & Hseen).
    destruct u; [contradiction|]. symmetry. apply insert_id, Hseen.
  - unfold bind.
    destruct (convertEntry _ _ _ _) as [[this1 [filename content]]|] eqn:E;
      [|discriminate].
    apply convertEntry_frame in E as (Ha & Hs & _).
    intros H. injection H as <-. cbn. rewrite Ha, Hallow.
    unfold recordEntry, fingerprint.
    destruct (uuid entry) as [[|c u]|]; cbn; rewrite ?Ha, ?Hs; auto.
Qed.

(** What a step leaves for one identifier. *)
Lemma convert_step_lookup r entry r' u :
  allowDuplicates (this r) = false ->
  convert_step Date_parse jsyaml_dumps r entry = Ok r' ->
  u <> [] ->
  seenEntries (this r') !! u
  = if bool_decide (uuid entry = Some u) then Some (fingerprint entry)
    else seenEntries (this r) !! u.
Proof.
  intros Hallow Hstep Hu.
  destruct (convert_step_seenEntries r entry r' Hallow Hstep) as [_ ->].
  destruct (uuid entry) as [[|c u']|].
  - rewrite bool_decide_eq_false_2; [reflexivity|congruence].
  - case_bool_decide as E.
    + injection E as <-. apply lookup_insert_eq.
    + apply lookup_insert_ne. congruence.
  - rewrite bool_decide_eq_false_2; [reflexivity|congruence].
Qed.

(** The invariant of the loop: for every identifier, the recorded
    fingerprint is that of the last entry with this identifier. *)
Lemma convert_entries_seenEntries entries :
  forall r r',
    allowDuplicates (this r) = false ->
    convert_entries Date_parse jsyaml_dumps r entries = Ok r' ->
    allowDuplicates (this r') = false
    /\ forall u, u <> [] ->
         seenEntries (this r') !! u
         = match last_with u entries with
           | Some last => Some (fingerprint last)
           | None => seenEntries (this r) !! u
           end.
Proof.
  induction entries as [|entry rest IH]; intros r r' Hallow Hrun.
  - injection Hrun as <-. auto.
  - cbn [convert_entries] in Hrun. unfold bind in Hrun.
    destruct (convert_step Date_parse jsyaml_dumps
                r entry) as [r1|] eqn:Estep; [|discriminate].
    pose proof (convert_step_seenEntries r entry r1 Hallow Estep) as [Hallow1 _].
    destruct (IH r1 r' Hallow1 Hrun) as [Hallow' Hseen].
    split; [exact Hallow'|]. intros u Hu.
    rewrite (Hseen u Hu). cbn [last_with].
    destruct (last_with u rest); [reflexivity|].
    rewrite (convert_step_lookup r entry r1 u Hallow Estep Hu).
    destruct (bool_decide _); reflexivity.
Qed.

End Dedup.

(** Claim C1 as stated fails.  After [a], then [b], under one identifier,
    the recorded fingerprint is that of [b]: a third entry with the body
    [a] is not skipped, although its fingerprint is the first recorded
    one. *)
Lemma first_occurrence_wins_fails :
  ~ first_occurrence_wins example_Date_parse example_jsyaml_dumps.
Proof.
  intros claim.
  pose (u := js "AB12CD34").
  pose (first := plain_entry (Some u) (Some (js "a"))).
  pose (later := plain_entry (Some u) (Some (js "b"))).
  destruct (convert_step example_Date_parse example_jsyaml_dumps
              (fresh_run false) first) as [r|] eqn:E1;
    [|vm_compute in E1; discriminate].
  destruct (convert_step example_Date_parse example_jsyaml_dumps r later)
    as [r'|] eqn:E2;
    [|vm_compute in E1; injection E1 as <-; vm_compute in E2; discriminate].
  assert (Hr : seenEntries (this r) !! u = Some (fingerprint first)).
  { vm_compute in E1. injection E1 as <-. reflexivity. }
  assert (Ha : allowDuplicates (this r) = false).
  { vm_compute in E1. injection E1 as <-. reflexivity. }
  specialize (claim r r' first later first u Ha ltac:(discriminate)
                eq_refl eq_refl eq_refl Hr ltac:(vm_compute; discriminate) E2).
  assert (Hskip : shouldSkipDuplicate (this r') first = false).
  { vm_compute in E1. injection E1 as <-. vm_compute in E2.
    injection E2 as <-. vm_compute. reflexivity. }
  rewrite Hskip in claim. destruct claim as [_ claim].
  specialize (claim eq_refl). discriminate.
Qed.

(** Claim C1, amended.  With deduplication enabled, after the loop has gone
    through any entries, the fingerprint recorded for an identifier [u] is
    that of the last of them with identifier [u], and a further entry with
    identifier [u] is skipped exactly when its fingerprint is that one:
    the last occurrence decides, not the first. *)
Theorem last_fingerprint_decides
    (Date_parse : jsstring -> option Z)
    (jsyaml_dumps : list (string * yaml) -> bool) (r r' : Run) (entries : list Entry)
    (last probe : Entry) (u : jsstring)
    (Hdedup : allowDuplicates (this r) = false)
    (Hrun : convert_entries Date_parse jsyaml_dumps r entries = Ok r')
    (Hu : u <> [])
    (Hlast : last_with u entries = Some last)
    (Hprobe : uuid probe = Some u) :
  seenEntries (this r') !! u = Some (fingerprint last)
  /\ (shouldSkipDuplicate (this r') probe = true
      <-> fingerprint probe = fingerprint last).
Proof.
  destruct (convert_entries_seenEntries Date_parse jsyaml_dumps
              entries r r' Hdedup Hrun)
    as [Hallow Hseen].
  specialize (Hseen u Hu). rewrite Hlast in Hseen.
  split; [exact Hseen|].
  rewrite shouldSkipDuplicate_true. split.
  - intros (_ & u' & Hu' & _ & Hl). rewrite Hprobe in Hu'.
    injection Hu' as <-. congruence.
  - intros Heq. split; [exact Hallow|]. exists u. rewrite Heq. auto.
Qed.

Lemma last_fingerprint_decides_witness :
  seenEntries
    (this (after (convert_entries example_Date_parse example_jsyaml_dumps
                    (fresh_run false)
                    [entry_a; entry_b]))) !! js "AB12CD34"
  = Some (fingerprint entry_b)
  /\ (shouldSkipDuplicate
        (this (after (convert_entries example_Date_parse example_jsyaml_dumps
                        (fresh_run false)
                        [entry_a; entry_b])))
        entry_a = true
      <-> fingerprint entry_a = fingerprint entry_b).
Proof.
  apply (last_fingerprint_decides example_Date_parse example_jsyaml_dumps
           (fresh_run false)
           (after (convert_entries example_Date_parse example_jsyaml_dumps
                     (fresh_run false)
                     [entry_a; entry_b]))
           [entry_a; entry_b] entry_b entry_a (js "AB12CD34")).
  - reflexivity.
  - vm_compute. reflexivity.
  - discriminate.
  - reflexivity.
  - reflexivity.
Defined.

(** Claim C8.  With deduplication enabled, an entry whose identifier is
    recorded with the fingerprint of its body is skipped, and the step
    changes nothing but the counter of skipped duplicates, which grows by
    one: the output archive, the count of converted entries, the used
    filenames, the media index and the recorded fingerprints stay. *)
Theorem skipped_duplicate_only_counts
    (Date_parse : jsstring -> option Z)
    (jsyaml_dumps
        : list (string * yaml) -> bool) (r : Run) (entry : Entry) (u : jsstring)
    (Hdedup : allowDuplicates (this r) = false)
    (Huuid : uuid entry = Some u)
    (Hu : u <> [])
    (Hseen : seenEntries (this r) !! u = Some (fingerprint entry)) :
  shouldSkipDuplicate (this r) entry = true
  /\ convert_step Date_parse jsyaml_dumps r entry
     = Ok {| this := {| allowDuplicates := allowDuplicates (this r);
                        photoMap := photoMap (this r);
                        usedFilenames := usedFilenames (this r);
                        seenEntries := seenEntries (this r);
                        skippedDuplicates := S (skippedDuplicates (this r)) |};
             outputZip := outputZip r;
             converted := converted r |}.
Proof.
  assert (Hskip : shouldSkipDuplicate (this r) entry = true).
  { apply shouldSkipDuplicate_true. split; [exact Hdedup|]. exists u. auto. }
  split; [exact Hskip|].
  unfold convert_step. rewrite Hskip. reflexivity.
Qed.

Lemma skipped_duplicate_only_counts_witness :
  shouldSkipDuplicate
    (this (after (convert_step example_Date_parse example_jsyaml_dumps
                    (fresh_run false) entry_a)))
    entry_a = true
  /\ convert_step example_Date_parse example_jsyaml_dumps
       (after (convert_step example_Date_parse example_jsyaml_dumps
                 (fresh_run false) entry_a)) entry_a
     = Ok {| this :=
               {| allowDuplicates := false;
                  photoMap := ∅;
                  usedFilenames := {[ js "2024-01-15 a.md" ]};
                  seenEntries := {[ js "AB12CD34" := hashString (js "a") ]};
                  skippedDuplicates := 1 |};
             outputZip :=
               {[ js "entries/2024-01-15 a.md"
                  := Markdown [("uuid"%string, YStr (js "AB12CD34"));
                               ("created"%string, YStr (js "2024-01-15T10:00:00Z"))]
                       (js "a") ]};
             converted := 1 |}.
Proof.
  apply (skipped_duplicate_only_counts example_Date_parse example_jsyaml_dumps
           (after (convert_step example_Date_parse example_jsyaml_dumps
                     (fresh_run false) entry_a))
           entry_a (js "AB12CD34")).
  - reflexivity.
  - reflexivity.
  - discriminate.
  - vm_compute. reflexivity.
Defined.

(** ** The loop over the entries *)

(** Without deduplication every entry is converted and counted. *)
Lemma convert_entries_counts Date_parse jsyaml_dumps entries :
  forall r r',
    allowDuplicates (this r) = true ->
    convert_entries Date_parse jsyaml_dumps r entries = Ok r' ->
    allowDuplicates (this r') = true
    /\ converted r' = (converted r + length entries)%nat
    /\ skippedDuplicates (this r') = skippedDuplicates (this r).
Proof.
  induction entries as [|entry rest IH]; intros r r' Hallow H.
  - injection H as <-. cbn. auto with arith.
  - cbn [convert_entries] in H. unfold bind in H.
    destruct (convert_step Date_parse jsyaml_dumps
                r entry) as [r1|] eqn:E; [|discriminate].
    unfold convert_step, shouldSkipDuplicate in E. rewrite Hallow in E.
    unfold bind in E.
    destruct (convertEntry _ _ _ _) as [[this1 [filename content]]|] eqn:Ec;
      [|discriminate].
    apply convertEntry_frame in Ec as (Ha & _ & Hs).
    rewrite Ha, Hallow in E. injection E as <-.
    apply IH in H as (H1 & H2 & H3); [|cbn; congruence].
    cbn in H2, H3. cbn [length]. repeat split; [exact H1|lia|congruence].
Qed.

(** Claim C4, where the code departs from it.  With [allowDuplicates] set,
    three copies of one entry are all converted and counted and none is
    skipped, but the third copy gets the name of the second and replaces
    its file: the output archive holds two files for three entries. *)
Theorem third_copy_overwrites_second :
  exists r,
    convert_entries example_Date_parse example_jsyaml_dumps (fresh_run true)
      [morning; morning; morning]
    = Ok r
    /\ converted r = 3%nat
    /\ skippedDuplicates (this r) = 0%nat
    /\ file_names r
       = [js "entries/2024-01-15 Morning thoughts.md";
          js "entries/2024-01-15 Morning thoughts (ABCDEFGH).md"].
Proof.
  eexists. split; [vm_compute; reflexivity|].
  vm_compute. repeat split.
Qed.

(** An entry with neither an identifier nor a title ends the run. *)
Lemma anonymous_untitled_entry_throws Date_parse jsyaml_dumps r entry rest :
  uuid entry = None ->
  extractTitle (text entry) = None ->
  exists e, convert_entries Date_parse jsyaml_dumps r (entry :: rest) = Throw e.
Proof.
  intros Hu Ht. cbn [convert_entries]. unfold convert_step.
  replace (shouldSkipDuplicate (this r) entry) with false.
  2:{ unfold shouldSkipDuplicate. rewrite Hu. destruct (allowDuplicates _); reflexivity. }
  unfold convertEntry, dump_frontmatter, generateFilename, bind.
  destruct (jsyaml_dumps _); [|eauto]. cbn [text creationDate].
  destruct (toISODate _); [|eauto].
  rewrite Ht. unfold uuid_slice. rewrite Hu. eauto.
Qed.

(** Claim C6, where the code departs from it.  An entry with no identifier
    and no title makes the run throw a [TypeError]; the entry after it is
    never converted. *)
Theorem anonymous_untitled_entry_aborts_run :
  convert_entries example_Date_parse example_jsyaml_dumps (fresh_run false)
    [plain_entry None None; morning]
  = Throw TypeError.
Proof. vm_compute. reflexivity. Qed.

(** ** The archive *)

Section Archive.

Variable Date_parse : jsstring -> option Z.
Variable JSON_parse : list N -> option Journal.
Variable jsyaml_dumps : list (string * yaml) -> bool.

Lemma generateFilename_error this entry e :
  generateFilename Date_parse this entry = Throw e -> e <> NoJsonFile.
Proof.
  unfold generateFilename, bind, toISODate, uuid_slice.
  destruct (new_Date _ _); [|congruence].
  destruct (extractTitle _) as [[|? ?]|]; destruct (uuid entry);
    try destruct (bool_decide _); congruence.
Qed.

Lemma convert_entries_error entries :
  forall r e, convert_entries Date_parse jsyaml_dumps
                r entries = Throw e -> e <> NoJsonFile.
Proof.
  induction entries as [|entry rest IH]; intros r e H; [discriminate|].
  cbn [convert_entries] in H. unfold bind in H.
  destruct (convert_step Date_parse jsyaml_dumps r entry) as [r1|e1] eqn:E.
  - exact (IH _ _ H).
  - injection H as <-. unfold convert_step in E.
    destruct (shouldSkipDuplicate _ _); [discriminate|].
    unfold bind, convertEntry, dump_frontmatter in E. unfold bind in E.
    destruct (jsyaml_dumps _); [|congruence].
    destruct (generateFilename _ _ _) as [[this1 filename]|e2] eqn:Eg;
      [discriminate|].
    injection E as <-. exact (generateFilename_error _ _ _ Eg).
Qed.

Lemma filter_json_find files :
  match first_json files with
  | Some (name, f) =>
      endsWith (js ".json") name = true
      /\ zip_file name files = Some f
      /\ exists others,
           List.filter (fun name => endsWith (js ".json") name) (List.map fst files)
           = name :: others
  | None =>
      List.filter (fun name => endsWith (js ".json") name) (List.map fst files) = []
  end.
Proof.
  unfold first_json.
  induction files as [|[n f] files IH]; [reflexivity|].
  cbn [List.find List.map List.filter fst].
  destruct (endsWith (js ".json") n) eqn:E.
  - split; [exact E|]. split; [|eexists; reflexivity].
    cbn. rewrite decide_True by reflexivity. reflexivity.
  - destruct (List.find _ files) as [[name g]|]; [|exact IH].
    destruct IH as (Hn & Hz & others & Hf).
    split; [exact Hn|]. split; [|exists others; exact Hf].
    cbn. destruct (decide (n = name)) as [->|]; [congruence|exact Hz].
Qed.

Lemma first_json_None files :
  first_json files = None
  <-> forall file, In file files -> endsWith (js ".json") (fst file) = false.
Proof.
  unfold first_json. split.
  - intros H file Hin. apply (find_none _ _ H file Hin).
  - intros H. destruct (List.find _ files) as [file|] eqn:E; [|reflexivity].
    apply find_some in E as [Hin Hj]. rewrite (H file Hin) in Hj. discriminate.
Qed.

End Archive.

(** Claim C10.  When the first file whose name ends in [.json] parses to a
    record without [entries], the conversion succeeds with no entry
    converted and an output archive that holds the copied media files
    only.  The error [NoJsonFile] is thrown exactly when no file name of
    the archive ends in [.json]. *)
Theorem missing_entries_is_an_empty_journal
    (Date_parse : jsstring -> option Z) (JSON_parse : list N -> option Journal)
    (jsyaml_dumps : list (string * yaml) -> bool)
    (this0 : State) (files : list (list N * ZipObject))
    (name : jsstring) (f : ZipObject) :
  (first_json files = Some (name, f) ->
   JSON_parse (data f) = Some (JValue None) ->
   convert Date_parse JSON_parse jsyaml_dumps this0 files
   = Ok {| this := this0; outputZip := copy_media files ∅; converted := 0 |})
  /\ (convert Date_parse JSON_parse jsyaml_dumps this0 files = Throw NoJsonFile
      <-> forall file, In file files -> endsWith (js ".json") (fst file) = false).
Proof.
  pose proof (filter_json_find files) as Hfind.
  split.
  - intros Hfirst Hparse. rewrite Hfirst in Hfind.
    destruct Hfind as (_ & Hz & others & Hf).
    unfold convert. rewrite Hf, Hz, Hparse. reflexivity.
  - rewrite <- first_json_None. unfold convert.
    destruct (first_json files) as [[n g]|].
    + destruct Hfind as (_ & Hz & others & Hf). rewrite Hf, Hz.
      split; [|discriminate]. intros H. exfalso.
      destruct (JSON_parse (data g)) as [[|entries]|]; try discriminate.
      exact (convert_entries_error Date_parse jsyaml_dumps _ _ _ H eq_refl).
    + rewrite Hfind. split; reflexivity.
Qed.

Lemma missing_entries_is_an_empty_journal_witness :
  convert example_Date_parse (fun _ => Some (JValue None)) example_jsyaml_dumps
      (constructor false)
    journal_and_photo
  = Ok {| this := constructor false;
          outputZip := {[ js "attachments/f00d.jpeg" := Binary [255; 216; 255]%N ]};
          converted := 0 |}.
Proof.
  apply (missing_entries_is_an_empty_journal example_Date_parse
           (fun _ => Some (JValue None)) example_jsyaml_dumps
           (constructor false) journal_and_photo
           (js "export/Journal.json") {| dir := false; data := js "{}" |});
    reflexivity.
Defined.

(** * Further properties *)

(** ** Fingerprints *)

Lemma to_int32_congr x y :
  (x - y) mod 2 ^ 32 = 0 -> to_int32 x = to_int32 y.
Proof.
  unfold to_int32. intros H.
  assert ((x + 2 ^ 31) mod 2 ^ 32 = (y + 2 ^ 31) mod 2 ^ 32); [|lia].
  revert H. generalize (2 ^ 31). change (2 ^ 32) with 4294967296.
  intros k H. Z.div_mod_to_equations. lia.
Qed.

Lemma to_int32_mod x : (to_int32 x - x) mod 2 ^ 32 = 0.
Proof.
  unfold to_int32. change (2 ^ 32) with 4294967296. change (2 ^ 31) with 2147483648.
  Z.div_mod_to_equations. lia.
Qed.

Lemma to_int32_range x : - 2 ^ 31 <= to_int32 x < 2 ^ 31.
Proof.
  unfold to_int32. change (2 ^ 32) with 4294967296. change (2 ^ 31) with 2147483648.
  Z.div_mod_to_equations. lia.
Qed.

Lemma hash_step_poly h a c :
  (h - a) mod 2 ^ 32 = 0 ->
  (hash_step h c - (31 * a + Z.of_N c)) mod 2 ^ 32 = 0.
Proof.
  intros H. unfold hash_step. rewrite Z.shiftl_mul_pow2 by lia.
  pose proof (to_int32_mod (to_int32 (h * 2 ^ 5) - h + Z.of_N c)) as H1.
  pose proof (to_int32_mod (h * 2 ^ 5)) as H2.
  revert H H1 H2. generalize (to_int32 (to_int32 (h * 2 ^ 5) - h + Z.of_N c)).
  generalize (to_int32 (h * 2 ^ 5)). change (2 ^ 5) with 32.
  change (2 ^ 32) with 4294967296. intros u v H H1 H2.
  Z.div_mod_to_equations. lia.
Qed.

Lemma fold_hash_step_poly str :
  forall h a,
    (h - a) mod 2 ^ 32 = 0 ->
    (fold_left hash_step str h - poly31 a str) mod 2 ^ 32 = 0.
Proof.
  induction str as [|c str IH]; intros h a H; [exact H|].
  cbn [fold_left poly31]. apply IH, hash_step_poly, H.
Qed.

Lemma fold_hash_step_int32 str h :
  to_int32 h = h -> to_int32 (fold_left hash_step str h) = fold_left hash_step str h.
Proof.
  revert h. induction str as [|c str IH]; intros h H; [exact H|].
  cbn [fold_left]. apply IH. unfold hash_step.
  generalize (to_int32 (Z.shiftl h 5) - h + Z.of_N c). intros x.
  pose proof (to_int32_range x). unfold to_int32 at 1.
  change (2 ^ 32) with 4294967296 in *. change (2 ^ 31) with 2147483648 in *.
  Z.div_mod_to_equations. lia.
Qed.

Lemma hashString_poly31 str :
  hashString str = to_hex_string (to_int32 (poly31 0 str)).
Proof.
  unfold hashString. f_equal.
  rewrite <- (fold_hash_step_int32 str 0) by reflexivity.
  apply to_int32_congr, fold_hash_step_poly. reflexivity.
Qed.

(** Property X1.  [hashString] is the polynomial of base 31 over the code
    units of the string, reduced once to a signed 32-bit integer and
    written in hexadecimal: reducing after every unit, as the loop does,
    gives the same number as reducing at the end. *)
Theorem hashString_polynomial (str : jsstring) :
  hashString str = to_hex_string (to_int32 (poly31 0 str))
  /\ - 2 ^ 31 <= to_int32 (poly31 0 str) < 2 ^ 31.
Proof. split; [apply hashString_poly31 | apply to_int32_range]. Qed.

Lemma poly31_app h a b : poly31 h (a ++ b) = poly31 (poly31 h a) b.
Proof. unfold poly31. apply fold_left_app. Qed.

(** Property X2.  The fingerprint does not tell [Aa] from [BB]: an entry
    whose body differs from the recorded one only in that [BB] stands
    where [Aa] stood has the recorded fingerprint, and is skipped as a
    duplicate although its body has changed. *)
Theorem different_bodies_same_fingerprint
    (this : State) (entry : Entry) (u pre post : jsstring)
    (Hdedup : allowDuplicates this = false)
    (Hu : u <> [])
    (Huuid : uuid entry = Some u)
    (Htext : text entry = Some (pre ++ js "BB" ++ post))
    (Hseen : seenEntries this !! u = Some (hashString (pre ++ js "Aa" ++ post))) :
  pre ++ js "BB" ++ post <> pre ++ js "Aa" ++ post
  /\ shouldSkipDuplicate this entry = true.
Proof.
  split.
  - intros H. apply app_inv_head in H. discriminate.
  - unfold shouldSkipDuplicate. rewrite Hdedup, Huuid, Htext.
    destruct u as [|c u]; [contradiction|]. rewrite Hseen.
    apply bool_decide_eq_true. 
    assert (Hne : or_default (Some (pre ++ js "BB" ++ post)) [] = pre ++ js "BB" ++ post).
    { destruct pre; reflexivity. }
    rewrite Hne.
    rewrite !hashString_poly31.
    rewrite !poly31_app.
    replace (poly31 (poly31 0 pre) (js "BB"))
      with (poly31 (poly31 0 pre) (js "Aa")); [reflexivity|].
    generalize (poly31 0 pre). intros h. cbn. lia.
Qed.

Lemma different_bodies_same_fingerprint_witness :
  js "BB" <> js "Aa"
  /\ shouldSkipDuplicate
       (this (after (convert_step example_Date_parse example_jsyaml_dumps
                       (fresh_run false)
                       (plain_entry (Some (js "AB12CD34")) (Some (js "Aa"))))))
       (plain_entry (Some (js "AB12CD34")) (Some (js "BB"))) = true.
Proof.
  apply (different_bodies_same_fingerprint
           (this (after (convert_step example_Date_parse example_jsyaml_dumps
                           (fresh_run false)
                           (plain_entry (Some (js "AB12CD34")) (Some (js "Aa"))))))
           (plain_entry (Some (js "AB12CD34")) (Some (js "BB")))
           (js "AB12CD34") [] []).
  - reflexivity.
  - discriminate.
  - reflexivity.
  - reflexivity.
  - vm_compute. reflexivity.
Defined.

(** ** Tags *)

Lemma is_tag_unit_not_space c : is_tag_unit c = true -> is_space c = false.
Proof.
  unfold is_tag_unit, is_space. intros H.
  rewrite !orb_true_iff, !andb_true_iff, !N.leb_le, !N.eqb_eq in H.
  repeat (apply orb_false_iff; split);
    rewrite ?andb_false_iff, ?N.leb_gt, ?N.eqb_neq; lia.
Qed.

Lemma is_tag_unit_kept c :
  is_tag_unit c = true ->
  (is_word c || (c =? ch "-")%N) = true /\ to_lower c = c.
Proof.
  unfold is_tag_unit, is_word, to_lower, ch. cbn [N_of_ascii]. intros H.
  rewrite !orb_true_iff, !andb_true_iff, !N.leb_le, !N.eqb_eq in H.
  split.
  - rewrite !orb_true_iff, !andb_true_iff, !N.leb_le, !N.eqb_eq. cbn. lia.
  - destruct ((65 <=? c)%N && (c <=? 90)%N) eqn:E; [|reflexivity].
    rewrite andb_true_iff, !N.leb_le in E. lia.
Qed.

Lemma to_lower_tag_unit c :
  (is_word c || (c =? ch "-")%N) = true -> is_tag_unit (to_lower c) = true.
Proof.
  unfold is_tag_unit, is_word, to_lower, ch. cbn [N_of_ascii]. intros H.
  rewrite !orb_true_iff, !andb_true_iff, !N.leb_le, !N.eqb_eq in H. cbn in H.
  destruct ((65 <=? c)%N && (c <=? 90)%N) eqn:E.
  - rewrite andb_true_iff, !N.leb_le in E.
    rewrite !orb_true_iff, !andb_true_iff, !N.leb_le, !N.eqb_eq. lia.
  - rewrite andb_false_iff, !N.leb_gt in E.
    rewrite !orb_true_iff, !andb_true_iff, !N.leb_le, !N.eqb_eq. lia.
Qed.

Lemma replace_space_runs_no_space r s :
  forallb (fun c => negb (is_space c)) s = true -> replace_space_runs r s = s.
Proof.
  induction s as [|c s IH]; [reflexivity|].
  cbn [forallb replace_space_runs]. intros H.
  apply andb_true_iff in H as [Hc Hs]. apply negb_true_iff in Hc.
  rewrite Hc. f_equal. apply IH, Hs.
Qed.

Lemma sanitizeTag_units tag : forallb is_tag_unit (sanitizeTag tag) = true.
Proof.
  unfold sanitizeTag. generalize (replace_space_runs (ch "-") tag). intros t.
  induction t as [|c t IH]; [reflexivity|].
  cbn [List.filter]. destruct (is_word c || (c =? ch "-")%N) eqn:E; [|exact IH].
  cbn [List.map forallb]. rewrite (to_lower_tag_unit c E). exact IH.
Qed.

Lemma sanitizeTag_fixed t : forallb is_tag_unit t = true -> sanitizeTag t = t.
Proof.
  intros H. unfold sanitizeTag.
  rewrite replace_space_runs_no_space.
  - induction t as [|c t IH]; [reflexivity|].
    cbn [forallb] in H. apply andb_true_iff in H as [Hc Ht].
    destruct (is_tag_unit_kept c Hc) as [Hk Hl].
    cbn [List.filter]. rewrite Hk. cbn [List.map]. rewrite Hl. f_equal. apply IH, Ht.
  - rewrite forallb_forall in *. intros c Hin.
    apply negb_true_iff, is_tag_unit_not_space, H, Hin.
Qed.

(** Property X3.  A sanitised tag consists of lower-case letters, digits,
    underscores and hyphens only, and sanitising it again changes
    nothing. *)
Theorem sanitizeTag_normal_form (tag : jsstring) :
  forallb is_tag_unit (sanitizeTag tag) = true
  /\ sanitizeTag (sanitizeTag tag) = sanitizeTag tag.
Proof.
  split; [apply sanitizeTag_units|].
  apply sanitizeTag_fixed, sanitizeTag_units.
Qed.

(** ** Bodies *)

(** Property X4.  On a text in which some units are preceded by a
    backslash, and no unit is itself a backslash, [unescapeDayoneMarkdown]
    removes the backslash before each of the thirteen punctuation marks
    and keeps it before every other unit. *)
Theorem unescape_render (l : list (bool * N))
    (Hl : Forall (fun em => snd em <> BACKSLASH) l) :
  unescapeDayoneMarkdown (render l)
  = render (List.map (fun em => (fst em && negb (is_mark (snd em)), snd em)) l).
Proof. rewrite unescape_passes. apply passes_render, Hl. Qed.

Lemma unescape_render_witness :
  unescapeDayoneMarkdown (js "\n\.x\-") = js "\n.x-".
Proof.
  apply (unescape_render
           [(true, ch "n"); (true, ch "."); (false, ch "x"); (true, ch "-")]).
  repeat constructor; discriminate.
Defined.

Lemma no_escaped_no_backslash q text :
  Forall (fun c => c <> BACKSLASH) text -> no_escaped q text = true.
Proof.
  induction 1 as [|a text Ha _ IH]; [reflexivity|].
  destruct text as [|b rest]; [reflexivity|].
  change (negb ((a =? BACKSLASH)%N && q b) && no_escaped q (b :: rest) = true).
  rewrite IH, andb_true_r.
  destruct (N.eqb_spec a BACKSLASH); [contradiction|reflexivity].
Qed.

Lemma unescape_no_backslash text :
  Forall (fun c => c <> BACKSLASH) text -> unescapeDayoneMarkdown text = text.
Proof.
  intros H. rewrite unescape_passes. apply passes_id.
  apply Forall_forall. intros m _. apply no_escaped_no_backslash, H.
Qed.

Lemma filter_all (p : N -> bool) s : Forall (fun c => p c = true) s -> List.filter p s = s.
Proof.
  induction 1 as [|c s Hc _ IH]; [reflexivity|].
  cbn. rewrite Hc, IH. reflexivity.
Qed.

(** Property X5.  [convertContent] returns a body unchanged when the body
    holds no backslash, no zero-width space and no media placeholder. *)
Theorem convertContent_plain_text
    (index : gmap (list N) Media) (text : jsstring)
    (Hbs : Forall (fun c => c <> BACKSLASH) text)
    (Hzw : Forall (fun c => c <> ZWSP) text)
    (Hfree : placeholder_free text) :
  convertContent_text index (Some text) = text.
Proof.
  unfold convertContent_text.
  assert (Hor : or_default (Some text) [] = text) by (destruct text; reflexivity).
  rewrite Hor, unescape_no_backslash by exact Hbs.
  unfold convertImageReferences. rewrite placeholder_free_unchanged by exact Hfree.
  apply filter_all. apply Forall_forall. intros c Hin.
  rewrite Forall_forall in Hzw. apply negb_true_iff, N.eqb_neq, Hzw, Hin.
Qed.

Lemma is_identifier_no_backslash id :
  is_identifier id -> Forall (fun c => c <> BACKSLASH) id.
Proof.
  intros [_ H]. apply Forall_forall. intros c Hin.
  rewrite Forall_forall in H. specialize (H c Hin). unfold BACKSLASH. lia.
Qed.

Lemma render_app l1 l2 : render (l1 ++ l2) = render l1 ++ render l2.
Proof. unfold render. apply flat_map_app. Qed.

Lemma render_plain s : render (List.map (pair false) s) = s.
Proof. induction s as [|c s IH]; [reflexivity|]. cbn. f_equal. exact IH. Qed.

Lemma unmarked_plain s :
  List.map (fun em : bool * N => (fst em && negb (is_mark (snd em)), snd em))
    (List.map (pair false) s)
  = List.map (pair false) s.
Proof. rewrite List.map_map. reflexivity. Qed.

Lemma unescape_escaped_placeholder id :
  is_identifier id ->
  unescapeDayoneMarkdown (escaped_placeholder id) = placeholder id.
Proof.
  intros Hid.
  pose (l := [(false, ch "!"); (true, ch "["); (true, ch "]"); (true, ch "(")]
             ++ List.map (pair false) (js "dayone-moment://" ++ id)
             ++ [(true, ch ")")]).
  assert (Hl : escaped_placeholder id = render l).
  { unfold l. rewrite !render_app, render_plain. unfold escaped_placeholder.
    rewrite <- !app_assoc. reflexivity. }
  rewrite Hl, unescape_passes, passes_render.
  - unfold l. rewrite !List.map_app, !unmarked_plain, !render_app, !render_plain.
    unfold placeholder. rewrite <- !app_assoc. reflexivity.
  - unfold l. apply Forall_app. split; [repeat constructor; discriminate|].
    apply Forall_app. split; [|repeat constructor; discriminate].
    apply Forall_forall. intros em Hin.
    apply list_elem_of_In, in_map_iff in Hin as (c & <- & Hin). cbn.
    apply in_app_or in Hin as [Hin|Hin].
    + intros ->. revert Hin. vm_compute. intuition discriminate.
    + pose proof (is_identifier_no_backslash id Hid) as H.
      rewrite Forall_forall in H. apply H, list_elem_of_In, Hin.
Qed.

(** Property X6.  A media placeholder whose brackets and parentheses Day
    One has escaped with backslashes is still resolved: the unescaping
    runs first, and [convertContent] returns the link to the media file,
    or the comment that reports it missing, without zero-width spaces. *)
Theorem convertContent_escaped_placeholder
    (index : gmap (list N) Media) (id : jsstring)
    (Hid : is_identifier id) :
  convertContent_text index (Some (escaped_placeholder id))
  = List.filter (fun c => negb (c =? ZWSP)%N) (image_replacement index id).
Proof.
  unfold convertContent_text.
  change (or_default (Some (escaped_placeholder id)) []) with (escaped_placeholder id).
  rewrite unescape_escaped_placeholder by exact Hid.
  f_equal. symmetry.
  rewrite <- (app_nil_r (placeholder id)), <- (app_nil_r (image_replacement index id)).
  apply (rewrites_unique index (placeholder id ++ [])).
  - unfold image_replacement. destruct (index !! id) as [m|] eqn:E.
    + unfold media_link. rewrite <- !app_assoc. apply rewrites_link; auto. constructor.
    + unfold missing_media. rewrite <- !app_assoc. apply rewrites_missing; auto. constructor.
  - reflexivity.
Qed.

Lemma no_bang_placeholder_free text :
  forallb (fun c => negb (c =? ch "!")%N) text = true -> placeholder_free text.
Proof.
  intros H pre id post _ ->.
  rewrite forallb_app in H. apply andb_true_iff in H as [_ H].
  unfold placeholder in H. cbn in H. discriminate.
Qed.

Lemma convertContent_plain_text_witness :
  convertContent_text ∅ (Some (js "Walked (slowly) to the *lake*."))
  = js "Walked (slowly) to the *lake*.".
Proof.
  apply (convertContent_plain_text ∅ (js "Walked (slowly) to the *lake*.")).
  - apply Forall_forall. intros c Hin Hc. subst c. revert Hin.
    rewrite list_elem_of_In. vm_compute. intuition discriminate.
  - apply Forall_forall. intros c Hin Hc. subst c. revert Hin.
    rewrite list_elem_of_In. vm_compute. intuition discriminate.
  - apply no_bang_placeholder_free. vm_compute. reflexivity.
Defined.

Lemma convertContent_escaped_placeholder_witness :
  convertContent_text ∅ (Some (escaped_placeholder (js "ABC123")))
  = List.filter (fun c => negb (c =? ZWSP)%N) (image_replacement ∅ (js "ABC123")).
Proof.
  apply (convertContent_escaped_placeholder ∅ (js "ABC123")).
  apply is_identifier_spec. split; [discriminate | reflexivity].
Defined.

(** ** Titles *)

Lemma is_line_terminator_space c : is_line_terminator c = true -> is_space c = true.
Proof.
  unfold is_line_terminator, is_space. intros H.
  rewrite !orb_true_iff, !N.eqb_eq in H.
  rewrite !orb_true_iff, !andb_true_iff, !N.leb_le, !N.eqb_eq. lia.
Qed.

Lemma heading_match_blank s :
  forallb is_space s = true -> forall b, heading_match b s = None.
Proof.
  induction s as [|c s IH]; intros H b; [reflexivity|].
  cbn [forallb] in H. apply andb_true_iff in H as [Hc Hs].
  cbn [heading_match].
  assert (Hat : heading_at (c :: s) = None).
  { cbn [heading_at]. destruct (N.eqb_spec c (ch "#")) as [->|]; [discriminate|reflexivity]. }
  rewrite Hat. destruct b; apply IH, Hs.
Qed.

Lemma dropWhile_all p s : forallb p s = true -> dropWhile p s = [].
Proof.
  induction s as [|c s IH]; [reflexivity|].
  cbn. intros H. apply andb_true_iff in H as [-> Hs]. apply IH, Hs.
Qed.

Lemma trim_blank s : forallb is_space s = true -> trim s = [].
Proof. intros H. unfold trim. rewrite (dropWhile_all _ _ H). reflexivity. Qed.

Lemma split_lines_blank s :
  forallb is_space s = true ->
  Forall (fun l => forallb is_space l = true) (split_lines s).
Proof.
  induction s as [|c s IH]; intros H; [repeat constructor|].
  cbn [forallb] in H. apply andb_true_iff in H as [Hc Hs]. specialize (IH Hs).
  cbn [split_lines]. destruct (c =? LF)%N.
  - constructor; [reflexivity|exact IH].
  - destruct (split_lines s) as [|l ls]; [repeat constructor; cbn; rewrite Hc; reflexivity|].
    apply Forall_cons in IH as [Hl Hls]. constructor; [|exact Hls].
    cbn. rewrite Hc. exact Hl.
Qed.

(** Property X7.  A body of white space only has no title, and neither
    has a missing body. *)
Theorem extractTitle_blank (text : jsstring)
    (Hblank : forallb is_space text = true) :
  extractTitle (Some text) = None /\ extractTitle None = None.
Proof.
  split; [|reflexivity].
  destruct text as [|c text]; [reflexivity|].
  unfold extractTitle. rewrite (heading_match_blank _ Hblank).
  pose proof (split_lines_blank _ Hblank) as Hlines.
  induction Hlines as [|l ls Hl _ IH]; [reflexivity|].
  cbn [List.find]. rewrite (trim_blank l Hl). exact IH.
Qed.

Lemma extractTitle_blank_witness :
  extractTitle (Some [32; 10; 9; 10; 160]%N) = None /\ extractTitle None = None.
Proof. apply (extractTitle_blank [32; 10; 9; 10; 160]%N). reflexivity. Defined.

Lemma heading_unit_no_backslash t :
  forallb is_heading_unit t = true -> Forall (fun c => c <> BACKSLASH) t.
Proof.
  intros H. apply Forall_forall. intros c Hin. rewrite forallb_forall in H.
  specialize (H c ltac:(apply list_elem_of_In; exact Hin)).
  unfold is_heading_unit in H. apply andb_true_iff in H as [_ H].
  apply negb_true_iff, N.eqb_neq in H. exact H.
Qed.

Lemma heading_rest_line t tail :
  forallb is_heading_unit t = true ->
  (tail = [] \/ exists c rest, tail = c :: rest /\ is_line_terminator c = true) ->
  heading_rest (t ++ tail) = t.
Proof.
  intros Ht Htail. induction t as [|c t IH].
  - destruct Htail as [->|(c & rest & -> & Hc)]; [reflexivity|].
    cbn [app heading_rest]. rewrite Hc. reflexivity.
  - cbn [forallb] in Ht. apply andb_true_iff in Ht as [Hc Ht].
    unfold is_heading_unit in Hc. apply andb_true_iff in Hc as [H1 H2].
    apply negb_true_iff in H1, H2.
    cbn [app heading_rest]. rewrite H1, H2. cbn [andb]. f_equal. apply IH, Ht.
Qed.

Lemma heading_at_spaces ws x rest :
  ws <> [] -> forallb is_space ws = true -> is_space x = false ->
  heading_at (ch "#" :: ws ++ x :: rest) = Some (x :: heading_rest rest).
Proof.
  intros Hne Hws Hx. unfold heading_at.
  change (ch "#" =? ch "#")%N with true. cbv iota.
  destruct (takeWhile_app is_space ws x rest Hws Hx) as [-> ->].
  destruct ws as [|w ws]; [contradiction|reflexivity].
Qed.

(** Property X8.  When the body starts with [#], white space and a line
    of text that holds no backslash, the title is that line, trimmed,
    whatever follows the line.  The white space is one unit or more of
    the class [\s], tabs and line ends among them, and the line ends at
    the end of the body or before any line terminator. *)
Theorem extractTitle_heading (ws : jsstring) (x : N) (t tail : jsstring)
    (Hws : ws <> [] /\ forallb is_space ws = true)
    (Hx : is_space x = false)
    (Hline : forallb is_heading_unit (x :: t) = true)
    (Htail : tail = []
             \/ exists c rest, tail = c :: rest /\ is_line_terminator c = true) :
  extractTitle (Some (ch "#" :: ws ++ (x :: t) ++ tail)) = Some (trim (x :: t)).
Proof.
  destruct Hws as [Hne Hws].
  unfold extractTitle. cbn [heading_match].
  change ((x :: t) ++ tail) with (x :: t ++ tail).
  rewrite (heading_at_spaces ws x (t ++ tail) Hne Hws Hx).
  pose proof Hline as Hline'.
  cbn [forallb] in Hline. apply andb_true_iff in Hline as [Hhx Ht].
  rewrite (heading_rest_line t tail Ht Htail).
  rewrite unescape_no_backslash; [reflexivity|].
  apply heading_unit_no_backslash, Hline'.
Qed.

Lemma extractTitle_heading_witness :
  extractTitle
    (Some (ch "#" :: [9; 32]%N ++ js "Morning thoughts  " ++ [13; 10]%N ++ js "Hello"))
  = Some (js "Morning thoughts").
Proof.
  apply (extractTitle_heading [9; 32]%N (ch "M") (js "orning thoughts  ")
           ([13; 10]%N ++ js "Hello")).
  - split; [discriminate|reflexivity].
  - reflexivity.
  - reflexivity.
  - right. exists 13%N, (10%N :: js "Hello"). split; reflexivity.
Defined.

Lemma heading_match_no_line s :
  forallb (fun c => negb (is_line_terminator c)) s = true ->
  heading_match false s = None.
Proof.
  induction s as [|c s IH]; [reflexivity|].
  cbn [forallb heading_match]. intros H. apply andb_true_iff in H as [Hc Hs].
  apply negb_true_iff in Hc. rewrite Hc. apply IH, Hs.
Qed.

Lemma split_lines_one s :
  forallb (fun c => negb (is_line_terminator c)) s = true ->
  split_lines s = [s].
Proof.
  induction s as [|c s IH]; [reflexivity|].
  cbn [forallb split_lines]. intros H. apply andb_true_iff in H as [Hc Hs].
  rewrite (IH Hs).
  destruct (N.eqb_spec c LF) as [->|]; [discriminate|reflexivity].
Qed.

Lemma trim_bounded a mid z :
  is_space a = false -> is_space z = false ->
  trim (a :: mid ++ [z]) = a :: mid ++ [z].
Proof.
  intros Ha Hz. unfold trim. cbn [dropWhile]. rewrite Ha.
  change (a :: mid ++ [z]) with ((a :: mid) ++ [z]).
  rewrite rev_app_distr. cbn [rev app dropWhile]. rewrite Hz.
  change (z :: rev mid ++ [a]) with ([z] ++ rev (a :: mid)).
  rewrite rev_app_distr, rev_involutive. reflexivity.
Qed.

Lemma replace_placeholders_nil fuel cls repl :
  replace_placeholders fuel cls repl [] = [].
Proof. destruct fuel; reflexivity. Qed.

(** Property X9.  A body that is one [dayone-moment] reference and
    nothing else has no title: the reference is removed from the first
    line before it can become the title, whatever its identifier. *)
Theorem extractTitle_image_only (body : jsstring)
    (Hne : body <> [])
    (Hbody : forallb (fun c => negb (c =? RPAREN)%N && negb (is_line_terminator c))
               body = true) :
  extractTitle (Some (placeholder body)) = None.
Proof.
  assert (Hcls : forallb is_not_rparen body = true).
  { rewrite forallb_forall in *. intros c Hin. specialize (Hbody c Hin).
    apply andb_true_iff in Hbody as [H _]. exact H. }
  assert (Hlt : forallb (fun c => negb (is_line_terminator c)) (placeholder body) = true).
  { unfold placeholder. rewrite !forallb_app. apply andb_true_iff. split; [reflexivity|].
    apply andb_true_iff. split; [|reflexivity].
    rewrite forallb_forall in *. intros c Hin. specialize (Hbody c Hin).
    apply andb_true_iff in Hbody as [_ H]. exact H. }
  assert (Hshape : placeholder body
                   = ch "!" :: (List.tl (js "![](dayone-moment://") ++ body) ++ [RPAREN]).
  { unfold placeholder. cbn [js List.tl]. rewrite <- !app_assoc. reflexivity. }
  assert (Hm : heading_match true (placeholder body) = None).
  { rewrite Hshape. cbn [heading_match heading_at].
    change (ch "!" =? ch "#")%N with false. cbv iota.
    change (is_line_terminator (ch "!")) with false.
    apply heading_match_no_line.
    rewrite Hshape in Hlt. cbn [forallb] in Hlt. apply andb_true_iff in Hlt as [_ H].
    exact H. }
  assert (Htrim : negb (Nat.eqb (length (trim (placeholder body))) 0) = true).
  { rewrite Hshape, trim_bounded by reflexivity. reflexivity. }
  assert (Hrm : remove_placeholders (placeholder body) = []).
  { unfold remove_placeholders.
    rewrite <- (app_nil_r (placeholder body)).
    rewrite length_placeholder. cbn [Nat.add].
    rewrite replace_placeholders_match, replace_placeholders_nil by auto.
    reflexivity. }
  unfold extractTitle.
  rewrite Hm, (split_lines_one _ Hlt). cbn [List.find].
  rewrite Htrim, Hrm.
  rewrite Hshape. reflexivity.
Qed.

Lemma extractTitle_image_only_witness :
  extractTitle (Some (js "![](dayone-moment://ABC123)")) = None.
Proof.
  apply (extractTitle_image_only (js "ABC123")); [discriminate|reflexivity].
Defined.

(** ** The date prefix *)

Lemma civil_from_days_range days :
  let '(y, m, d) := civil_from_days days in
  1 <= m <= 12 /\ 1 <= d <= 31.
Proof.
  unfold civil_from_days. cbv zeta.
  destruct (_ <? 10) eqn:E; [apply Z.ltb_lt in E|apply Z.ltb_ge in E];
  Z.div_mod_to_equations; lia.
Qed.

Lemma days_from_civil_from_days days :
  let '(y, m, d) := civil_from_days days in days_from_civil y m d = days.
Proof.
  unfold civil_from_days, days_from_civil. cbv zeta.
  repeat match goal with
         | |- context [if ?b then _ else _] =>
             let E := fresh "E" in
             destruct b eqn:E;
             [first [apply Z.ltb_lt in E | apply Z.leb_le in E]
             |first [apply Z.ltb_ge in E | apply Z.leb_gt in E]]
         end;
  Z.div_mod_to_equations; lia.
Qed.

Ltac split_ifs :=
  repeat match goal with
         | |- context [if ?b then _ else _] =>
             let E := fresh "E" in
             destruct b eqn:E;
             [first [apply Z.ltb_lt in E | apply Z.leb_le in E]
             |first [apply Z.ltb_ge in E | apply Z.leb_gt in E]]
         end.

Lemma days_in_month_cases y m :
  1 <= m <= 12 ->
  days_in_month y m =
  match m with
  | 2 => if is_leap y then 29 else 28
  | 4 | 6 | 9 | 11 => 30
  | _ => 31
  end.
Proof.
  intros H. unfold days_in_month.
  assert (m = 1 \/ m = 2 \/ m = 3 \/ m = 4 \/ m = 5 \/ m = 6 \/ m = 7 \/ m = 8
          \/ m = 9 \/ m = 10 \/ m = 11 \/ m = 12) as Hm by lia.
  repeat (destruct Hm as [->|Hm]; [reflexivity|]). subst. reflexivity.
Qed.

Lemma is_leap_spec y :
  is_leap y = true <-> y mod 4 = 0 /\ (y mod 100 <> 0 \/ y mod 400 = 0).
Proof.
  unfold is_leap.
  rewrite andb_true_iff, orb_true_iff, negb_true_iff, !Z.eqb_eq, Z.eqb_neq. tauto.
Qed.

Lemma yoe_formula yoe doy :
  0 <= yoe <= 399 -> 0 <= doy <= 365 ->
  (doy = 365 -> yoe mod 4 = 3 /\ (yoe mod 100 <> 99 \/ yoe = 399)) ->
  let doe := yoe * 365 + yoe / 4 - yoe / 100 + doy in
  (doe - doe / 1460 + doe / 36524 - doe / 146096) / 365 = yoe /\ 0 <= doe <= 146096.
Proof.
  intros Hy Hd Hl. cbv zeta.
  assert (Hc : yoe / 100 = 0 \/ yoe / 100 = 1 \/ yoe / 100 = 2 \/ yoe / 100 = 3)
    by (Z.div_mod_to_equations; lia).
  destruct Hc as [Hc|[Hc|[Hc|Hc]]]; rewrite Hc;
    Z.div_mod_to_equations; lia.
Qed.

Lemma civil_from_parts era yoe mp d :
  0 <= yoe <= 399 -> 0 <= mp <= 11 -> 1 <= d ->
  let doy := (153 * mp + 2) / 5 + d - 1 in
  (5 * doy + 2) / 153 = mp ->
  doy <= 365 ->
  (doy = 365 -> yoe mod 4 = 3 /\ (yoe mod 100 <> 99 \/ yoe = 399)) ->
  civil_from_days (era * 146097 + (yoe * 365 + yoe / 4 - yoe / 100 + doy) - 719468)
  = (yoe + era * 400 + (if (if mp <? 10 then mp + 3 else mp - 9) <=? 2 then 1 else 0),
     if mp <? 10 then mp + 3 else mp - 9, d).
Proof.
  intros Hy Hmp Hd doy Hm Hdoy Hleap.
  assert (0 <= doy) by (unfold doy; Z.div_mod_to_equations; lia).
  destruct (yoe_formula yoe doy Hy ltac:(lia) Hleap) as [Hyoe Hdoe].
  cbv zeta in Hyoe, Hdoe.
  unfold civil_from_days. cbv zeta.
  set (doe := yoe * 365 + yoe / 4 - yoe / 100 + doy) in *.
  replace (era * 146097 + doe - 719468 + 719468) with (era * 146097 + doe) by lia.
  assert (He : (era * 146097 + doe) / 146097 = era)
    by (Z.div_mod_to_equations; lia).
  rewrite He.
  replace (era * 146097 + doe - era * 146097) with doe by lia.
  rewrite Hyoe.
  replace (doe - (365 * yoe + yoe / 4 - yoe / 100)) with doy by (unfold doe; lia).
  rewrite Hm.
  replace (doy - (153 * mp + 2) / 5 + 1) with d by (unfold doy; lia).
  reflexivity.
Qed.

Lemma civil_from_days_from_civil y m d :
  1 <= m <= 12 -> 1 <= d <= days_in_month y m ->
  civil_from_days (days_from_civil y m d) = (y, m, d).
Proof.
  intros Hm Hd. rewrite days_in_month_cases in Hd by exact Hm.
  assert (Hleap : is_leap y = true -> y mod 4 = 0 /\ (y mod 100 <> 0 \/ y mod 400 = 0))
    by apply is_leap_spec.
  assert (Hcases : m = 1 \/ m = 2 \/ m = 3 \/ m = 4 \/ m = 5 \/ m = 6 \/ m = 7
                   \/ m = 8 \/ m = 9 \/ m = 10 \/ m = 11 \/ m = 12) by lia.
  unfold days_from_civil. cbv zeta.
  set (y' := if m <=? 2 then y - 1 else y).
  set (mp := if 2 <? m then m - 3 else m + 9).
  set (era := y' / 400). set (yoe := y' - era * 400).
  assert (Hyoe : 0 <= yoe <= 399) by (unfold yoe, era; Z.div_mod_to_equations; lia).
  assert (Hy' : y' = if m <=? 2 then y - 1 else y) by reflexivity.
  assert (Hmp : mp = if 2 <? m then m - 3 else m + 9) by reflexivity.
  clearbody y' mp.
  assert (Hparts : 0 <= mp <= 11
                   /\ (5 * ((153 * mp + 2) / 5 + d - 1) + 2) / 153 = mp
                   /\ (153 * mp + 2) / 5 + d - 1 <= 365
                   /\ ((153 * mp + 2) / 5 + d - 1 = 365 -> m = 2 /\ d = 29)
                   /\ (if mp <? 10 then mp + 3 else mp - 9) = m).
  { repeat (destruct Hcases as [->|Hcases]); try subst m;
      cbn in Hmp; subst mp; cbn in Hd |- *;
      try (destruct (is_leap y));
      (repeat split; try reflexivity; Z.div_mod_to_equations; lia). }
  destruct Hparts as (H1 & H2 & H3 & H4 & H5).
  rewrite (civil_from_parts era yoe mp d Hyoe H1 ltac:(lia) H2 H3).
  - rewrite H5. f_equal. f_equal.
    destruct (m <=? 2) eqn:E; subst y'; unfold yoe; lia.
  - intros H365. destruct (H4 H365) as [-> ->].
    cbn in Hy', Hd. destruct (is_leap y) eqn:El; [|lia].
    destruct (Hleap eq_refl) as [Ha Hb].
    subst y'. unfold yoe, era. clear -Ha Hb. Z.div_mod_to_equations. lia.
Qed.

Lemma not_leap_spec y :
  is_leap y = false -> y mod 4 <> 0 \/ (y mod 100 = 0 /\ y mod 400 <> 0).
Proof.
  intros H.
  destruct (Z.eq_dec (y mod 4) 0), (Z.eq_dec (y mod 100) 0), (Z.eq_dec (y mod 400) 0);
    try tauto; exfalso;
    assert (is_leap y = true) by (apply is_leap_spec; tauto); congruence.
Qed.

Lemma civil_from_days_valid days :
  let '(y, m, d) := civil_from_days days in
  1 <= m <= 12 /\ 1 <= d <= days_in_month y m.
Proof.
  unfold civil_from_days. cbv zeta.
  remember (days + 719468) as z eqn:Hz.
  remember (z / 146097) as era eqn:Hera.
  remember (z - era * 146097) as doe eqn:Hdoe.
  remember ((doe - doe / 1460 + doe / 36524 - doe / 146096) / 365) as yoe eqn:Hyoe.
  remember (doe - (365 * yoe + yoe / 4 - yoe / 100)) as doy eqn:Hdoy.
  remember ((5 * doy + 2) / 153) as mp eqn:Hmp.
  remember (if mp <? 10 then mp + 3 else mp - 9) as m eqn:Hm.
  assert (Hrange : 0 <= mp <= 11) by (subst; Z.div_mod_to_equations; lia).
  assert (Hm' : (mp < 10 /\ m = mp + 3) \/ (10 <= mp /\ m = mp - 9))
    by (subst m; destruct (Z.ltb_spec mp 10); lia).
  clear Hm. split; [lia|].
  unfold days_in_month.
  destruct (Z.eqb_spec m 2) as [Hfeb|Hfeb].
  - rewrite Hfeb. change (2 <=? 2) with true. cbv iota.
    destruct (is_leap _) eqn:El;
      [apply is_leap_spec in El|apply not_leap_spec in El];
      subst z era doe; Z.div_mod_to_equations; lia.
  - destruct (Z.eqb_spec m 4), (Z.eqb_spec m 6), (Z.eqb_spec m 9), (Z.eqb_spec m 11);
      cbn [orb]; subst z era doe; Z.div_mod_to_equations; lia.
Qed.

Lemma days_in_month_range y m : 28 <= days_in_month y m <= 31.
Proof.
  unfold days_in_month.
  destruct (m =? 2); [destruct (is_leap y); lia|].
  destruct (_ || _); lia.
Qed.

Lemma days_from_civil_next_month y m :
  1 <= m <= 11 ->
  days_from_civil y (m + 1) 1 = days_from_civil y m (days_in_month y m) + 1.
Proof.
  intros Hm. unfold days_in_month, days_from_civil. cbv zeta.
  destruct (Z.eqb_spec m 2) as [Hfeb|Hfeb].
  - subst m. change (2 <=? 2) with true.
    change (2 + 1 <=? 2) with false. change (2 <? 2 + 1) with true.
    change (2 <? 2) with false. cbv iota.
    destruct (is_leap y) eqn:El;
      [apply is_leap_spec in El|apply not_leap_spec in El];
      Z.div_mod_to_equations; lia.
  - destruct (Z.leb_spec m 2), (Z.leb_spec (m + 1) 2), (Z.ltb_spec 2 m),
      (Z.ltb_spec 2 (m + 1)); try lia;
    destruct (Z.eqb_spec m 4), (Z.eqb_spec m 6), (Z.eqb_spec m 9), (Z.eqb_spec m 11);
      cbn [orb]; try lia; Z.div_mod_to_equations; lia.
Qed.

Lemma days_from_civil_next_year y :
  days_from_civil (y + 1) 1 1 = days_from_civil y 12 31 + 1.
Proof.
  unfold days_from_civil. cbv zeta.
  change (12 <=? 2) with false. change (1 <=? 2) with true.
  change (2 <? 12) with true. change (2 <? 1) with false. cbv iota.
  replace (y + 1 - 1) with y by lia.
  Z.div_mod_to_equations. lia.
Qed.

Lemma days_from_civil_next_day y m d :
  days_from_civil y m (d + 1) = days_from_civil y m d + 1.
Proof. unfold days_from_civil. cbv zeta. lia. Qed.

Lemma days_from_civil_next y m d :
  1 <= m <= 12 -> 1 <= d <= days_in_month y m ->
  let '(y', m', d') := next_day (y, m, d) in
  1 <= m' <= 12 /\ 1 <= d' <= days_in_month y' m'
  /\ days_from_civil y' m' d' = days_from_civil y m d + 1.
Proof.
  intros Hm Hd. unfold next_day.
  destruct (Z.ltb_spec d (days_in_month y m)) as [Hlt|Hge].
  - split; [lia|]. split; [lia|]. apply days_from_civil_next_day.
  - assert (Hd' : d = days_in_month y m) by lia.
    destruct (Z.ltb_spec m 12) as [Hm12|Hm12].
    + pose proof (days_in_month_range y (m + 1)).
      split; [lia|]. split; [lia|].
      rewrite Hd'. apply days_from_civil_next_month. lia.
    + assert (m = 12) by lia. subst m.
      pose proof (days_in_month_range (y + 1) 1).
      split; [lia|]. split; [lia|].
      rewrite Hd'. apply days_from_civil_next_year.
Qed.

(** Day numbers and calendar dates correspond one to one. *)
Lemma civil_from_days_bijective (n n' : Z) :
  (let '(y, m, d) := civil_from_days n in
   1 <= m <= 12 /\ 1 <= d <= days_in_month y m)
  /\ (civil_from_days n = civil_from_days n' -> n = n').
Proof.
  split; [apply civil_from_days_valid|].
  intros H.
  pose proof (days_from_civil_from_days n) as Hn.
  pose proof (days_from_civil_from_days n') as Hn'.
  rewrite H in Hn. destruct (civil_from_days n') as [[y m] d]. congruence.
Qed.

(** The calendar, day after day: the epoch is 1970-01-01, and the day
    after a day number is the next calendar day. *)
Lemma civil_from_days_next (n : Z) :
  civil_from_days 0 = (1970, 1, 1)
  /\ civil_from_days (n + 1) = next_day (civil_from_days n).
Proof.
  split; [reflexivity|].
  pose proof (civil_from_days_valid n) as Hv.
  pose proof (days_from_civil_from_days n) as Hn.
  destruct (civil_from_days n) as [[y m] d].
  destruct Hv as [Hm Hd].
  pose proof (days_from_civil_next y m d Hm Hd) as Hnext.
  destruct (next_day (y, m, d)) as [[y' m'] d'].
  destruct Hnext as (Hm' & Hd' & Hdays).
  rewrite <- Hn, <- Hdays. apply civil_from_days_from_civil; assumption.
Qed.

Lemma digits_value_snoc s c :
  digits_value (s ++ [c]) = 10 * digits_value s + (Z.of_N c - 48).
Proof. unfold digits_value. rewrite fold_left_app. reflexivity. Qed.

Lemma pad_value width n :
  length (pad width n) = width
  /\ forallb (fun c => (48 <=? c)%N && (c <=? 57)%N) (pad width n) = true
  /\ digits_value (pad width n) = n mod 10 ^ Z.of_nat width.
Proof.
  revert n. induction width as [|w IH]; intros n.
  - repeat split. cbn. rewrite Z.mod_1_r. reflexivity.
  - destruct (IH (n / 10)) as (Hl & Hd & Hv).
    cbn [pad]. rewrite length_app, forallb_app, digits_value_snoc, Hl, Hd, Hv.
    pose proof (Z.mod_pos_bound n 10 ltac:(lia)) as Hm.
    split; [cbn; lia|]. split.
    + cbn. rewrite andb_true_r. apply andb_true_iff.
      rewrite !N.leb_le. lia.
    + rewrite Z2N.id by lia.
      rewrite Nat2Z.inj_succ, Z.pow_succ_r by lia.
      rewrite Z.rem_mul_r by (try apply Z.pow_pos_nonneg; lia).
      lia.
Qed.

(** Property X10.  For a year from 0 to 9999 the date prefix of a filename
    is four digits, a hyphen, two digits, a hyphen and two digits, and the
    three numbers read back as the year, the month and the day of the
    creation date in UTC. *)
Theorem iso_date_reads_back (t y m d : Z)
    (Hdate : civil_from_days (t / MS_PER_DAY) = (y, m, d))
    (Hyear : 0 <= y <= 9999) :
  exists Y M D,
    iso_date t = Y ++ js "-" ++ M ++ js "-" ++ D
    /\ length Y = 4%nat /\ length M = 2%nat /\ length D = 2%nat
    /\ all_digits Y = true /\ all_digits M = true /\ all_digits D = true
    /\ digits_value Y = y /\ digits_value M = m /\ digits_value D = d.
Proof.
  pose proof (civil_from_days_range (t / MS_PER_DAY)) as Hr.
  rewrite Hdate in Hr. destruct Hr as [Hm Hd].
  exists (pad 4 y), (pad 2 m), (pad 2 d).
  destruct (pad_value 4 y) as (Hl1 & Hd1 & Hv1).
  destruct (pad_value 2 m) as (Hl2 & Hd2 & Hv2).
  destruct (pad_value 2 d) as (Hl3 & Hd3 & Hv3).
  unfold all_digits. repeat split; try assumption.
  - unfold iso_date. rewrite Hdate. unfold iso_year.
    destruct (Z.leb_spec 0 y) as [_|]; [|lia].
    destruct (Z.leb_spec y 9999) as [_|]; [|lia]. reflexivity.
  - rewrite Hv1. apply Z.mod_small. change (10 ^ Z.of_nat 4) with 10000. lia.
  - rewrite Hv2. apply Z.mod_small. change (10 ^ Z.of_nat 2) with 100. lia.
  - rewrite Hv3. apply Z.mod_small. change (10 ^ Z.of_nat 2) with 100. lia.
Qed.

Lemma iso_date_reads_back_witness :
  exists Y M D,
    iso_date 1705312800000 = Y ++ js "-" ++ M ++ js "-" ++ D
    /\ length Y = 4%nat /\ length M = 2%nat /\ length D = 2%nat
    /\ all_digits Y = true /\ all_digits M = true /\ all_digits D = true
    /\ digits_value Y = 2024 /\ digits_value M = 1 /\ digits_value D = 15.
Proof.
  apply (iso_date_reads_back 1705312800000 2024 1 15); [reflexivity|lia].
Defined.

(** ** Filenames and the loop over the entries *)

Section Resolver.

Variable Date_parse : jsstring -> option Z.

(** How [generateFilename] arrives at a name. *)
Lemma generateFilename_cases this0 entry this' filename :
  generateFilename Date_parse this0 entry = Ok (this', filename) ->
  usedFilenames this' = {[filename]} ∪ usedFilenames this0
  /\ exists base,
       (filename = base ++ js ".md" /\ base ++ js ".md" ∉ usedFilenames this0)
       \/ (base ++ js ".md" ∈ usedFilenames this0
           /\ exists u, uuid entry = Some u
                        /\ filename = base ++ js " (" ++ slice0 8 u ++ js ").md").
Proof.
  intros H.
  pose proof (generateFilename_frame Date_parse _ _ _ _ H) as (_ & _ & _ & _ & Hused).
  split; [exact Hused|].
  unfold generateFilename, bind in H.
  destruct (toISODate _) as [dateStr|]; [|discriminate].
  destruct (match extractTitle _ with Some (_ :: _) => _ | _ => _ end)
    as [base|]; [|discriminate].
  exists base. case_bool_decide as Hin.
  - right. split; [exact Hin|].
    unfold uuid_slice in H. destruct (uuid entry) as [u|]; [|discriminate].
    exists u. split; [reflexivity|]. congruence.
  - left. split; [congruence|exact Hin].
Qed.

Lemma suffixed_name_differs (base p : jsstring) :
  base ++ js " (" ++ p ++ js ").md" <> base ++ js ".md".
Proof. intros H. apply app_inv_head in H. discriminate. Qed.

End Resolver.

(** Property X11.  [generateFilename] records the name it returns and
    forgets no earlier name.  The name it returns was taken before only
    when it is the disambiguated form [base (prefix).md] of a name
    [base.md] that was taken too: the disambiguated name is not checked
    again. *)
Theorem generateFilename_reuse
    (Date_parse : jsstring -> option Z) (this0 this' : State) (entry : Entry)
    (filename : jsstring)
    (Hgen : generateFilename Date_parse this0 entry = Ok (this', filename)) :
  filename ∈ usedFilenames this'
  /\ usedFilenames this0 ⊆ usedFilenames this'
  /\ (filename ∈ usedFilenames this0 ->
      exists base u,
        uuid entry = Some u
        /\ filename = base ++ js " (" ++ slice0 8 u ++ js ").md"
        /\ base ++ js ".md" ∈ usedFilenames this0).
Proof.
  destruct (generateFilename_cases Date_parse _ _ _ _ Hgen) as (Hused & base & Hcase).
  rewrite Hused.
  split; [apply elem_of_union; left; apply elem_of_singleton; reflexivity|].
  split; [apply union_subseteq_r|].
  intros Hin. destruct Hcase as [[-> Hfresh]|(Htaken & u & Hu & ->)].
  - contradiction.
  - exists base, u. auto.
Qed.

Lemma generateFilename_reuse_witness :
  js "2024-01-15 Morning thoughts (ABCDEFGH).md" ∈ usedFilenames twice_used
  /\ usedFilenames once_used ⊆ usedFilenames twice_used
  /\ (js "2024-01-15 Morning thoughts (ABCDEFGH).md" ∈ usedFilenames once_used ->
      exists base u,
        uuid morning = Some u
        /\ js "2024-01-15 Morning thoughts (ABCDEFGH).md"
           = base ++ js " (" ++ slice0 8 u ++ js ").md"
        /\ base ++ js ".md" ∈ usedFilenames once_used).
Proof.
  apply (generateFilename_reuse example_Date_parse once_used twice_used morning
           (js "2024-01-15 Morning thoughts (ABCDEFGH).md")).
  vm_compute. reflexivity.
Defined.

(** Property X12.  An entry that is not skipped, whose frontmatter the
    YAML library accepts, and whose creation date is absent or is a string
    that is no date ends the run with a [RangeError], whatever entries
    follow it.  A creation date that is [null] does not: it reads as the
    epoch, and the date prefix is [1970-01-01]. *)
Theorem entry_without_date_aborts
    (Date_parse : jsstring -> option Z)
    (jsyaml_dumps : list (string * yaml) -> bool) (r : Run) (entry : Entry)
    (rest : list Entry)
    (Hdate : creationDate entry = DateAbsent
             \/ exists s, creationDate entry = DateString s
                          /\ Date_parse s = None)
    (Hskip : shouldSkipDuplicate (this r) entry = false)
    (Hdump : jsyaml_dumps (buildFrontmatter entry) = true) :
  convert_entries Date_parse jsyaml_dumps r (entry :: rest) = Throw RangeError
  /\ forall dated : Entry,
       creationDate dated = DateNull ->
       toISODate (new_Date Date_parse (creationDate dated)) = Ok (js "1970-01-01").
Proof.
  split.
  - cbn [convert_entries]. unfold convert_step. rewrite Hskip.
    unfold convertEntry, dump_frontmatter, generateFilename, bind.
    rewrite Hdump.
    replace (new_Date Date_parse (creationDate entry)) with (@None Z);
      [reflexivity|].
    destruct Hdate as [-> | (s & -> & Hs)]; [reflexivity|].
    unfold new_Date. rewrite Hs. reflexivity.
  - intros dated ->. vm_compute. reflexivity.
Qed.

Lemma entry_without_date_aborts_witness :
  convert_entries example_Date_parse example_jsyaml_dumps (fresh_run false)
    [example_entry_dated (Some (js "ABCDEFGH12345678")) (Some (js "# Title"))
       (DateString (js "yesterday")); morning]
  = Throw RangeError
  /\ forall dated : Entry,
       creationDate dated = DateNull ->
       toISODate (new_Date example_Date_parse (creationDate dated))
       = Ok (js "1970-01-01").
Proof.
  apply (entry_without_date_aborts example_Date_parse example_jsyaml_dumps
           (fresh_run false)
           (example_entry_dated (Some (js "ABCDEFGH12345678")) (Some (js "# Title"))
              (DateString (js "yesterday")))
           [morning]).
  - right. eexists. split; reflexivity.
  - reflexivity.
  - reflexivity.
Defined.

Section Loop.

Variable Date_parse : jsstring -> option Z.
Variable jsyaml_dumps : list (string * yaml) -> bool.

(** What a step that converts does. *)
Lemma convert_step_converts r entry r' :
  shouldSkipDuplicate (this r) entry = false ->
  convert_step Date_parse jsyaml_dumps r entry = Ok r' ->
  exists this1 filename content,
    convertEntry Date_parse jsyaml_dumps
      (this r) entry = Ok (this1, (filename, content))
    /\ outputZip r' = <[js "entries/" ++ filename := content]> (outputZip r)
    /\ converted r' = S (converted r)
    /\ skippedDuplicates (this r') = skippedDuplicates (this r)
    /\ usedFilenames (this r') = usedFilenames this1
    /\ allowDuplicates (this r') = allowDuplicates (this r).
Proof.
  intros Hskip H. unfold convert_step in H. rewrite Hskip in H. unfold bind in H.
  destruct (convertEntry Date_parse jsyaml_dumps (this r) entry)
    as [[this1 [filename content]]|] eqn:E; [|discriminate].
  exists this1, filename, content. split; [reflexivity|].
  pose proof (convertEntry_frame Date_parse jsyaml_dumps _ _ _ _ E) as (Ha & _ & Hs).
  injection H as <-. cbn [outputZip converted this].
  split; [reflexivity|]. split; [reflexivity|].
  destruct (allowDuplicates this1) eqn:Eallow.
  - repeat split; congruence.
  - unfold recordEntry.
    destruct (uuid entry) as [[|c u]|]; cbn; repeat split; congruence.
Qed.

Lemma convert_step_skips r entry r' :
  shouldSkipDuplicate (this r) entry = true ->
  convert_step Date_parse jsyaml_dumps r entry = Ok r' ->
  outputZip r' = outputZip r /\ converted r' = converted r
  /\ skippedDuplicates (this r') = S (skippedDuplicates (this r))
  /\ usedFilenames (this r') = usedFilenames (this r)
  /\ allowDuplicates (this r') = allowDuplicates (this r).
Proof.
  intros Hskip H. unfold convert_step in H. rewrite Hskip in H.
  injection H as <-. repeat split.
Qed.

Lemma convertEntry_usedFilenames this0 entry this1 filename content :
  convertEntry Date_parse jsyaml_dumps this0 entry = Ok (this1, (filename, content)) ->
  exists this0',
    usedFilenames this0' = usedFilenames this0
    /\ generateFilename Date_parse this0' entry = Ok (this1, filename).
Proof.
  unfold convertEntry, bind, dump_frontmatter. intros H.
  destruct (jsyaml_dumps _); [|discriminate].
  destruct (generateFilename _ _ _) as [[this2 f]|] eqn:E; [|discriminate].
  injection H as <- <- _. eexists. split; [|exact E]. reflexivity.
Qed.

(** Every entry is converted or skipped, and no more files are written
    than entries are converted. *)
Lemma convert_entries_accounts entries :
  forall r r',
    convert_entries Date_parse jsyaml_dumps r entries = Ok r' ->
    (converted r' + skippedDuplicates (this r')
     = converted r + skippedDuplicates (this r) + length entries)%nat
    /\ (converted r <= converted r')%nat
    /\ (size (outputZip r') + converted r <= size (outputZip r) + converted r')%nat
    /\ (size (outputZip r) <= size (outputZip r'))%nat.
Proof.
  induction entries as [|entry rest IH]; intros r r' H.
  - injection H as <-. cbn. lia.
  - cbn [convert_entries] in H. unfold bind in H.
    destruct (convert_step Date_parse jsyaml_dumps
                r entry) as [r1|] eqn:E; [|discriminate].
    destruct (IH r1 r' H) as (H1 & H2 & H3 & H4).
    destruct (shouldSkipDuplicate (this r) entry) eqn:Eskip.
    + destruct (convert_step_skips r entry r1 Eskip E) as (Ho & Hc & Hs & _).
      rewrite Ho, Hc, Hs in *. cbn [length]. lia.
    + destruct (convert_step_converts r entry r1 Eskip E)
        as (this1 & f & c & _ & Ho & Hc & Hs & _).
      rewrite Hc, Hs in *. cbn [length].
      assert (size (outputZip r) <= size (outputZip r1) <= S (size (outputZip r)))%nat.
      { rewrite Ho. destruct (outputZip r !! (js "entries/" ++ f)) eqn:El.
        - rewrite map_size_insert_Some by eauto. lia.
        - rewrite map_size_insert_None by exact El. lia. }
      lia.
Qed.

End Loop.

(** Property X13.  When the loop over the entries ends, every entry has
    been counted once, as converted or as skipped; the output archive has
    lost no file, and has gained at most one file per converted entry. *)
Theorem converted_and_skipped_add_up
    (Date_parse : jsstring -> option Z)
    (jsyaml_dumps : list (string * yaml) -> bool) (r r' : Run) (entries : list Entry)
    (Hrun : convert_entries Date_parse jsyaml_dumps r entries = Ok r') :
  (converted r' + skippedDuplicates (this r')
   = converted r + skippedDuplicates (this r) + length entries)%nat
  /\ (size (outputZip r) <= size (outputZip r')
      <= size (outputZip r) + (converted r' - converted r))%nat.
Proof.
  destruct (convert_entries_accounts Date_parse jsyaml_dumps
              entries r r' Hrun) as (H1 & H2 & H3 & H4).
  split; [exact H1|lia].
Qed.

Lemma converted_and_skipped_add_up_witness :
  (converted (after (convert_entries example_Date_parse example_jsyaml_dumps
                       (fresh_run false)
                       [morning; entry_a; morning; entry_b]))
   + skippedDuplicates
       (this (after (convert_entries example_Date_parse example_jsyaml_dumps
                       (fresh_run false)
                       [morning; entry_a; morning; entry_b])))
   = converted (fresh_run false) + skippedDuplicates (this (fresh_run false))
     + length [morning; entry_a; morning; entry_b])%nat
  /\ (size (outputZip (fresh_run false))
      <= size (outputZip (after (convert_entries example_Date_parse example_jsyaml_dumps
                                   (fresh_run false)
                                   [morning; entry_a; morning; entry_b])))
      <= size (outputZip (fresh_run false))
         + (converted (after (convert_entries example_Date_parse example_jsyaml_dumps
                                (fresh_run false)
                                [morning; entry_a; morning; entry_b]))
            - converted (fresh_run false)))%nat.
Proof.
  apply (converted_and_skipped_add_up example_Date_parse example_jsyaml_dumps
           (fresh_run false)
           (after (convert_entries example_Date_parse example_jsyaml_dumps
                     (fresh_run false)
                     [morning; entry_a; morning; entry_b]))
           [morning; entry_a; morning; entry_b]).
  vm_compute. reflexivity.
Defined.

(** Property X14.  With deduplication on, an entry with an identifier
    that has just been converted is skipped when it comes again: the
    second step succeeds, writes no file, and counts one more skipped
    duplicate. *)
Theorem repeated_entry_is_skipped
    (Date_parse : jsstring -> option Z)
    (jsyaml_dumps
        : list (string * yaml) -> bool) (r r1 : Run) (entry : Entry) (u : jsstring)
    (Hdedup : allowDuplicates (this r) = false)
    (Huuid : uuid entry = Some u)
    (Hu : u <> [])
    (Hstep : convert_step Date_parse jsyaml_dumps r entry = Ok r1) :
  exists r2,
    convert_step Date_parse jsyaml_dumps r1 entry = Ok r2
    /\ outputZip r2 = outputZip r1
    /\ converted r2 = converted r1
    /\ skippedDuplicates (this r2) = S (skippedDuplicates (this r1)).
Proof.
  destruct (convert_step_seenEntries Date_parse jsyaml_dumps
              r entry r1 Hdedup Hstep) as [Hallow _].
  pose proof (convert_step_lookup Date_parse jsyaml_dumps
                r entry r1 u Hdedup Hstep Hu) as Hseen.
  rewrite bool_decide_eq_true_2 in Hseen by exact Huuid.
  assert (Hskip : shouldSkipDuplicate (this r1) entry = true).
  { apply shouldSkipDuplicate_true. split; [exact Hallow|]. exists u. auto. }
  unfold convert_step. rewrite Hskip. eexists. split; [reflexivity|].
  repeat split.
Qed.

Lemma repeated_entry_is_skipped_witness :
  exists r2,
    convert_step example_Date_parse example_jsyaml_dumps
      (after (convert_step example_Date_parse example_jsyaml_dumps
                (fresh_run false) morning)) morning
    = Ok r2
    /\ outputZip r2
       = outputZip (after (convert_step example_Date_parse example_jsyaml_dumps
                             (fresh_run false) morning))
    /\ converted r2
       = converted (after (convert_step example_Date_parse example_jsyaml_dumps
                             (fresh_run false) morning))
    /\ skippedDuplicates (this r2)
       = S (skippedDuplicates
              (this (after (convert_step example_Date_parse example_jsyaml_dumps
                              (fresh_run false) morning)))).
Proof.
  apply (repeated_entry_is_skipped example_Date_parse example_jsyaml_dumps
           (fresh_run false)
           (after (convert_step example_Date_parse example_jsyaml_dumps
                     (fresh_run false) morning))
           morning (js "ABCDEFGH12345678")).
  - reflexivity.
  - reflexivity.
  - discriminate.
  - vm_compute. reflexivity.
Defined.

Lemma startsWith_app p s : startsWith p (p ++ s) = true.
Proof.
  induction p as [|a p IH]; [destruct s; reflexivity|].
  cbn. rewrite N.eqb_refl. exact IH.
Qed.

(** Property X15.  The loop over the entries writes under [entries/]
    only: every other path of the output archive holds after the loop
    what it held before, the copied media files among them. *)
Theorem entries_leave_other_files
    (Date_parse : jsstring -> option Z)
    (jsyaml_dumps : list (string * yaml) -> bool) (r r' : Run) (entries : list Entry)
    (path : jsstring)
    (Hrun : convert_entries Date_parse jsyaml_dumps r entries = Ok r')
    (Hpath : startsWith (js "entries/") path = false) :
  outputZip r' !! path = outputZip r !! path.
Proof.
  revert r Hrun. induction entries as [|entry rest IH]; intros r Hrun.
  - injection Hrun as <-. reflexivity.
  - cbn [convert_entries] in Hrun. unfold bind in Hrun.
    destruct (convert_step Date_parse jsyaml_dumps
                r entry) as [r1|] eqn:E; [|discriminate].
    rewrite (IH r1 Hrun).
    destruct (shouldSkipDuplicate (this r) entry) eqn:Eskip.
    + destruct (convert_step_skips Date_parse jsyaml_dumps
                  r entry r1 Eskip E) as (-> & _).
      reflexivity.
    + destruct (convert_step_converts Date_parse jsyaml_dumps r entry r1 Eskip E)
        as (this1 & f & c & _ & -> & _).
      apply lookup_insert_ne. intros <-.
      rewrite startsWith_app in Hpath. discriminate.
Qed.

Lemma entries_leave_other_files_witness :
  outputZip (after (convert_entries example_Date_parse example_jsyaml_dumps
                      media_copied [morning; entry_a]))
    !! js "attachments/f00d.jpeg"
  = outputZip media_copied !! js "attachments/f00d.jpeg".
Proof.
  apply (entries_leave_other_files example_Date_parse example_jsyaml_dumps media_copied
           (after (convert_entries example_Date_parse example_jsyaml_dumps
                     media_copied [morning; entry_a]))
           [morning; entry_a] (js "attachments/f00d.jpeg")).
  - vm_compute. reflexivity.
  - reflexivity.
Defined.

Lemma shouldSkipDuplicate_unseen this0 entry :
  seenEntries this0 = ∅ -> shouldSkipDuplicate this0 entry = false.
Proof.
  intros H. unfold shouldSkipDuplicate. rewrite H.
  destruct (allowDuplicates this0); [reflexivity|].
  destruct (uuid entry) as [[|c u]|]; try reflexivity.
Qed.

(** Property X16.  A journal of two entries that are both converted
    gives two files: with two entries the disambiguation by the
    identifier prefix is enough to keep their names apart. *)
Theorem two_entries_two_files
    (Date_parse : jsstring -> option Z)
    (jsyaml_dumps
        : list (string * yaml) -> bool) (allow : bool) (e1 e2 : Entry) (r : Run)
    (Hrun : convert_entries Date_parse jsyaml_dumps (fresh_run allow) [e1; e2] = Ok r)
    (Hboth : converted r = 2%nat) :
  size (outputZip r) = 2%nat.
Proof.
  cbn [convert_entries] in Hrun. unfold bind in Hrun.
  destruct (convert_step Date_parse jsyaml_dumps
              (fresh_run allow) e1) as [r1|] eqn:E1; [|discriminate].
  destruct (convert_step Date_parse jsyaml_dumps
              r1 e2) as [r2|] eqn:E2; [|discriminate].
  injection Hrun as <-.
  assert (Hs1 : shouldSkipDuplicate (this (fresh_run allow)) e1 = false)
    by (apply shouldSkipDuplicate_unseen; reflexivity).
  destruct (convert_step_converts Date_parse jsyaml_dumps _ _ _ Hs1 E1)
    as (this1 & f1 & c1 & Hc1 & Ho1 & Hn1 & _ & Hu1 & _).
  destruct (shouldSkipDuplicate (this r1) e2) eqn:Hs2.
  { destruct (convert_step_skips Date_parse jsyaml_dumps _ _ _ Hs2 E2) as (_ & Hn2 & _).
    rewrite Hn2, Hn1 in Hboth. discriminate. }
  destruct (convert_step_converts Date_parse jsyaml_dumps _ _ _ Hs2 E2)
    as (this2 & f2 & c2 & Hc2 & Ho2 & _).
  destruct (convertEntry_usedFilenames Date_parse jsyaml_dumps
              _ _ _ _ _ Hc1) as (s1 & Hs1u & Hg1).
  destruct (convertEntry_usedFilenames Date_parse jsyaml_dumps
              _ _ _ _ _ Hc2) as (s2 & Hs2u & Hg2).
  destruct (generateFilename_cases Date_parse _ _ _ _ Hg1) as (Hused1 & _).
  destruct (generateFilename_cases Date_parse _ _ _ _ Hg2) as (_ & base & Hcase).
  rewrite Hs1u in Hused1. cbn in Hused1.
  rewrite Hs2u, Hu1, Hused1 in Hcase.
  assert (Hne : f2 <> f1).
  { destruct Hcase as [[-> Hfresh]|(Htaken & u & _ & ->)].
    - intros Heq. apply Hfresh. rewrite Heq.
      apply elem_of_union. left. apply elem_of_singleton. reflexivity.
    - apply elem_of_union in Htaken as [Hin | Hin].
      + apply elem_of_singleton in Hin. rewrite <- Hin.
        apply suffixed_name_differs.
      + apply elem_of_empty in Hin. destruct Hin. }
  rewrite Ho2, Ho1. cbn [outputZip fresh_run].
  rewrite map_size_insert_None.
  - rewrite map_size_insert_None by apply lookup_empty. reflexivity.
  - rewrite lookup_insert_ne; [apply lookup_empty|].
    intros Heq. apply app_inv_head in Heq. congruence.
Qed.

Lemma two_entries_two_files_witness :
  size (outputZip (after (convert_entries example_Date_parse example_jsyaml_dumps
                            (fresh_run true)
                            [morning; morning]))) = 2%nat.
Proof.
  apply (two_entries_two_files example_Date_parse example_jsyaml_dumps
           true morning morning
           (after (convert_entries example_Date_parse example_jsyaml_dumps
                     (fresh_run true)
                     [morning; morning])));
    vm_compute; reflexivity.
Defined.

(** Property X17.  An entry without identifier, or with the empty
    identifier, is never skipped and never recorded: it is converted
    every time it occurs, with or without deduplication. *)
Theorem anonymous_entry_is_always_converted
    (Date_parse : jsstring -> option Z)
    (jsyaml_dumps : list (string * yaml) -> bool) (r r' : Run) (entry : Entry)
    (Hanon : uuid entry = None \/ uuid entry = Some [])
    (Hstep : convert_step Date_parse jsyaml_dumps r entry = Ok r') :
  shouldSkipDuplicate (this r) entry = false
  /\ converted r' = S (converted r)
  /\ skippedDuplicates (this r') = skippedDuplicates (this r)
  /\ seenEntries (this r') = seenEntries (this r).
Proof.
  assert (Hskip : shouldSkipDuplicate (this r) entry = false).
  { unfold shouldSkipDuplicate. destruct (allowDuplicates _); [reflexivity|].
    destruct Hanon as [-> | ->]; reflexivity. }
  split; [exact Hskip|].
  destruct (convert_step_converts Date_parse jsyaml_dumps _ _ _ Hskip Hstep)
    as (this1 & f & c & Hc & _ & Hn & Hs & _).
  split; [exact Hn|]. split; [exact Hs|].
  unfold convert_step in Hstep. rewrite Hskip, Hc in Hstep. cbn [bind] in Hstep.
  injection Hstep as <-. cbn [this].
  pose proof (convertEntry_frame Date_parse jsyaml_dumps _ _ _ _ Hc) as (_ & Hseen & _).
  rewrite <- Hseen.
  destruct (allowDuplicates this1); [reflexivity|].
  unfold recordEntry. destruct Hanon as [-> | ->]; reflexivity.
Qed.

Lemma anonymous_entry_is_always_converted_witness :
  shouldSkipDuplicate
    (this (after (convert_step example_Date_parse example_jsyaml_dumps (fresh_run false)
                    (plain_entry (Some []) (Some (js "# Note"))))))
    (plain_entry (Some []) (Some (js "# Note"))) = false
  /\ converted (after (convert_step example_Date_parse example_jsyaml_dumps
                         (after (convert_step example_Date_parse example_jsyaml_dumps
                                   (fresh_run false)
                                   (plain_entry (Some []) (Some (js "# Note")))))
                         (plain_entry (Some []) (Some (js "# Note")))))
     = S (converted (after (convert_step example_Date_parse example_jsyaml_dumps
                              (fresh_run false)
                              (plain_entry (Some []) (Some (js "# Note"))))))
  /\ skippedDuplicates
       (this (after (convert_step example_Date_parse example_jsyaml_dumps
                       (after (convert_step example_Date_parse example_jsyaml_dumps
                                 (fresh_run false)
                                 (plain_entry (Some []) (Some (js "# Note")))))
                       (plain_entry (Some []) (Some (js "# Note"))))))
     = skippedDuplicates
         (this (after (convert_step example_Date_parse example_jsyaml_dumps
                         (fresh_run false)
                         (plain_entry (Some []) (Some (js "# Note"))))))
  /\ seenEntries
       (this (after (convert_step example_Date_parse example_jsyaml_dumps
                       (after (convert_step example_Date_parse example_jsyaml_dumps
                                 (fresh_run false)
                                 (plain_entry (Some []) (Some (js "# Note")))))
                       (plain_entry (Some []) (Some (js "# Note"))))))
     = seenEntries
         (this (after (convert_step example_Date_parse example_jsyaml_dumps
                         (fresh_run false)
                         (plain_entry (Some []) (Some (js "# Note")))))).
Proof.
  apply (anonymous_entry_is_always_converted example_Date_parse example_jsyaml_dumps
           (after (convert_step example_Date_parse example_jsyaml_dumps
                     (fresh_run false)
                     (plain_entry (Some []) (Some (js "# Note")))))
           (after (convert_step example_Date_parse example_jsyaml_dumps
                     (after (convert_step example_Date_parse example_jsyaml_dumps
                               (fresh_run false)
                               (plain_entry (Some []) (Some (js "# Note")))))
                     (plain_entry (Some []) (Some (js "# Note")))))
           (plain_entry (Some []) (Some (js "# Note")))).
  - right. reflexivity.
  - vm_compute. reflexivity.
Defined.

(** ** Media files and the output archive *)

Lemma dropWhile_head p s :
  dropWhile p s = [] \/ exists c rest, dropWhile p s = c :: rest /\ p c = false.
Proof.
  induction s as [|c s IH]; [left; reflexivity|].
  cbn. destruct (p c) eqn:E; [exact IH|].
  right. exists c, s. split; [reflexivity|exact E].
Qed.

(** Property X18.  The name under which a media file is copied is the
    part of its path after the last slash: it holds no slash, and the
    path is that name after either nothing or a prefix that ends in a
    slash. *)
Theorem after_last_slash_spec (s : jsstring) :
  forallb (fun c => negb (c =? ch "/")%N) (after_last_slash s) = true
  /\ exists dirs,
       s = dirs ++ after_last_slash s
       /\ (dirs = [] \/ exists d, dirs = d ++ js "/").
Proof.
  unfold after_last_slash.
  set (p := fun c : N => negb (c =? ch "/")%N).
  split.
  - rewrite forallb_forall. intros c Hin. apply in_rev in Hin.
    pose proof (takeWhile_all p (rev s)) as H.
    rewrite forallb_forall in H. exact (H c Hin).
  - exists (rev (dropWhile p (rev s))). split.
    + rewrite <- rev_app_distr, takeWhile_dropWhile, rev_involutive. reflexivity.
    + destruct (dropWhile_head p (rev s)) as [-> | (c & rest & -> & Hc)];
        [left; reflexivity|].
      right. exists (rev rest). cbn [rev]. f_equal.
      unfold p in Hc. apply negb_false_iff, N.eqb_eq in Hc. rewrite Hc. reflexivity.
Qed.

Lemma last_media_snoc name files path f :
  last_media name (files ++ [(path, f)])
  = if is_media_file (path, f) && bool_decide (after_last_slash path = name)
    then Some f else last_media name files.
Proof.
  induction files as [|[p g] files IH].
  - cbn [last_media app]. destruct (_ && _); reflexivity.
  - cbn [last_media app]. rewrite IH.
    destruct (is_media_file (path, f) && _); [reflexivity|].
    reflexivity.
Qed.

Lemma copy_media_snoc files file out :
  copy_media (files ++ [file]) out
  = if is_media_file file
    then <[js "attachments/" ++ after_last_slash (fst file) := Binary (data (snd file))]>
           (copy_media files out)
    else copy_media files out.
Proof.
  unfold copy_media. rewrite List.filter_app, fold_left_app. cbn [List.filter].
  destruct (is_media_file file); cbn [app fold_left].
  - destruct file as [p f]. reflexivity.
  - reflexivity.
Qed.

Lemma copy_media_get
    (files : list (list N * ZipObject)) (out : gmap (list N) FileData)
    (path : jsstring) :
  copy_media files out !! path
  = match strip_prefix (js "attachments/") path with
    | Some name =>
        match last_media name files with
        | Some f => Some (Binary (data f))
        | None => out !! path
        end
    | None => out !! path
    end.
Proof.
  induction files as [|[p f] files IH] using rev_ind.
  - destruct (strip_prefix (js "attachments/") path); reflexivity.
  - rewrite copy_media_snoc. cbn [fst snd].
    destruct (strip_prefix (js "attachments/") path) as [name|] eqn:Es.
    + apply strip_prefix_Some in Es. subst path.
      rewrite last_media_snoc.
      destruct (is_media_file (p, f)); cbn [andb]; [|exact IH].
      case_bool_decide as Hn.
      * subst name. apply lookup_insert_eq.
      * rewrite lookup_insert_ne; [exact IH|].
        intros Heq. apply app_inv_head in Heq. exact (Hn Heq).
    + destruct (is_media_file (p, f)); [|exact IH].
      rewrite lookup_insert_ne; [exact IH|].
      intros Heq. rewrite <- Heq, strip_prefix_app in Es. discriminate.
Qed.

(** Property X19.  After the media files are copied, the path
    [attachments/name] holds the content of the last media file of the
    input archive whose base name is [name], whatever folder it came
    from; every other path of the output archive is untouched. *)
Theorem copy_media_lookup
    (files : list (list N * ZipObject)) (out : gmap (list N) FileData)
    (path : jsstring) :
  copy_media files out !! path
  = match strip_prefix (js "attachments/") path with
    | Some name =>
        match last_media name files with
        | Some f => Some (Binary (data f))
        | None => out !! path
        end
    | None => out !! path
    end.
Proof. apply copy_media_get. Qed.

Section Layout.

Variable Date_parse : jsstring -> option Z.
Variable JSON_parse : list N -> option Journal.
Variable jsyaml_dumps : list (string * yaml) -> bool.

Lemma generateFilename_throws this0 entry e :
  generateFilename Date_parse this0 entry = Throw e ->
  e = TypeError \/ e = RangeError.
Proof.
  unfold generateFilename, bind, toISODate, uuid_slice.
  destruct (new_Date _ _); [|intros [= <-]; right; reflexivity].
  destruct (extractTitle _) as [[|? ?]|]; destruct (uuid entry);
    try destruct (bool_decide _); intros [= <-] || discriminate; left; reflexivity.
Qed.

Lemma convert_entries_throws entries :
  forall r e, convert_entries Date_parse jsyaml_dumps r entries = Throw e ->
              e = TypeError \/ e = RangeError \/ e = YAMLException.
Proof.
  induction entries as [|entry rest IH]; intros r e H; [discriminate|].
  cbn [convert_entries] in H. unfold bind in H.
  destruct (convert_step Date_parse jsyaml_dumps r entry) as [r1|e1] eqn:E.
  - exact (IH _ _ H).
  - injection H as <-. unfold convert_step in E.
    destruct (shouldSkipDuplicate _ _); [discriminate|].
    unfold bind, convertEntry, dump_frontmatter in E. unfold bind in E.
    destruct (jsyaml_dumps _); [|injection E as <-; auto].
    destruct (generateFilename _ _ _) as [[this1 filename]|e2] eqn:Eg;
      [discriminate|].
    injection E as <-.
    destruct (generateFilename_throws _ _ _ Eg) as [-> | ->]; auto.
Qed.

(** Property X20.  The conversion fails with a [SyntaxError] exactly when
    the first file of the archive whose name ends in [.json] is not JSON:
    no later JSON file is tried. *)
Theorem first_json_file_decides
    (this0 : State) (files : list (list N * ZipObject)) :
  convert Date_parse JSON_parse jsyaml_dumps this0 files = Throw SyntaxError
  <-> exists name f, first_json files = Some (name, f)
                     /\ JSON_parse (data f) = None.
Proof.
  pose proof (filter_json_find files) as Hfind. unfold convert.
  destruct (first_json files) as [[n g]|].
  - destruct Hfind as (_ & Hz & others & Hf). rewrite Hf, Hz.
    split.
    + intros H. exists n, g. split; [reflexivity|].
      destruct (JSON_parse (data g)) as [[|entries]|]; try discriminate;
        [|reflexivity].
      destruct (convert_entries_throws _ _ _ H) as [? | [? | ?]]; discriminate.
    + intros (name & f & [= <- <-] & ->). reflexivity.
  - rewrite Hfind. split; [discriminate|].
    intros (name & f & Hn & _). discriminate.
Qed.

Lemma convert_entries_output entries :
  forall r r' path v,
    convert_entries Date_parse jsyaml_dumps r entries = Ok r' ->
    outputZip r' !! path = Some v ->
    (startsWith (js "entries/") path = true /\ exists fm c, v = Markdown fm c)
    \/ outputZip r !! path = Some v.
Proof.
  induction entries as [|entry rest IH]; intros r r' path v H Hv.
  - injection H as <-. right. exact Hv.
  - cbn [convert_entries] in H. unfold bind in H.
    destruct (convert_step Date_parse jsyaml_dumps
                r entry) as [r1|] eqn:E; [|discriminate].
    destruct (IH _ _ _ _ H Hv) as [Hl | Hr]; [left; exact Hl|].
    destruct (shouldSkipDuplicate (this r) entry) eqn:Hs.
    + destruct (convert_step_skips Date_parse jsyaml_dumps _ _ _ Hs E) as (Ho & _).
      right. rewrite <- Ho. exact Hr.
    + destruct (convert_step_converts Date_parse jsyaml_dumps _ _ _ Hs E)
        as (this1 & f & c & Hc & Ho & _).
      rewrite Ho in Hr.
      destruct (decide (js "entries/" ++ f = path)) as [<- | Hne].
      * rewrite lookup_insert_eq in Hr. injection Hr as <-. left.
        split; [apply startsWith_app|].
        unfold convertEntry, bind, dump_frontmatter in Hc.
        destruct (jsyaml_dumps _); [|discriminate].
        destruct (generateFilename _ _ _) as [[t fn]|]; [|discriminate].
        injection Hc as _ _ <-. eauto.
      * rewrite lookup_insert_ne in Hr by exact Hne. right. exact Hr.
Qed.

(** Property X21.  Every file of the output archive of a conversion is
    either a Markdown note under [entries/], or, under [attachments/], the
    content of the last media file of the input with that base name. *)
Theorem output_layout
    (this0 : State) (files : list (list N * ZipObject)) (r : Run)
    (path : jsstring) (v : FileData)
    (Hrun : convert Date_parse JSON_parse jsyaml_dumps this0 files = Ok r)
    (Hfile : outputZip r !! path = Some v) :
  (startsWith (js "entries/") path = true /\ exists fm c, v = Markdown fm c)
  \/ (exists name f,
        path = js "attachments/" ++ name
        /\ last_media name files = Some f
        /\ v = Binary (data f)).
Proof.
  unfold convert in Hrun.
  destruct (List.filter _ _) as [|first others]; [discriminate|].
  destruct (zip_file first files) as [g|]; [|discriminate].
  destruct (JSON_parse (data g)) as [[|entries]|]; try discriminate.
  destruct (convert_entries_output _ _ _ _ _ Hrun Hfile) as [Hl | Hr];
    [left; exact Hl|].
  right. cbn [outputZip] in Hr. rewrite copy_media_get in Hr.
  destruct (strip_prefix (js "attachments/") path) as [name|] eqn:Es;
    [|rewrite lookup_empty in Hr; discriminate].
  apply strip_prefix_Some in Es.
  destruct (last_media name files) as [f|] eqn:El;
    [|rewrite lookup_empty in Hr; discriminate].
  injection Hr as <-. exists name, f. auto.
Qed.

Lemma register_all_grows kind_of items :
  forall index id, is_Some (index !! id) ->
                   is_Some (register_all kind_of items index !! id).
Proof.
  intros index id H. rewrite register_all_lookup.
  destruct (last_registration _ _); [eauto|exact H].
Qed.

Lemma buildPhotoMap_grows index entry id :
  is_Some (index !! id) -> is_Some (buildPhotoMap index entry !! id).
Proof.
  intros H. unfold buildPhotoMap. repeat apply register_all_grows. exact H.
Qed.

(** Property X22.  The media index is never reset: an identifier that is
    in the index before the loop over the entries is in it after the
    loop, so a reference in a later entry resolves against the media of
    an earlier one. *)
Theorem media_index_only_grows
    (entries : list Entry) (r r' : Run) (id : jsstring)
    (Hrun : convert_entries Date_parse jsyaml_dumps r entries = Ok r')
    (Hid : is_Some (photoMap (this r) !! id)) :
  is_Some (photoMap (this r') !! id).
Proof.
  revert r Hrun Hid.
  induction entries as [|entry rest IH]; intros r H Hid.
  - injection H as <-. exact Hid.
  - cbn [convert_entries] in H. unfold bind in H.
    destruct (convert_step Date_parse jsyaml_dumps
                r entry) as [r1|] eqn:E; [|discriminate].
    apply (IH r1 H). clear IH H.
    unfold convert_step in E.
    destruct (shouldSkipDuplicate (this r) entry).
    + injection E as <-. exact Hid.
    + unfold bind, convertEntry, dump_frontmatter in E. unfold bind in E.
      destruct (jsyaml_dumps _); [|discriminate].
      destruct (generateFilename _ _ _) as [[t fn]|] eqn:Eg; [|discriminate].
      injection E as <-. cbn [this].
      pose proof (generateFilename_frame Date_parse _ _ _ _ Eg) as (_ & Hp & _).
      assert (Ht : photoMap t = buildPhotoMap (photoMap (this r)) entry) by exact Hp.
      destruct (allowDuplicates t).
      * rewrite Ht. apply buildPhotoMap_grows, Hid.
      * assert (Hrec : photoMap (recordEntry t entry) = photoMap t).
        { unfold recordEntry. destruct (uuid entry) as [[|? ?]|]; reflexivity. }
        rewrite Hrec, Ht. apply buildPhotoMap_grows, Hid.
Qed.

End Layout.

Lemma output_layout_witness :
  (startsWith (js "entries/") (js "attachments/f00d.jpeg") = true
   /\ exists fm c, Binary [2]%N = Markdown fm c)
  \/ (exists name f,
        js "attachments/f00d.jpeg" = js "attachments/" ++ name
        /\ last_media name same_name_twice = Some f
        /\ Binary [2]%N = Binary (data f)).
Proof.
  apply (output_layout example_Date_parse example_JSON_parse example_jsyaml_dumps
           (constructor false) same_name_twice
           (after (convert example_Date_parse example_JSON_parse example_jsyaml_dumps
                     (constructor false) same_name_twice))
           (js "attachments/f00d.jpeg") (Binary [2]%N)).
  - vm_compute. reflexivity.
  - vm_compute. reflexivity.
Defined.

Lemma media_index_only_grows_witness :
  is_Some
    (photoMap (this (after (convert_entries example_Date_parse example_jsyaml_dumps
                              one_photo_indexed [morning; entry_a])))
       !! js "AA11").
Proof.
  apply (media_index_only_grows example_Date_parse example_jsyaml_dumps
           [morning; entry_a]
           one_photo_indexed
           (after (convert_entries example_Date_parse example_jsyaml_dumps
                     one_photo_indexed
                     [morning; entry_a]))
           (js "AA11")).
  - vm_compute. reflexivity.
  - vm_compute. eexists. reflexivity.
Defined.

(** ** The frontmatter as a whole *)

Lemma keys_app a b : keys (a ++ b) = keys a ++ keys b.
Proof. apply List.map_app. Qed.

Lemma keys_set_str k o : sublist (keys (set_str k o)) [k].
Proof. destruct o as [[|? ?]|]; cbn; try apply sublist_nil_l; reflexivity. Qed.

Lemma keys_set_flag k b : sublist (keys (set_flag k b)) [k].
Proof. destruct b; cbn; try apply sublist_nil_l; reflexivity. Qed.

Lemma keys_set_sub k sub : sublist (keys (set_sub k sub)) [k].
Proof. destruct sub; cbn; try apply sublist_nil_l; reflexivity. Qed.

Lemma sublist_cons_app (a b : list string) k l :
  sublist a [k] -> sublist b l -> sublist (a ++ b) (k :: l).
Proof. intros Ha Hb. exact (sublist_app a [k] b l Ha Hb). Qed.

(** Property X23.  The keys of the frontmatter are a selection of the
    fourteen keys [uuid], [created], ..., [editing_time_seconds], in that
    order, each at most once. *)
Theorem buildFrontmatter_key_order (entry : Entry) :
  sublist (keys (buildFrontmatter entry)) FRONTMATTER_KEYS
  /\ NoDup (keys (buildFrontmatter entry)).
Proof.
  assert (H : sublist (keys (buildFrontmatter entry)) FRONTMATTER_KEYS).
  { unfold buildFrontmatter, FRONTMATTER_KEYS. rewrite !keys_app.
    repeat (apply sublist_cons_app;
            [first [apply keys_set_str | apply keys_set_flag | apply keys_set_sub | idtac]|]).
    - destruct (tags entry); [apply sublist_nil_l|reflexivity].
    - destruct (location entry); [apply keys_set_sub|apply sublist_nil_l].
    - destruct (weather entry); [apply keys_set_sub|apply sublist_nil_l].
    - destruct (userActivity entry); [apply keys_set_sub|apply sublist_nil_l].
    - destruct (photos entry); [apply sublist_nil_l|reflexivity].
    - destruct (editingTime entry) as [q|]; [|apply sublist_nil_l].
      destruct (Qle_bool q 0); [apply sublist_nil_l|reflexivity]. }
  split; [exact H|].
  eapply sublist_NoDup; [|exact H].
  unfold FRONTMATTER_KEYS. apply NoDup_ListNoDup.
  repeat (constructor; [cbn; intuition discriminate|]). constructor.
Qed.

Lemma get_In key obj v : get key obj = Some v -> In (key, v) obj.
Proof.
  induction obj as [|[k w] obj IH]; [discriminate|].
  cbn. destruct (String.eqb k key) eqn:E.
  - apply String.eqb_eq in E. intros [= <-]. left. congruence.
  - intros H. right. exact (IH H).
Qed.

Lemma In_set_sub key sub k v :
  In (k, v) (set_sub key sub) -> v = YMap sub /\ sub <> [].
Proof.
  destruct sub as [|x sub]; [intros []|].
  intros [[= <- <-]|[]]. split; [reflexivity|discriminate].
Qed.

(** Property X24.  A key of the frontmatter that holds a record is one
    of [location], [weather], [activity] and [device], and the record is
    not empty. *)
Theorem blocks_are_never_empty (entry : Entry) (key : string) (fields : list (string * yaml))
    (Hget : get key (buildFrontmatter entry) = Some (YMap fields)) :
  fields <> []
  /\ (key = "location" \/ key = "weather" \/ key = "activity" \/ key = "device")%string.
Proof.
  apply get_In in Hget. unfold buildFrontmatter in Hget.
  repeat (apply in_app_or in Hget as [Hget|Hget]).
  - destruct (uuid entry) as [[|? ?]|]; cbn in Hget; intuition discriminate.
  - destruct (creationDate entry) as [| |[|? ?]]; cbn in Hget; intuition discriminate.
  - destruct (modifiedDate entry) as [[|? ?]|]; cbn in Hget; intuition discriminate.
  - destruct (timeZone entry) as [[|? ?]|]; cbn in Hget; intuition discriminate.
  - destruct (starred entry); cbn in Hget; intuition discriminate.
  - destruct (isPinned entry); cbn in Hget; intuition discriminate.
  - destruct (isAllDay entry); cbn in Hget; intuition discriminate.
  - destruct (tags entry); cbn in Hget; intuition discriminate.
  - destruct (location entry) as [loc|]; [|destruct Hget].
    pose proof (In_set_sub _ _ _ _ Hget) as [[= ->] Hne].
    split; [exact Hne|]. destruct (location_object loc); [destruct Hget|].
    destruct Hget as [[= <-]|[]]. auto.
  - destruct (weather entry) as [w|]; [|destruct Hget].
    pose proof (In_set_sub _ _ _ _ Hget) as [[= ->] Hne].
    split; [exact Hne|]. destruct (weather_object w); [destruct Hget|].
    destruct Hget as [[= <-]|[]]. auto.
  - destruct (userActivity entry) as [a|]; [|destruct Hget].
    pose proof (In_set_sub _ _ _ _ Hget) as [[= ->] Hne].
    split; [exact Hne|]. destruct (activity_object a); [destruct Hget|].
    destruct Hget as [[= <-]|[]]. auto.
  - pose proof (In_set_sub _ _ _ _ Hget) as [[= ->] Hne].
    split; [exact Hne|]. destruct (device_object entry); [destruct Hget|].
    destruct Hget as [[= <-]|[]]. auto.
  - destruct (photos entry); cbn in Hget; intuition discriminate.
  - destruct (editingTime entry) as [q|]; [|destruct Hget].
    destruct (Qle_bool q 0); cbn in Hget; intuition discriminate.
Qed.

Lemma blocks_are_never_empty_witness :
  weather_object full_moon_weather <> []
  /\ ("weather" = "location" \/ "weather" = "weather"
      \/ "weather" = "activity" \/ "weather" = "device")%string.
Proof.
  apply (blocks_are_never_empty (with_weather (Some full_moon_weather)) "weather"
           (weather_object full_moon_weather)).
  reflexivity.
Defined.

Lemma get_editing_time entry :
  get "editing_time_seconds" (buildFrontmatter entry)
  = match editingTime entry with
    | Some q =>
        if Qle_bool q 0 then None else Some (YNum (inject_Z (Math_round q)))
    | None => None
    end.
Proof.
  unfold buildFrontmatter. rewrite !get_app.
  rewrite !get_set_str, !get_set_flag by reflexivity.
  destruct (tags entry); cbn [get String.eqb Ascii.eqb Bool.eqb];
  (destruct (location entry) as [loc|]; [rewrite get_set_sub by reflexivity|cbn [get]]);
  (destruct (weather entry) as [w|]; [rewrite get_set_sub by reflexivity|cbn [get]]);
  (destruct (userActivity entry); [rewrite get_set_sub by reflexivity|cbn [get]]).
  all: rewrite get_set_sub by reflexivity.
  all: destruct (photos entry); cbn [get String.eqb Ascii.eqb Bool.eqb].
  all: destruct (editingTime entry) as [q|]; try reflexivity.
  all: destruct (Qle_bool q 0); reflexivity.
Qed.

(** Property X25.  A positive editing time is recorded as the nearest
    whole number of seconds, a half rounding up; the number is not
    negative, hence 0 for an editing time under half a second. *)
Theorem editing_time_is_rounded (entry : Entry) (q : Q)
    (Htime : editingTime entry = Some q)
    (Hpos : (0 < q)%Q) :
  get "editing_time_seconds" (buildFrontmatter entry)
  = Some (YNum (inject_Z (Math_round q)))
  /\ (inject_Z (Math_round q) - (1 # 2) <= q)%Q
  /\ (q < inject_Z (Math_round q) + (1 # 2))%Q
  /\ 0 <= Math_round q.
Proof.
  rewrite get_editing_time, Htime.
  apply Qle_bool_false in Hpos as Hb. rewrite Hb.
  split; [reflexivity|]. unfold Math_round.
  pose proof (Qfloor_le (q + (1 # 2))) as Hlo.
  pose proof (Qlt_floor (q + (1 # 2))) as Hhi.
  rewrite inject_Z_plus in Hhi.
  split; [|split].
  - apply (Qplus_le_l _ _ (1 # 2)). ring_simplify. ring_simplify in Hlo. exact Hlo.
  - apply (Qplus_lt_l _ _ (1 # 2)).
    eapply Qlt_le_trans; [exact Hhi|].
    ring_simplify. apply Qle_refl.
  - change 0 with (Qfloor 0). apply Qfloor_resp_le.
    apply Qlt_le_weak. eapply Qlt_trans; [exact Hpos|].
    rewrite <- (Qplus_0_r q) at 1. apply Qplus_lt_r. reflexivity.
Qed.

Lemma editing_time_is_rounded_witness :
  get "editing_time_seconds" (buildFrontmatter quick_edit)
  = Some (YNum (inject_Z (Math_round (2 # 5))))
  /\ (inject_Z (Math_round (2 # 5)) - (1 # 2) <= 2 # 5)%Q
  /\ (2 # 5 < inject_Z (Math_round (2 # 5)) + (1 # 2))%Q
  /\ 0 <= Math_round (2 # 5).
Proof.
  apply (editing_time_is_rounded quick_edit (2 # 5)); reflexivity.
Defined.

Lemma get_device entry :
  get "device" (buildFrontmatter entry)
  = match device_object entry with
    | [] => None
    | fields => Some (YMap fields)
    end.
Proof.
  unfold buildFrontmatter. rewrite !get_app.
  rewrite !get_set_str, !get_set_flag by reflexivity.
  destruct (tags entry); cbn [get String.eqb Ascii.eqb Bool.eqb];
  (destruct (location entry) as [loc|]; [rewrite get_set_sub by reflexivity|cbn [get]]);
  (destruct (weather entry) as [w|]; [rewrite get_set_sub by reflexivity|cbn [get]]);
  (destruct (userActivity entry); [rewrite get_set_sub by reflexivity|cbn [get]]).
  all: rewrite get_set_sub_same.
  all: destruct (device_object entry); [|reflexivity].
  all: destruct (photos entry); cbn [get String.eqb Ascii.eqb Bool.eqb].
  all: destruct (editingTime entry) as [q|]; try reflexivity.
  all: destruct (Qle_bool q 0); reflexivity.
Qed.

(** Property X26.  The frontmatter has a [device] record exactly when the
    entry names the creation device or its type: the model and the
    operating system alone give no record. *)
Theorem device_needs_name_or_type (entry : Entry) :
  get "device" (buildFrontmatter entry) = None
  <-> truthy_str (creationDevice entry) = false
      /\ truthy_str (creationDeviceType entry) = false.
Proof.
  rewrite get_device. unfold device_object.
  destruct (creationDevice entry) as [[|c name]|];
    destruct (creationDeviceType entry) as [[|d kind]|]; cbn;
    split; intros H; try discriminate; auto; destruct H; discriminate.
Qed.

Lemma last_registration_none kind_of items id :
  Forall (fun a => identifier a <> id) items ->
  last_registration id (List.map (registration kind_of) items) = None.
Proof.
  induction items as [|a items IH]; [reflexivity|].
  intros H. apply Forall_cons in H as [Ha H].
  cbn. rewrite (IH H). rewrite decide_False by exact Ha. reflexivity.
Qed.

(** Property X27.  For a photo whose identifier no later attachment of
    the entry shares, the [file] that the frontmatter lists is the target
    of the link that replaces the photo's reference in the body. *)
Theorem photo_file_is_link_target
    (index : gmap (list N) Media) (entry : Entry)
    (before : list Attachment) (p : Attachment) (rest : list Attachment)
    (Hphotos : photos entry = before ++ p :: rest)
    (Hlast : Forall (fun a => identifier a <> identifier p)
               (rest ++ videos entry ++ audios entry ++ pdfAttachments entry)) :
  exists file,
    get "file" (photo_meta p) = Some (YStr file)
    /\ image_replacement (buildPhotoMap index entry) (identifier p)
       = js "![[" ++ file ++ js "]]".
Proof.
  exists (md5 p ++ js "." ++ or_default (type p) (js "jpeg")).
  split; [reflexivity|].
  apply Forall_app in Hlast as [Hrest Hlast].
  apply Forall_app in Hlast as [Hvideos Hlast].
  apply Forall_app in Hlast as [Haudios Hpdfs].
  unfold image_replacement, buildPhotoMap.
  rewrite !register_all_lookup.
  rewrite !last_registration_none by assumption.
  rewrite Hphotos, List.map_app, last_registration_app.
  cbn [List.map last_registration].
  rewrite last_registration_none by assumption.
  unfold registration. rewrite decide_True by reflexivity.
  unfold media_link. cbn [media_md5 media_type].
  rewrite <- !app_assoc. reflexivity.
Qed.

Lemma photo_file_is_link_target_witness :
  exists file,
    get "file" (photo_meta (attachment (js "BB22") (js "cafe") (Some (js "png"))))
    = Some (YStr file)
    /\ image_replacement (buildPhotoMap ∅ two_photos) (js "BB22")
       = js "![[" ++ file ++ js "]]".
Proof.
  apply (photo_file_is_link_target ∅ two_photos
           [attachment (js "AA11") (js "f00d") None]
           (attachment (js "BB22") (js "cafe") (Some (js "png"))) []).
  - reflexivity.
  - repeat constructor. cbn. discriminate.
Defined.
